(** * mre_bot: the availability interpreter and the alert cache

    A shallow embedding of [train_monitor.py] (class [AvailabilityChecker],
    [TrainMonitor.check_job]) and of [main.py] ([check_trains_available],
    [parse_available_trains]), followed by the properties of the
    specification stated and settled over it.

    Layout of the development:
    - [PyStr]: Python [str] values and the built-ins the program calls;
    - [Soup]: the BeautifulSoup document tree and its search methods;
    - [Monitor]: [train_monitor.py], the availability check and the
      alerts of a cycle;
    - [Main]: [main.py];
    - [Config] and [Schedule]: the configuration and the loops of a cycle
      of [train_monitor.py];
    - [Samples] and [Spec]: documents to evaluate the program on, and the
      vocabulary of the statements;
    - the theorems. *)

From Stdlib Require Import ZArith NArith String Ascii List Lia.
From Stdlib Require Import DecimalString DecimalN DecimalZ.
From stdpp Require Import gmap strings list fin_maps.

Local Open Scope string_scope.
Local Open Scope list_scope.
Local Open Scope N_scope.
#[local] Set Warnings "-register-all".

(** A Python [str] is a sequence of Unicode code points. *)
Abbreviation pystr := (list N).

(** ** Python strings *)
Module PyStr.

(** A string literal of the source (all of them are ASCII). *)
Definition py (s : string) : pystr :=
  List.map N_of_ascii (list_ascii_of_string s).

(** What the interpreter's Unicode database and settings decide. The
    program's behaviour on ASCII text is fixed below; these fields are
    consulted for code points from U+0080 on only.
    - [unicode_isdigit c]: [str.isdigit] of the character [c];
    - [unicode_decimal c]: the value of [c] when it is a decimal digit
      (category Nd), which is what [\d] and [int] accept;
    - [unicode_upper c]: the full upper-case mapping of [c];
    - [unicode_lower before c after]: the lower-case mapping of [c] between
      the texts [before] and [after] (the mapping of a capital sigma looks
      at its neighbours);
    - [int_max_str_digits]: [sys.get_int_max_str_digits()], 0 when the
      limit is off or the interpreter has none;
    - [int_error s]: [str(e)] of the ValueError [e] that [int(s)] raises. *)
Class Runtime := {
  unicode_isdigit : N -> bool;
  unicode_decimal : N -> option N;
  unicode_upper : N -> pystr;
  unicode_lower : pystr -> N -> pystr -> pystr;
  int_max_str_digits : nat;
  int_error : pystr -> pystr
}.

Definition isascii (c : N) : bool := c <? 128.

(** [str.isspace] of one character. The list is the whole of Unicode's. *)
Definition isspace (c : N) : bool :=
  ((9 <=? c) && (c <=? 13)) || ((28 <=? c) && (c <=? 32))
  || (c =? 133) || (c =? 160) || (c =? 5760)
  || ((8192 <=? c) && (c <=? 8202))
  || (c =? 8232) || (c =? 8233) || (c =? 8239) || (c =? 8287) || (c =? 12288).

Definition ascii_digit (c : N) : bool := (48 <=? c) && (c <=? 57).

Section WithRuntime.
Context {RT : Runtime}.

(** [str.isdigit] of one character. *)
Definition isdigit (c : N) : bool :=
  if isascii c then ascii_digit c else unicode_isdigit c.

(** The decimal value of a character, [None] when it has none. *)
Definition decimal (c : N) : option N :=
  if isascii c then (if ascii_digit c then Some (c - 48) else None)
  else unicode_decimal c.

Definition isdecimal (c : N) : bool :=
  match decimal c with Some _ => true | None => false end.

Definition upper_char (c : N) : pystr :=
  if isascii c then [if (97 <=? c) && (c <=? 122) then c - 32 else c]
  else unicode_upper c.

(** [s.upper()] *)
Definition upper (s : pystr) : pystr := flat_map upper_char s.

Fixpoint lower_from (before : pystr) (s : pystr) : pystr :=
  match s with
  | [] => []
  | c :: after =>
      (if isascii c then [if (65 <=? c) && (c <=? 90) then c + 32 else c]
       else unicode_lower before c after)
      ++ lower_from (before ++ [c]) after
  end.

(** [s.lower()] *)
Definition lower (s : pystr) : pystr := lower_from [] s.

End WithRuntime.

Fixpoint lstrip (s : pystr) : pystr :=
  match s with
  | c :: t => if isspace c then lstrip t else s
  | [] => []
  end.

(** [s.strip()] *)
Definition strip (s : pystr) : pystr := rev (lstrip (rev (lstrip s))).

Fixpoint str_eqb (a b : pystr) : bool :=
  match a, b with
  | [], [] => true
  | x :: a', y :: b' => (x =? y) && str_eqb a' b'
  | _, _ => false
  end.

Fixpoint startswith (sub s : pystr) : bool :=
  match sub, s with
  | [], _ => true
  | x :: sub', y :: s' => (x =? y) && startswith sub' s'
  | _ :: _, [] => false
  end.

(** [sub in s] *)
Fixpoint contains (sub s : pystr) : bool :=
  startswith sub s ||
  match s with
  | [] => false
  | _ :: t => contains sub t
  end.

(** [s.split(sep)] for a separator of one character. *)
Fixpoint split (sep : N) (s : pystr) : list pystr :=
  match s with
  | [] => [[]]
  | c :: t =>
      if c =? sep then [] :: split sep t
      else match split sep t with
           | w :: ws => (c :: w) :: ws
           | [] => [[c]]
           end
  end.

(** [sep.join(parts)] *)
Fixpoint join (sep : pystr) (parts : list pystr) : pystr :=
  match parts with
  | [] => []
  | [p] => p
  | p :: rest => p ++ sep ++ join sep rest
  end.

(** [str(n)] of an [int], as an f-string prints it. *)
Definition str_of_int (z : Z) : pystr :=
  py (NilEmpty.string_of_int (Z.to_int z)).

Section WithRuntime.
Context {RT : Runtime}.

Fixpoint digits_value (acc : N) (s : pystr) : option N :=
  match s with
  | [] => Some acc
  | c :: t =>
      match decimal c with
      | Some d => digits_value (10 * acc + d) t
      | None => None
      end
  end.

(** [int(s)] for a string [s] made of digit characters only, which is
    what the program passes to it (no sign, no underscore, no white space:
    no character that [str.isdigit] or [\d] accepts is one). [None] is
    the ValueError of CPython: on the empty string, on a character that
    is no decimal digit, and on more digits than the interpreter's limit. *)
Definition py_int (s : pystr) : option Z :=
  match s with
  | [] => None
  | _ =>
      if (0 <? int_max_str_digits)%nat && (int_max_str_digits <? length s)%nat
      then None
      else Z.of_N <$> digits_value 0 s
  end.

(** [\s+SEATS] at the head of [s]; [seen] tells that one white space
    character has been consumed already. *)
Fixpoint spaces_then_SEATS (seen : bool) (s : pystr) : bool :=
  match s with
  | c :: t =>
      (isspace c && spaces_then_SEATS true t)
      || (seen && startswith (py "SEATS") s)
  | [] => false
  end.

(** [(\d+)\s+SEATS] at the head of [s], the digits [g] being consumed
    already: the regex engine takes the longest run of digits first and
    gives digits back while the rest fails to match. The result is
    group 1. *)
Fixpoint match_seats (g : pystr) (s : pystr) : option pystr :=
  match s with
  | c :: t =>
      match (if isdecimal c then match_seats (g ++ [c]) t else None) with
      | Some r => Some r
      | None =>
          match g with
          | [] => None
          | _ => if spaces_then_SEATS false s then Some g else None
          end
      end
  | [] => None
  end.

(** [re.search(r'(\d+)\s+SEATS', s)]: group 1 of the leftmost match. *)
Fixpoint search_seats (s : pystr) : option pystr :=
  match match_seats [] s with
  | Some g => Some g
  | None =>
      match s with
      | [] => None
      | _ :: t => search_seats t
      end
  end.

End WithRuntime.

End PyStr.
Export PyStr.


(** ** The BeautifulSoup document tree *)
Module Soup.

(** The attributes of a tag that the program looks at. [class] is a
    multi-valued attribute: the parser stores the list of its tokens. *)
Record attributes := {
  attr_id : option pystr;
  attr_class : option (list pystr);
  attr_action : option pystr
}.

Definition no_attrs : attributes :=
  {| attr_id := None; attr_class := None; attr_action := None |}.

Inductive node :=
| Tag (name : pystr) (attrs : attributes) (contents : list node)
| NavigableString (s : pystr)
| Comment (s : pystr).

(** [tag.text]: the strings below the tag, in document order; comments do
    not count. *)
Fixpoint text (n : node) : pystr :=
  match n with
  | Tag _ _ cs =>
      (fix texts (l : list node) : pystr :=
         match l with
         | [] => []
         | c :: r => text c ++ texts r
         end) cs
  | NavigableString s => s
  | Comment _ => []
  end.

(** A node and everything below it, in document order. *)
Fixpoint preorder (n : node) : list node :=
  n :: match n with
       | Tag _ _ cs =>
           (fix go (l : list node) : list node :=
              match l with
              | [] => []
              | c :: r => preorder c ++ go r
              end) cs
       | _ => []
       end.

Definition preorder_forest (l : list node) : list node := flat_map preorder l.

(** [tag.descendants] *)
Definition descendants (n : node) : list node := tail (preorder n).

(** An element in its document: the node, and the nodes that follow its
    subtree in document order. The program needs the place of an element
    where it calls [find_next], which leaves the element's subtree. *)
Definition element : Type := node * list node.

(** [n] and everything below it, each with what follows it. *)
Fixpoint elements_of (n : node) (after : list node) : list element :=
  (n, after) ::
  match n with
  | Tag _ _ cs =>
      (fix go (l : list node) : list element :=
         match l with
         | [] => []
         | c :: r => elements_of c (preorder_forest r ++ after) ++ go r
         end) cs
  | _ => []
  end.

(** [tag.descendants], each descendant in its place. *)
Definition descendant_elements (e : element) : list element :=
  tail (elements_of (fst e) (snd e)).

(** [tag.next_elements]: the descendants, then the rest of the document. *)
Definition next_elements (e : element) : list node :=
  descendants (fst e) ++ snd e.

(** What a search asks of a tag: its name, and optionally a class (one of
    a list), an id, an action. *)
Record criteria := {
  want_name : pystr;
  want_class : option (list pystr);
  want_id : option pystr;
  want_action : option pystr
}.

Definition by_name (n : string) : criteria :=
  {| want_name := py n; want_class := None; want_id := None; want_action := None |}.
Definition by_class (n : string) (cls : list string) : criteria :=
  {| want_name := py n; want_class := Some (List.map py cls); want_id := None;
     want_action := None |}.
Definition by_id (n : string) (i : string) : criteria :=
  {| want_name := py n; want_class := None; want_id := Some (py i); want_action := None |}.
Definition by_action (n : string) (a : string) : criteria :=
  {| want_name := py n; want_class := None; want_id := None; want_action := Some (py a) |}.

(** A multi-valued attribute matches when one of its tokens does, or when
    the tokens joined by a space do. *)
Definition class_matches (wanted : list pystr) (cls : list pystr) : bool :=
  existsb (fun c => existsb (str_eqb c) wanted) cls
  || existsb (str_eqb (join [32] cls)) wanted.

Definition value_matches (wanted : pystr) (v : option pystr) : bool :=
  match v with
  | Some s => str_eqb s wanted
  | None => false
  end.

Definition matches (c : criteria) (n : node) : bool :=
  match n with
  | Tag name a _ =>
      str_eqb name (want_name c)
      && match want_class c with
         | Some wanted =>
             match attr_class a with
             | Some cls => class_matches wanted cls
             | None => false
             end
         | None => true
         end
      && match want_id c with
         | Some i => value_matches i (attr_id a)
         | None => true
         end
      && match want_action c with
         | Some act => value_matches act (attr_action a)
         | None => true
         end
  | _ => false
  end.

(** [tag.find_all(...)] *)
Definition find_all (c : criteria) (n : node) : list node :=
  List.filter (matches c) (descendants n).

(** [tag.find(...)] *)
Definition find (c : criteria) (n : node) : option node :=
  head (find_all c n).

(** [find_all] and [find], the results in their place in the document. *)
Definition find_all_elements (c : criteria) (e : element) : list element :=
  List.filter (fun d => matches c (fst d)) (descendant_elements e).

Definition find_element (c : criteria) (e : element) : option element :=
  head (find_all_elements c e).

(** [tag.find_next(...)]: the first match among [next_elements], which
    run to the end of the document. *)
Definition find_next (c : criteria) (e : element) : option node :=
  head (List.filter (matches c) (next_elements e)).

(** The [BeautifulSoup] object, given the top-level nodes of the parsed
    document. *)
Definition soup : Type := list node.
Definition document (doc : soup) : node := Tag (py "[document]") no_attrs doc.
Definition root (doc : soup) : element := (document doc, []).

End Soup.
Export Soup.

(** ** Values shared by the two scripts *)
Module Data.

(** A value stored in a [train_data] dictionary. *)
Inductive value :=
| VStr (s : pystr)
| VInt (z : Z).

(** [train_data] is a [dict] with string keys. *)
Abbreviation train_data := (gmap string value).

Inductive level := INFO | WARNING | ERROR.

(** One call of a [logger] method. *)
Definition log_record : Type := level * pystr.

(** The keys under which one fare class is stored. *)
Record class_keys := {
  seats_key : string;
  adult_key : string;
  child_key : string
}.

Definition first_class : class_keys :=
  {| seats_key := "first_class_seats"; adult_key := "first_class_adult";
     child_key := "first_class_child" |}.

Definition economy : class_keys :=
  {| seats_key := "economy_seats"; adult_key := "economy_adult";
     child_key := "economy_child" |}.

(** [o is not None] *)
Definition is_some {A} (o : option A) : bool :=
  match o with Some _ => true | None => false end.

(** A loop whose body may raise: the first exception leaves the loop. *)
Fixpoint for_each {A S : Type} (body : A -> S -> option S) (l : list A) (s : S)
  : option S :=
  match l with
  | [] => Some s
  | x :: r =>
      match body x s with
      | Some s' => for_each body r s'
      | None => None
      end
  end.

(** [str(e)] of the exception that leaves the loop [for_each body l s]:
    [text x] is that of the exception that the turn of [x] raises. *)
Fixpoint raised_in {A S : Type} (body : A -> S -> option S) (text : A -> pystr)
    (l : list A) (s : S) : pystr :=
  match l with
  | [] => []
  | x :: r =>
      match body x s with
      | Some s' => raised_in body text r s'
      | None => text x
      end
  end.

(** How a statement that works on a state ends: it is done, or it raised
    an exception; the state is the one it left in both cases. *)
Inductive outcome (S : Type) :=
| Done (s : S)
| Raised (s : S).
Arguments Done {S} s.
Arguments Raised {S} s.

Definition state {S : Type} (o : outcome S) : S :=
  match o with Done s | Raised s => s end.

Definition raised {S : Type} (o : outcome S) : bool :=
  match o with Done _ => false | Raised _ => true end.

(** A loop on a state: the first turn that raises leaves the loop, with
    what the turns did so far. *)
Fixpoint until_raised {A S : Type} (body : S -> A -> outcome S) (l : list A) (s : S)
  : outcome S :=
  match l with
  | [] => Done s
  | x :: r =>
      match body s x with
      | Done s' => until_raised body r s'
      | Raised s' => Raised s'
      end
  end.

End Data.
Export Data.

(** ** The class-button layout

    [main.py] (lines 204-233) and [train_monitor.py] (lines 274-297) carry
    the same statements for the class buttons; they are embedded once. *)
Module Buttons.
Section WithRuntime.
Context {RT : Runtime}.

(** [''.join(filter(str.isdigit, class_text.split('-')[1] if '-' in
    class_text else '0'))], then [int(seats) if seats else 0]. [None] is an
    exception: the IndexError of [[1]] or the ValueError of [int]. *)
Definition button_seats (class_text : pystr) : option Z :=
  match (if contains (py "-") class_text
         then nth_error (split 45 class_text) 1
         else Some (py "0")) with
  | None => None
  | Some part =>
      let seats := List.filter isdigit part in
      match seats with
      | [] => Some 0%Z
      | _ => py_int seats
      end
  end.

(** [str(e)] of the exception that [button_seats] raises. *)
Definition button_seats_error (class_text : pystr) : pystr :=
  match (if contains (py "-") class_text
         then nth_error (split 45 class_text) 1
         else Some (py "0")) with
  | None => py "list index out of range"
  | Some part => int_error (List.filter isdigit part)
  end.

(** The branch of one class: the seats, then the two prices of the next
    price section of the document when it has two price spans. *)
Definition button_class (k : class_keys) (button : element) (class_text : pystr)
    (train : train_data) : option train_data :=
  match button_seats class_text with
  | None => None
  | Some seats =>
      let train := <[seats_key k := VInt seats]> train in
      Some
        match find_next (by_class "div" ["price-section"]) button with
        | Some price_section =>
            match find_all (by_class "span" ["price"]) price_section with
            | p0 :: p1 :: _ =>
                <[child_key k := VStr (strip (text p1))]>
                  (<[adult_key k := VStr (strip (text p0))]> train)
            | _ => train
            end
        | None => train
        end
  end.

(** The body of [for button in class_buttons]. *)
Definition class_button (button : element) (train : train_data)
  : option train_data :=
  let class_text := strip (text (fst button)) in
  if contains (py "FIRST CLASS") class_text
  then button_class first_class button class_text train
  else if contains (py "ECONOMY") class_text
          || contains (py "SECOND CLASS") class_text
  then button_class economy button class_text train
  else Some train.

(** [class_buttons = form.find_all('button', class_='class-btn')] and the
    loop over them. *)
Definition class_buttons (form : element) (train : train_data)
  : option train_data :=
  for_each class_button (find_all_elements (by_class "button" ["class-btn"]) form)
    train.

(** [str(e)] of the exception that leaves the loop over the buttons: the
    one of the seat count of the first button that raises. *)
Definition class_buttons_error (form : element) (train : train_data) : pystr :=
  raised_in class_button
    (fun button => button_seats_error (strip (text (fst button))))
    (find_all_elements (by_class "button" ["class-btn"]) form) train.

(** [time_divs = form.find_all('div', class_='time')] and the two
    assignments under [if len(time_divs) >= 2]. *)
Definition time_divs (form : element) (train : train_data) : train_data :=
  match find_all (by_class "div" ["time"]) (fst form) with
  | t0 :: t1 :: _ =>
      <["arrival" := VStr (strip (text t1))]>
        (<["departure" := VStr (strip (text t0))]> train)
  | _ => train
  end.

End WithRuntime.
End Buttons.
Export Buttons.

(** ** train_monitor.py *)
Module Monitor.
Section WithRuntime.
Context {RT : Runtime}.

(** [BeautifulSoup(html_content, 'html.parser')]: the parser is the
    library's; the program is embedded over whatever tree it builds. *)
Variable html_parser : pystr -> soup.

(** Lines 200-209: the two [small.resulttime] elements and their
    [span.span]. *)
Definition result_times (form : element) (train : train_data) : train_data :=
  match find_all (by_class "small" ["resulttime"]) (fst form) with
  | t0 :: t1 :: _ =>
      let dep_span := find (by_class "span" ["span"]) t0 in
      let arr_span := find (by_class "span" ["span"]) t1 in
      let train :=
        match dep_span with
        | Some d => <["departure" := VStr (strip (text d))]> train
        | None => train
        end in
      match arr_span with
      | Some a => <["arrival" := VStr (strip (text a))]> train
      | None => train
      end
  | _ => train
  end.

(** Lines 211-216: [if 'departure' not in train_data]. *)
Definition fallback_times (form : element) (train : train_data) : train_data :=
  match train !! "departure" with
  | None => time_divs form train
  | Some _ => train
  end.

(** [train_data.get('departure', 'Unknown')] inside the f-string: the
    program stores strings only under this key. *)
Definition departure_or_unknown (train : train_data) : pystr :=
  match train !! "departure" with
  | Some (VStr s) => s
  | Some (VInt z) => str_of_int z
  | None => py "Unknown"
  end.

(** Lines 218-226. *)
Definition train_name (form : element) (train : train_data) : train_data :=
  match find (by_name "h3") (fst form) with
  | Some h3 => <["name" := VStr (strip (text h3))]> train
  | None => <["name" := VStr (py "Train " ++ departure_or_unknown train)]> train
  end.

(** Lines 247-261: the prices of one column, from its [dl.details]. *)
Definition details_step (prices : pystr * pystr) (dl : node) : pystr * pystr :=
  match find (by_name "dt") dl, find (by_name "dd") dl with
  | Some dt, Some dd =>
      let label := lower (strip (text dt)) in
      let price := strip (text dd) in
      if contains (py "adult") label then (price, snd prices)
      else if contains (py "children") label && contains (py "3 - 11") label
      then (fst prices, price)
      else prices
  | _, _ => prices
  end.

Definition column_prices (col : node) : pystr * pystr :=
  fold_left details_step (find_all (by_class "dl" ["details"]) col)
    (py "N/A", py "N/A").

(** Lines 242-245: [seats], 0 unless the title matches. *)
Definition title_seats (title_text : pystr) : option Z :=
  match search_seats title_text with
  | Some digits => py_int digits
  | None => Some 0%Z
  end.

Definition store_class (k : class_keys) (seats : Z) (prices : pystr * pystr)
    (train : train_data) : train_data :=
  <[child_key k := VStr (snd prices)]>
    (<[adult_key k := VStr (fst prices)]>
       (<[seats_key k := VInt seats]> train)).

(** Lines 233-270: the body of [for col in cols], on the pair of
    [train_data] and [found_classes]. *)
Definition column (col : node) (st : train_data * bool)
  : option (train_data * bool) :=
  match find (by_class "h4" ["box-title"]) col with
  | None => Some st
  | Some title =>
      let title_text := upper (strip (text title)) in
      match title_seats title_text with
      | None => None
      | Some seats =>
          let prices := column_prices col in
          let train := fst st in
          Some
            (if contains (py "FIRST CLASS") title_text
             then store_class first_class seats prices train
             else if contains (py "ECONOMY") title_text
                     || contains (py "SECOND CLASS") title_text
             then store_class economy seats prices train
             else train,
             true)
      end
  end.

Definition columns (form : element) (train : train_data)
  : option (train_data * bool) :=
  for_each column (find_all (by_class "div" ["col-md-6"; "col-sm-6"]) (fst form))
    (train, false).

(** [str(e)] of the exception that [column] raises: the ValueError of the
    [int] of line 245. *)
Definition column_error (col : node) : pystr :=
  match find (by_class "h4" ["box-title"]) col with
  | Some title =>
      match search_seats (upper (strip (text title))) with
      | Some digits => int_error digits
      | None => []
      end
  | None => []
  end.

(** Lines 198-297: the body of the [try] for one form. [None] is an
    exception, which the [except] of the loop catches. *)
Definition parse_form (form : element) : option train_data :=
  let train := result_times form ∅ in
  let train := fallback_times form train in
  let train := train_name form train in
  match columns form train with
  | None => None
  | Some (train, found_classes) =>
      if found_classes then Some train else class_buttons form train
  end.

(** [str(e)] of the exception [e] that the body of the [try] raises for
    the form. *)
Definition parse_form_error (form : element) : pystr :=
  let train := result_times form ∅ in
  let train := fallback_times form train in
  let train := train_name form train in
  match columns form train with
  | None =>
      raised_in column column_error
        (find_all (by_class "div" ["col-md-6"; "col-sm-6"]) (fst form))
        (train, false)
  | Some (train, found_classes) =>
      if found_classes then [] else class_buttons_error form train
  end.

(** Lines 196-303: one turn of [for form in forms], on the list [trains]
    and the log. *)
Definition form_step (st : list train_data * list log_record) (form : element)
  : list train_data * list log_record :=
  match parse_form form with
  | Some train => (fst st ++ [train], snd st)
  | None =>
      (fst st,
       snd st ++ [(ERROR, py "Error parsing train data: " ++ parse_form_error form)])
  end.

(** [soup.find('h4', class_='main-message')] and the test of line 185. *)
Definition fully_booked (doc : soup) : bool :=
  match find (by_class "h4" ["main-message"]) (document doc) with
  | Some h4 => contains (py "Fully Booked") (text h4)
  | None => false
  end.

Definition booking_forms (form_tags : element) : list element :=
  find_all_elements (by_action "form" "booking-details.php") form_tags.

(** [AvailabilityChecker.check_availability]: the returned pair, and what
    it logs. [None] is Python's [None]. *)
Definition check_availability_logged (html_content : option pystr)
  : (bool * list train_data) * list log_record :=
  match html_content with
  | None | Some [] => ((false, []), [])
  | Some html =>
      let doc := html_parser html in
      if fully_booked doc then ((false, []), [])
      else
        match find_element (by_id "div" "form-tags") (root doc) with
        | None => ((false, []), [])
        | Some form_tags =>
            let (trains, log) := fold_left form_step (booking_forms form_tags) ([], []) in
            ((true, trains), log)
        end
  end.

Definition check_availability (html_content : option pystr)
  : bool * list train_data :=
  fst (check_availability_logged html_content).

(** *** The monitor *)

(** [f"{x}"] of what [dict.get] returned. *)
Definition format_value (v : option value) : pystr :=
  match v with
  | None => py "None"
  | Some (VStr s) => s
  | Some (VInt z) => str_of_int z
  end.

(** [train.get(key, 0)] *)
Definition get_or_zero (train : train_data) (key : string) : value :=
  default (VInt 0) (train !! key).

(** Line 403. *)
Definition cache_key (date : pystr) (train : train_data) : pystr :=
  date ++ py "_" ++ format_value (train !! "name")
       ++ py "_" ++ format_value (train !! "departure")
       ++ py "_fclass" ++ format_value (Some (get_or_zero train "first_class_seats"))
       ++ py "_eco" ++ format_value (Some (get_or_zero train "economy_seats")).

(** One call of [send_notifications(format_alert(train, date,
    schedule_type))], kept as the arguments the message is made of. *)
Record alert := {
  alert_train : train_data;
  alert_date : pystr;
  alert_schedule_type : pystr
}.

(** What a call of [asyncio.run(self.notifier.send_notifications(message))]
    does. It returns, whether or not Telegram took the message: the two
    [send_message] are guarded by [except Exception] (lines 319-330). Or it
    raises: [Bot(token=self.token)] of line 318 is outside the [try], and
    raises on a token that it does not accept. *)
Inductive sending := Returns | Raises.

(** [telegram n] is what the call number [n] of the process does, counted
    from 0. *)
Variable telegram : nat -> sending.

(** One turn of the innermost loop of [check_job]: the arguments of the
    call of [search_trains], and what it returned ([None] when the request
    failed; [search_trains] catches every exception of its own). *)
Record query := {
  query_date : pystr;
  query_schedule_type : pystr;
  query_time : pystr;
  query_html : option pystr
}.

(** The state [check_job] works on, and what the process has done so far:
    [self.available_cache]; the calls of [send_notifications] that
    returned and those that raised; the calls of [search_trains]. The
    records of the logger are not part of it. *)
Record monitor := {
  available_cache : gset pystr;
  dispatched : list alert;
  aborted : list alert;
  searched : list query
}.

Definition start : monitor :=
  {| available_cache := ∅; dispatched := []; aborted := []; searched := [] |}.

(** Lines 403-411: one turn of [for train in trains]. When the call of
    line 407 raises, line 408 is not reached and the exception leaves the
    loops. *)
Definition train_step (date schedule_type : pystr) (m : monitor) (train : train_data)
  : outcome monitor :=
  let key := cache_key date train in
  if decide (key ∈ available_cache m)
  then Done m
  else
    let message := {| alert_train := train; alert_date := date;
                      alert_schedule_type := schedule_type |} in
    match telegram (length (dispatched m) + length (aborted m)) with
    | Returns =>
        Done {| available_cache := {[key]} ∪ available_cache m;
                dispatched := dispatched m ++ [message];
                aborted := aborted m;
                searched := searched m |}
    | Raises =>
        Raised {| available_cache := available_cache m;
                  dispatched := dispatched m;
                  aborted := aborted m ++ [message];
                  searched := searched m |}
    end.

(** Lines 386-420: the call of [search_trains] is made, and its response
    is read. [check_availability] returns: the exceptions of the blocks are
    caught by its own [try], and the parser is taken not to raise. *)
Definition query_step (m : monitor) (q : query) : outcome monitor :=
  let m := {| available_cache := available_cache m;
              dispatched := dispatched m;
              aborted := aborted m;
              searched := searched m ++ [q] |} in
  let (is_available, trains) := check_availability (query_html q) in
  match is_available, trains with
  | true, _ :: _ =>
      until_raised (train_step (query_date q) (query_schedule_type q)) trains m
  | _, _ => Done m
  end.

(** The three loops of [check_job], given as the queries they make, in
    order, when nothing raises. *)
Definition check_job_loops (cycle : list query) (m : monitor) : outcome monitor :=
  until_raised query_step cycle m.

(** [check_job]: one cycle. The [except Exception] of line 421 ends the
    cycle at the first exception, and the process goes on with the state
    that the cycle left. *)
Definition check_job (cycle : list query) (m : monitor) : monitor :=
  state (check_job_loops cycle m).

(** [run]: the cycles the scheduler starts, one after the other. *)
Definition run (cycles : list (list query)) (m : monitor) : monitor :=
  fold_left (fun m cycle => check_job cycle m) cycles m.

End WithRuntime.
End Monitor.

(** ** main.py *)
Module Main.
Section WithRuntime.
Context {RT : Runtime}.
Variable html_parser : pystr -> soup.

(** [check_trains_available]: the returned flag, and what it logs. *)
Definition check_trains_available_logged (html_content : option pystr)
  : bool * list log_record :=
  match html_content with
  | None | Some [] => (false, [])
  | Some html =>
      let doc := html_parser html in
      if Monitor.fully_booked doc then (false, [(INFO, py "Status: Fully Booked")])
      else
        match find_element (by_id "div" "form-tags") (root doc) with
        | Some _ => (true, [(INFO, py "Status: Trains Available!")])
        | None =>
            (false,
             [(WARNING,
               py "Status: Unknown (neither fully booked nor available forms found)")])
        end
  end.

Definition check_trains_available (html_content : option pystr) : bool :=
  fst (check_trains_available_logged html_content).

(** Lines 190-233: the body of the [try] for one form. *)
Definition parse_form (form : element) : option train_data :=
  let train : train_data := ∅ in
  let train :=
    match find (by_name "h3") (fst form) with
    | Some h3 => <["name" := VStr (strip (text h3))]> train
    | None => train
    end in
  let train := time_divs form train in
  class_buttons form train.

(** [str(e)] of the exception [e] that the body of the [try] raises for
    the form. *)
Definition parse_form_error (form : element) : pystr :=
  let train : train_data := ∅ in
  let train :=
    match find (by_name "h3") (fst form) with
    | Some h3 => <["name" := VStr (strip (text h3))]> train
    | None => train
    end in
  let train := time_divs form train in
  class_buttons_error form train.

(** Lines 188-239: one turn of [for form in forms], on the list [trains]
    and the log. *)
Definition form_step (st : list train_data * list log_record) (form : element)
  : list train_data * list log_record :=
  match parse_form form with
  | Some train => (fst st ++ [train], snd st)
  | None =>
      (fst st,
       snd st ++ [(ERROR, py "Error parsing train data: " ++ parse_form_error form)])
  end.

(** [parse_available_trains]: the returned list, and what it logs. *)
Definition parse_available_trains_logged (html_content : option pystr)
  : list train_data * list log_record :=
  match html_content with
  | None | Some [] => ([], [])
  | Some html =>
      let doc := html_parser html in
      match find_element (by_id "div" "form-tags") (root doc) with
      | None => ([], [])
      | Some form_tags =>
          fold_left form_step (Monitor.booking_forms form_tags) ([], [])
      end
  end.

Definition parse_available_trains (html_content : option pystr) : list train_data :=
  fst (parse_available_trains_logged html_content).

(** [get_seat_availability] *)
Definition get_seat_availability (train : train_data) (class_type : pystr) : value :=
  if str_eqb class_type (py "first") then default (VInt 0) (train !! "first_class_seats")
  else if str_eqb class_type (py "economy") then default (VInt 0) (train !! "economy_seats")
  else VInt 0.

End WithRuntime.
End Main.

(** ** ConfigManager (train_monitor.py) *)
Module Config.

(** A value that [json.load] returns. A float is kept as its text. *)
Inductive json :=
| JNull
| JBool (b : bool)
| JInt (z : Z)
| JFloat (repr : pystr)
| JString (s : pystr)
| JArray (items : list json)
| JObject (members : gmap pystr json).

(** What [open] and [json.load] did with the file: [open] raised
    FileNotFoundError; [json.load] raised JSONDecodeError; one of the two
    raised another exception (a PermissionError or another OSError, a
    UnicodeDecodeError, the ValueError of an integer with more digits than
    the interpreter's limit), which [_load_config] does not catch; or
    [json.load] returned a value. *)
Inductive config_file :=
| Missing
| Malformed
| Unreadable
| Loaded (v : json).

Definition jstr (s : string) : json := JString (py s).

(** The dict [defaults] of [_validate_config], in its order. *)
Definition defaults : list (pystr * json) :=
  [(py "dates", JArray []);
   (py "train_types", JArray [jstr "express"; jstr "inter_county"]);
   (py "classes", JArray [jstr "first"; jstr "economy"]);
   (py "check_interval", JInt 60);
   (py "route",
    JObject (<[py "terminal_id" := JInt 3]> (<[py "destination_id" := JInt 2]> ∅)));
   (py "departure_times", JArray [jstr "3.00"; jstr "10.00"])].

(** [_load_config]: the value, [None] when an exception leaves the
    function, and what is logged. *)
Definition load_config (config_path : pystr) (file : config_file)
  : option json * list log_record :=
  match file with
  | Loaded v => (Some v, [])
  | Missing =>
      (Some (JObject ∅),
       [(ERROR, py "Config file " ++ config_path ++ py " not found.")])
  | Malformed =>
      (Some (JObject ∅), [(ERROR, py "Error decoding " ++ config_path ++ py ".")])
  | Unreadable => (None, [])
  end.

(** [key in config]; [None] is the TypeError of a value that is no
    container. *)
Definition key_in (key : pystr) (config : json) : option bool :=
  match config with
  | JObject m => Some (is_some (m !! key))
  | JArray items =>
      Some (existsb (fun item => match item with
                                 | JString s => str_eqb s key
                                 | _ => false
                                 end) items)
  | JString s => Some (contains key s)
  | _ => None
  end.

(** [config[key] = value]; [None] is the TypeError of a value that is no
    dict. *)
Definition set_item (key : pystr) (value : json) (config : json) : option json :=
  match config with
  | JObject m => Some (JObject (<[key := value]> m))
  | _ => None
  end.

(** The body of the loop of [_validate_config]. *)
Definition validate_step (entry : pystr * json) (config : json) : option json :=
  match key_in (fst entry) config with
  | None => None
  | Some true => Some config
  | Some false => set_item (fst entry) (snd entry) config
  end.

(** [_validate_config] on [self.config]. *)
Definition validate_config (config : json) : option json :=
  for_each validate_step defaults config.

(** [ConfigManager(config_path)]: [self.config] after [__init__], [None]
    when [__init__] raises, and what is logged. *)
Definition config_manager (config_path : pystr) (file : config_file)
  : option json * list log_record :=
  let (config, log) := load_config config_path file in
  (config ≫= validate_config, log).

(** [ConfigManager.get(key, default)]: [self.config.get(key, default)];
    [None] is the AttributeError of a value without [get]. Python's [None]
    is [JNull]. *)
Definition get (config : json) (key : pystr) (default : json) : option json :=
  match config with
  | JObject m =>
      Some match m !! key with
           | Some v => v
           | None => default
           end
  | _ => None
  end.

(** [v[key]] for a string [key]; [None] is the KeyError of a dict without
    the key, or the TypeError of a value that is no dict. *)
Definition getitem (v : json) (key : pystr) : option json :=
  match v with
  | JObject m => m !! key
  | _ => None
  end.

(** [os.getenv(name) or self.config.get('telegram', {}).get(field)]: the
    environment variable when it is set and not empty, else what the
    [telegram] section of the file holds; [None] is the AttributeError of a
    value without [get]. *)
Definition telegram_setting (getenv : pystr -> option pystr) (name field : pystr)
    (config : json) : option json :=
  match getenv name with
  | Some (c :: s) => Some (JString (c :: s))
  | _ =>
      match get config (py "telegram") (JObject ∅) with
      | Some section => get section field JNull
      | None => None
      end
  end.

Definition telegram_token getenv config :=
  telegram_setting getenv (py "TELEGRAM_BOT_TOKEN") (py "bot_token") config.
Definition telegram_chat_id getenv config :=
  telegram_setting getenv (py "TELEGRAM_CHAT_ID") (py "chat_id") config.
Definition telegram_channel_id getenv config :=
  telegram_setting getenv (py "TELEGRAM_CHANNEL_ID") (py "channel_id") config.

End Config.

(** ** The loops of check_job (train_monitor.py) *)
Module Schedule.
Section WithRuntime.
Context {RT : Runtime}.
Variable html_parser : pystr -> soup.
Variable telegram : nat -> Monitor.sending.

(** Lines 378-383: the departure times to query for one schedule type. *)
Definition times_to_check (departure_times : list pystr) (schedule_type : pystr)
  : list pystr :=
  let times :=
    if str_eqb schedule_type (py "express") then departure_times
    else [py "08.00"] in
  if str_eqb schedule_type (py "inter_county") then [py "08.00"] else times.

(** The turns of the innermost loop, in the order in which the three
    loops go through them: date, schedule type, departure time. *)
Definition searches (dates train_types departure_times : list pystr)
  : list (pystr * pystr * pystr) :=
  flat_map
    (fun date =>
       flat_map
         (fun schedule_type =>
            List.map (fun time_val => (date, schedule_type, time_val))
              (times_to_check departure_times schedule_type))
         train_types)
    dates.

(** Lines 386-420: one turn of the innermost loop, the turn number [i] of
    the cycle. The arguments of the call are evaluated first, and
    [route['terminal_id']] or [route['destination_id']] may raise; then the
    call is made, and [search_trains i] is what it returns. *)
Definition search_step (search_trains : nat -> pystr -> pystr -> pystr -> option pystr)
    (route : Config.json) (m : Monitor.monitor)
    (turn : nat * (pystr * pystr * pystr)) : outcome Monitor.monitor :=
  let '(i, (date, schedule_type, time_val)) := turn in
  match Config.getitem route (py "terminal_id"),
        Config.getitem route (py "destination_id") with
  | Some _, Some _ =>
      Monitor.query_step html_parser telegram m
        {| Monitor.query_date := date;
           Monitor.query_schedule_type := schedule_type;
           Monitor.query_time := time_val;
           Monitor.query_html := search_trains i schedule_type date time_val |}
  | _, _ => Raised m
  end.

(** [check_job] with the configured dates, train types, departure times
    and route, for a configuration in which the first three are lists of
    strings. The [except Exception] of line 421 ends the cycle at the first
    exception. *)
Definition check_job (search_trains : nat -> pystr -> pystr -> pystr -> option pystr)
    (route : Config.json) (dates train_types departure_times : list pystr)
    (m : Monitor.monitor) : Monitor.monitor :=
  state
    (until_raised (search_step search_trains route)
       (imap (fun i turn => (i, turn)) (searches dates train_types departure_times))
       m).

End WithRuntime.
End Schedule.

(** ** Documents and a runtime to evaluate the program on *)
Module Samples.

(** The number of ASCII digits at the head of a text. *)
Fixpoint digit_run (s : pystr) : nat :=
  match s with
  | c :: t => if ascii_digit c then S (digit_run t) else 0%nat
  | [] => 0%nat
  end.

(** The tables of the interpreter on the code points below U+0100, which
    is all that the sample documents use: superscript one, two and three
    are digits without a decimal value; the letters of Latin-1 have their
    case mappings; the digit limit is CPython's default, and the messages
    of [int] are those of CPython 3.11 on a text of digits. *)
#[local] Instance latin1 : Runtime := {|
  unicode_isdigit c := (c =? 178) || (c =? 179) || (c =? 185);
  unicode_decimal c := None;
  unicode_upper c :=
    if c =? 181 then [924]
    else if c =? 223 then [83; 83]
    else if c =? 255 then [376]
    else if (224 <=? c) && (c <=? 254) && negb (c =? 247) then [c - 32]
    else [c];
  unicode_lower _ c _ :=
    if (192 <=? c) && (c <=? 222) && negb (c =? 215) then [c + 32] else [c];
  int_max_str_digits := 4300;
  int_error s :=
    if (4300 <? digit_run s)%nat
    then py "Exceeds the limit (4300 digits) for integer string conversion: value has "
         ++ str_of_int (Z.of_nat (digit_run s))
         ++ py " digits; use sys.set_int_max_str_digits() to increase the limit"
    else py "invalid literal for int() with base 10: '" ++ s ++ py "'"
|}.

Definition tag (name : string) (cls : list string) (contents : list node) : node :=
  Tag (py name)
      {| attr_id := None; attr_class := Some (List.map py cls); attr_action := None |}
      contents.

Definition tag_id (name : string) (i : string) (contents : list node) : node :=
  Tag (py name)
      {| attr_id := Some (py i); attr_class := None; attr_action := None |}
      contents.

Definition plain (name : string) (contents : list node) : node :=
  Tag (py name) no_attrs contents.

Definition txt (s : string) : node := NavigableString (py s).

(** [<form action="booking-details.php">] *)
Definition booking_form (contents : list node) : node :=
  Tag (py "form")
      {| attr_id := None; attr_class := None;
         attr_action := Some (py "booking-details.php") |}
      contents.

(** [<div id="form-tags">] *)
Definition form_tags (contents : list node) : node := tag_id "div" "form-tags" contents.

(** [<button class="class-btn">label</button>] *)
Definition class_btn (label : pystr) : node :=
  Tag (py "button")
      {| attr_id := None; attr_class := Some [py "class-btn"]; attr_action := None |}
      [NavigableString label].

(** [<div class="price-section">] with two [span.price]. *)
Definition price_section (adult child : string) : node :=
  tag "div" ["price-section"]
      [tag "span" ["price"] [txt adult]; tag "span" ["price"] [txt child]].

(** [<h4 class="main-message">] *)
Definition main_message (s : string) : node := tag "h4" ["main-message"] [txt s].

(** A parser known on the listed documents: each text parses to the tree
    next to it (and any other text to the empty document). *)
Fixpoint parser_of (pages : list (pystr * soup)) (html : pystr) : soup :=
  match pages with
  | [] => []
  | (text, doc) :: rest => if str_eqb html text then doc else parser_of rest html
  end.

(** A block of the button layout. *)
Definition button_form (name dep arr : string) (label : pystr) (adult child : string)
  : node :=
  booking_form
    [plain "h3" [txt name];
     tag "div" ["time"] [txt dep]; tag "div" ["time"] [txt arr];
     class_btn label; price_section adult child].

Definition form_morning : node :=
  button_form "Madaraka 1" "08:00" "13:00" (py "FIRST CLASS - 12") "3000" "1500".
Definition form_morning_html : string :=
  "<form action='booking-details.php'><h3>Madaraka 1</h3><div class='time'>08:00</div><div class='time'>13:00</div><button class='class-btn'>FIRST CLASS - 12</button><div class='price-section'><span class='price'>3000</span><span class='price'>1500</span></div></form>".

Definition form_evening : node :=
  button_form "Madaraka 2" "15:00" "20:00" (py "ECONOMY - 40") "1000" "500".
Definition form_evening_html : string :=
  "<form action='booking-details.php'><h3>Madaraka 2</h3><div class='time'>15:00</div><div class='time'>20:00</div><button class='class-btn'>ECONOMY - 40</button><div class='price-section'><span class='price'>1000</span><span class='price'>500</span></div></form>".

(** A block whose button label carries a superscript two (U+00B2, written
    [&sup2;] in the page) where the seat count is expected. *)
Definition superscript_label : pystr := py "ECONOMY - " ++ [178].
Definition form_superscript : node := booking_form [class_btn superscript_label].
Definition form_superscript_html : string :=
  "<form action='booking-details.php'><button class='class-btn'>ECONOMY - &sup2;</button></form>".

Definition fully_booked_html : pystr :=
  py "<h4 class='main-message'>Fully Booked</h4>".
Definition fully_booked_doc : soup := [main_message "Fully Booked"].

Definition maintenance_html : pystr := py "<p>Service unavailable</p>".
Definition maintenance_doc : soup := [plain "p" [txt "Service unavailable"]].

(** A fully-booked heading and a results container in one page. *)
Definition booked_with_results_html : pystr :=
  py ("<h4 class='main-message'>Fully Booked</h4><div id='form-tags'>"
      +:+ form_morning_html +:+ "</div>").
Definition booked_with_results_doc : soup :=
  [main_message "Fully Booked"; form_tags [form_morning]].

(** Two main-message headings, the marker in the second one. *)
Definition second_heading_html : pystr :=
  py ("<h4 class='main-message'>Travel notice</h4>"
      +:+ "<h4 class='main-message'>Fully Booked</h4><div id='form-tags'>"
      +:+ form_morning_html +:+ "</div>").
Definition second_heading_doc : soup :=
  [main_message "Travel notice"; main_message "Fully Booked"; form_tags [form_morning]].

(** A button label whose seat count is written in two pieces. *)
Definition two_piece_label : pystr := py "FIRST CLASS - 1 of 20 left".

(** Three blocks, the second one raising. *)
Definition three_blocks_html : pystr :=
  py ("<div id='form-tags'>" +:+ form_morning_html +:+ form_superscript_html
      +:+ form_evening_html +:+ "</div>").
Definition three_blocks_doc : soup :=
  [form_tags [form_morning; form_superscript; form_evening]].

(** A container whose only block raises. *)
Definition one_bad_block_html : pystr :=
  py ("<div id='form-tags'>" +:+ form_superscript_html +:+ "</div>").
Definition one_bad_block_doc : soup := [form_tags [form_superscript]].

(** [<small class="resulttime">label<span class="span">time</span></small>] *)
Definition result_time (label time : string) : node :=
  tag "small" ["resulttime"] [txt label; tag "span" ["span"] [txt time]].

(** [<dl class="details"><dt>label</dt><dd>price</dd></dl>] *)
Definition details (label price : string) : node :=
  tag "dl" ["details"] [plain "dt" [txt label]; plain "dd" [txt price]].

(** [<div class="col-md-6"><h4 class="box-title">title</h4>...</div>] *)
Definition class_column (title : string) (rows : list node) : node :=
  tag "div" ["col-md-6"] (tag "h4" ["box-title"] [txt title] :: rows).

(** A block of the button layout without a heading. *)
Definition form_unnamed : node :=
  booking_form
    [tag "div" ["time"] [txt "08:00"]; tag "div" ["time"] [txt "13:00"];
     class_btn (py "FIRST CLASS - 12"); price_section "3000" "1500"].
Definition form_unnamed_html : string :=
  "<form action='booking-details.php'><div class='time'>08:00</div><div class='time'>13:00</div><button class='class-btn'>FIRST CLASS - 12</button><div class='price-section'><span class='price'>3000</span><span class='price'>1500</span></div></form>".

(** A block with one class button and nothing else: no heading, no times,
    no price section. *)
Definition form_bare : node := booking_form [class_btn (py "ECONOMY - 4")].

(** A block of the column layout: economy has no price for children. *)
Definition form_columns : node :=
  booking_form
    [result_time "Departure: " "04:30 pm"; result_time "Arrival: " "10:15 pm";
     class_column "First Class - 3 Seats Open"
       [details "Adult" " 3,000 KES "; details "Children 3 - 11" "1,500 KES"];
     class_column "Economy - 0 Seats Open" [details "Adult" "1,000 KES"]].

(** A block with the times of the column layout, a column whose title
    names no fare class, and a class button. *)
Definition form_mixed : node :=
  booking_form
    [result_time "Departure: " "04:30 pm"; result_time "Arrival: " "10:15 pm";
     class_column "Business Class - 3 Seats Open" [];
     class_btn (py "FIRST CLASS - 7"); price_section "3000" "1500"].

(** A block with a first-class column and an economy button. *)
Definition form_half : node :=
  booking_form
    [result_time "Departure: " "04:30 pm"; result_time "Arrival: " "10:15 pm";
     class_column "First Class - 3 Seats Open" [details "Adult" "3,000 KES"];
     class_btn (py "ECONOMY - 40"); price_section "1000" "500"].

(** A block with the times of the column layout and a class button, and
    no column. *)
Definition form_times_and_button : node :=
  booking_form
    [result_time "Departure: " "04:30 pm"; result_time "Arrival: " "10:15 pm";
     class_btn (py "FIRST CLASS - 7"); price_section "3000" "1500"].

(** A block as the only thing of a document. *)
Definition alone (form : node) : element := (form, []).

Definition unnamed_html : pystr :=
  py ("<div id='form-tags'>" +:+ form_unnamed_html +:+ "</div>").
Definition unnamed_doc : soup := [form_tags [form_unnamed]].

(** Two blocks of the button layout. *)
Definition two_blocks_html : pystr :=
  py ("<div id='form-tags'>" +:+ form_morning_html +:+ form_evening_html
      +:+ "</div>").
Definition two_blocks_doc : soup := [form_tags [form_morning; form_evening]].

(** The morning train with nine first-class seats left. *)
Definition form_morning_nine : node :=
  button_form "Madaraka 1" "08:00" "13:00" (py "FIRST CLASS - 9") "3000" "1500".
Definition form_morning_nine_html : string :=
  "<form action='booking-details.php'><h3>Madaraka 1</h3><div class='time'>08:00</div><div class='time'>13:00</div><button class='class-btn'>FIRST CLASS - 9</button><div class='price-section'><span class='price'>3000</span><span class='price'>1500</span></div></form>".
Definition nine_seats_html : pystr :=
  py ("<div id='form-tags'>" +:+ form_morning_nine_html +:+ "</div>").
Definition nine_seats_doc : soup := [form_tags [form_morning_nine]].

Definition pages : pystr -> soup :=
  parser_of
    [(fully_booked_html, fully_booked_doc);
     (maintenance_html, maintenance_doc);
     (booked_with_results_html, booked_with_results_doc);
     (second_heading_html, second_heading_doc);
     (three_blocks_html, three_blocks_doc);
     (one_bad_block_html, one_bad_block_doc);
     (unnamed_html, unnamed_doc);
     (two_blocks_html, two_blocks_doc);
     (nine_seats_html, nine_seats_doc)].

(** A query whose request failed. *)
Definition failed_query : Monitor.query :=
  {| Monitor.query_date := py "02/01/2026";
     Monitor.query_schedule_type := py "express";
     Monitor.query_time := py "10.00";
     Monitor.query_html := None |}.

(** A cycle of one query: the express trains of one date. *)
Definition cycle_of (html : pystr) : list Monitor.query :=
  [{| Monitor.query_date := py "02/01/2026";
      Monitor.query_schedule_type := py "express";
      Monitor.query_time := py "10.00";
      Monitor.query_html := Some html |}].

(** A Telegram whose token is accepted, and one whose token is not. *)
Definition accepting : nat -> Monitor.sending := fun _ => Monitor.Returns.
Definition rejecting : nat -> Monitor.sending := fun _ => Monitor.Raises.

(** Two cycles that find twelve first-class seats on the morning train,
    and a third one that finds nine. *)
Definition three_cycles : list (list Monitor.query) :=
  [cycle_of two_blocks_html; cycle_of two_blocks_html; cycle_of nine_seats_html].

Definition sample_date : pystr := py "02/01/2026".

Definition nine_seats : train_data :=
  default ∅ (head (snd (Monitor.check_availability pages (Some nine_seats_html)))).

(** A configuration file that sets the dates only, and one whose top
    level is the list of the essential keys. *)
Definition dates_only : Config.config_file :=
  Config.Loaded
    (Config.JObject (<[py "dates" := Config.JArray [Config.jstr "02/01/2026"]]> ∅)).

Definition six_keys : Config.json :=
  Config.JArray
    [Config.jstr "dates"; Config.jstr "train_types"; Config.jstr "classes";
     Config.jstr "check_interval"; Config.jstr "route";
     Config.jstr "departure_times"].

End Samples.

(** ** The words of the specification *)
Module Spec.

(** The results container: a [div] with id [form-tags]. *)
Definition container : criteria := by_id "div" "form-tags".

(** The main-message heading: an [h4] of class [main-message]. *)
Definition heading : criteria := by_class "h4" ["main-message"].

Definition marker : pystr := py "Fully Booked".

(** The document contains the results container. *)
Definition has_container (doc : soup) : bool :=
  existsb (matches container) (descendants (document doc)).

(** The document contains a fully-booked heading: a main-message heading
    whose text contains the marker phrase. *)
Definition has_fully_booked_heading (doc : soup) : bool :=
  existsb (fun n => matches heading n && contains marker (text n))
    (descendants (document doc)).

(** The input has neither of the two; an empty or null input has not. *)
Definition lacks_both (html_parser : pystr -> soup) (html_content : option pystr)
  : Prop :=
  match html_content with
  | None | Some [] => True
  | Some html =>
      has_container (html_parser html) = false
      /\ has_fully_booked_heading (html_parser html) = false
  end.

(** [h] is the first node below [n], in document order, that meets [c]. *)
Definition first_below (c : criteria) (n : node) (h : node) : Prop :=
  exists pre post,
    descendants n = pre ++ h :: post
    /\ Forall (fun x => matches c x = false) pre
    /\ matches c h = true.

(** The fully-booked test does not fire: the first main-message heading of
    the document, if there is one, does not carry the marker. *)
Definition not_fully_booked (doc : soup) : Prop :=
  forall h, first_below heading (document doc) h -> contains marker (text h) = false.

(** Some column of the block has a box title. *)
Definition has_box_title (form : element) : bool :=
  existsb (fun col => is_some (find (by_class "h4" ["box-title"]) col))
    (find_all (by_class "div" ["col-md-6"; "col-sm-6"]) (fst form)).

(** The two fare classes. *)
Definition fare_class (k : class_keys) : Prop := k = first_class \/ k = economy.

(** The keys under which the fare classes are stored. *)
Definition fare_keys : list string :=
  ["first_class_seats"; "first_class_adult"; "first_class_child";
   "economy_seats"; "economy_adult"; "economy_child"].

(** The seat counts of a [train_data] are integers, and not negative. *)
Definition seats_ok (train : train_data) : Prop :=
  forall k, fare_class k ->
    match train !! seats_key k with
    | None => True
    | Some (VInt z) => (0 <= z)%Z
    | Some (VStr _) => False
    end.

(** The train that [parse_form] holds when it reaches the fare classes. *)
Definition timed_train (form : element) : train_data :=
  Monitor.fallback_times form (Monitor.result_times form ∅).

Definition named_train (form : element) : train_data :=
  Monitor.train_name form (timed_train form).

(** The column layout yields a time for the block. *)
Definition has_result_times (form : element) : bool :=
  match find_all (by_class "small" ["resulttime"]) (fst form) with
  | t0 :: t1 :: _ =>
      is_some (find (by_class "span" ["span"]) t0)
      || is_some (find (by_class "span" ["span"]) t1)
  | _ => false
  end.

(** A block of the button layout alone: it has a heading, and nothing of
    the column layout, neither times nor a titled column. *)
Definition button_layout_only (form : element) : bool :=
  is_some (find (by_name "h3") (fst form))
  && negb (has_result_times form)
  && negb (has_box_title form).

(** The dispatches made for the key [k]. *)
Definition dispatches_for (k : pystr) (sent : list Monitor.alert) : list Monitor.alert :=
  List.filter
    (fun a => str_eqb (Monitor.cache_key (Monitor.alert_date a) (Monitor.alert_train a)) k)
    sent.


(** The parsed results of the cycle contain [train] for the date [date]:
    some query of the cycle for that date got a response in which
    [check_availability] finds the train. *)
Definition offers {RT : Runtime} (html_parser : pystr -> soup)
    (cycle : list Monitor.query) (date : pystr) (train : train_data) : Prop :=
  exists q,
    q ∈ cycle /\ Monitor.query_date q = date
    /\ train ∈ snd (Monitor.check_availability html_parser (Monitor.query_html q)).

(** The key [k] belongs to a train that the cycle offers. *)
Definition offered_in {RT : Runtime} (html_parser : pystr -> soup)
    (cycle : list Monitor.query) (k : pystr) : Prop :=
  exists date train, offers html_parser cycle date train
                     /\ Monitor.cache_key date train = k.

(** The number that a text of ASCII digits writes. *)
Definition number_of (digits : pystr) : N :=
  fold_left (fun acc c => 10 * acc + (c - 48)) digits 0.

(** The columns of a block, and the bound that the digit limit of the
    interpreter puts on the title of a column ([0]: no limit). *)
Definition class_columns (form : element) : list node :=
  find_all (by_class "div" ["col-md-6"; "col-sm-6"]) (fst form).

Definition title_within_limit {RT : Runtime} (col : node) : Prop :=
  forall title,
    find (by_class "h4" ["box-title"]) col = Some title ->
    int_max_str_digits = 0%nat
    \/ (length (upper (strip (text title))) <= int_max_str_digits)%nat.

(** The label and the price of a row of a details list, as the loop over
    the rows reads them; [None] when the row lacks its [dt] or its [dd]. *)
Definition labelled_row {RT : Runtime} (dl : node) : option (pystr * pystr) :=
  match find (by_name "dt") dl, find (by_name "dd") dl with
  | Some dt, Some dd => Some (lower (strip (text dt)), strip (text dd))
  | _, _ => None
  end.

Definition adult_row {RT : Runtime} (dl : node) : bool :=
  match labelled_row dl with
  | Some (label, _) => contains (py "adult") label
  | None => false
  end.

(** The record that [check_availability] logs for a block it drops: the
    text of the exception follows the colon. *)
Definition dropped {RT : Runtime} (form : element) : log_record :=
  (ERROR, py "Error parsing train data: " ++ Monitor.parse_form_error form).

(** An alert of the query [q]: one of its trains, with its date and
    schedule type. *)
Definition alert_of {RT : Runtime} (html_parser : pystr -> soup)
    (q : Monitor.query) (a : Monitor.alert) : Prop :=
  Monitor.alert_train a
    ∈ snd (Monitor.check_availability html_parser (Monitor.query_html q))
  /\ Monitor.alert_date a = Monitor.query_date q
  /\ Monitor.alert_schedule_type a = Monitor.query_schedule_type q.

(** The cache holds the keys that were dispatched, each of them once. *)
Definition cache_sound (m : Monitor.monitor) : Prop :=
  forall k,
    length (dispatches_for k (Monitor.dispatched m))
    = if decide (k ∈ Monitor.available_cache m) then 1%nat else 0%nat.

(** The row of a details list is kept for the child price. *)
Definition child_row {RT : Runtime} (dl : node) : bool :=
  match labelled_row dl with
  | Some (label, _) =>
      negb (contains (py "adult") label)
      && contains (py "children") label && contains (py "3 - 11") label
  | None => false
  end.

(** [price] is the price of the last of the rows [rows], and "N/A" when
    there is none. *)
Definition last_price {RT : Runtime} (rows : list node) (price : pystr) : Prop :=
  match last rows with
  | Some dl => exists label, labelled_row dl = Some (label, price)
  | None => price = py "N/A"
  end.

(** The members that the configuration starts from: those of the object
    in the file, none when the file is missing or cannot be decoded. There
    is no such start when the file holds another value, or when reading it
    raised an exception that [_load_config] does not catch. *)
Definition file_members (file : Config.config_file)
  : option (gmap pystr Config.json) :=
  match file with
  | Config.Loaded (Config.JObject m) => Some m
  | Config.Loaded _ | Config.Unreadable => None
  | Config.Missing | Config.Malformed => Some ∅
  end.

(** The built-in value of an essential key. *)
Definition built_in (key : pystr) : option Config.json :=
  (list_to_map Config.defaults : gmap pystr Config.json) !! key.

Definition express (schedule_type : pystr) : bool :=
  str_eqb schedule_type (py "express").

(** The alert [a] is for a search of the cycle: the search number [i]
    was made for the date and the schedule type of the alert, and the
    train of the alert was parsed from its response. *)
Definition searched_for {RT : Runtime} (html_parser : pystr -> soup)
    (search_trains : nat -> pystr -> pystr -> pystr -> option pystr)
    (dates train_types departure_times : list pystr) (a : Monitor.alert) : Prop :=
  exists i time_val,
    Schedule.searches dates train_types departure_times !! i
    = Some (Monitor.alert_date a, Monitor.alert_schedule_type a, time_val)
    /\ Monitor.alert_train a
       ∈ snd (Monitor.check_availability html_parser
                (search_trains i (Monitor.alert_schedule_type a)
                   (Monitor.alert_date a) time_val)).

(** The two scripts, and the extraction of a block in each. *)
Inductive script := train_monitor_py | main_py.

Definition parse_form_in {RT : Runtime} (s : script) (form : element)
  : option train_data :=
  match s with
  | train_monitor_py => Monitor.parse_form form
  | main_py => Main.parse_form form
  end.

(** The route has the two ids that a search takes from it. *)
Definition has_ids (route : Config.json) : bool :=
  is_some (Config.getitem route (py "terminal_id"))
  && is_some (Config.getitem route (py "destination_id")).

(** Every call of [send_notifications] returns. *)
Definition always_returns (telegram : nat -> Monitor.sending) : Prop :=
  forall n, telegram n = Monitor.Returns.

(** The title or label [label] names the fare class [k], as the two
    layouts test it: first class when it contains "FIRST CLASS"; economy
    when it does not and contains "ECONOMY" or "SECOND CLASS". *)
Definition names_class (k : class_keys) (label : pystr) : bool :=
  let first := contains (py "FIRST CLASS") label in
  if String.eqb (seats_key k) (seats_key first_class) then first
  else negb first
       && (contains (py "ECONOMY") label || contains (py "SECOND CLASS") label).

(** The column has a box title that names the fare class [k]. *)
Definition titled {RT : Runtime} (k : class_keys) (col : node) : bool :=
  match find (by_class "h4" ["box-title"]) col with
  | Some title => names_class k (upper (strip (text title)))
  | None => false
  end.

(** The fare class [k] of a train read from the columns of the block. No
    column is titled for the class, and the train has none of its three
    fields. Or the train has its seat count and both prices, and they are
    those of the last column titled for the class: each price is the
    stripped [dd] of the last row of its label in that column, and "N/A"
    when the column has no row of that label. *)
Definition column_fare {RT : Runtime} (form : element) (train : train_data)
    (k : class_keys) : Prop :=
  match last (List.filter (titled k) (class_columns form)) with
  | Some col =>
      let rows := find_all (by_class "dl" ["details"]) col in
      is_Some (train !! seats_key k)
      /\ exists adult child,
           train !! adult_key k = Some (VStr adult)
           /\ train !! child_key k = Some (VStr child)
           /\ last_price (List.filter adult_row rows) adult
           /\ last_price (List.filter child_row rows) child
  | None =>
      train !! seats_key k = None /\ train !! adult_key k = None
      /\ train !! child_key k = None
  end.

(** The class buttons of a block, and those labelled for the class [k]. *)
Definition buttons_of (form : element) : list element :=
  find_all_elements (by_class "button" ["class-btn"]) form.

Definition labelled {RT : Runtime} (k : class_keys) (button : element) : bool :=
  names_class k (strip (text (fst button))).

(** The first two price spans of the price section that follows the
    button in the document; [None] when no price section follows, or when
    it has less than two price spans. *)
Definition price_spans (button : element) : option (node * node) :=
  match find_next (by_class "div" ["price-section"]) button with
  | Some price_section =>
      match find_all (by_class "span" ["price"]) price_section with
      | p0 :: p1 :: _ => Some (p0, p1)
      | _ => None
      end
  | None => None
  end.

(** The fare class [k] of a train read from the class buttons of the
    block. The train has the seat count of the class exactly when a button
    is labelled for it. Its prices are the stripped texts of the two price
    spans of the last button labelled for the class that has them; when no
    such button has them, the train has no price of the class, and no
    sentinel in its place. *)
Definition button_fare {RT : Runtime} (form : element) (train : train_data)
    (k : class_keys) : Prop :=
  is_some (train !! seats_key k) = existsb (labelled k) (buttons_of form)
  /\ match last (List.filter (fun b => labelled k b && is_some (price_spans b))
                   (buttons_of form)) with
     | Some button =>
         exists p0 p1,
           price_spans button = Some (p0, p1)
           /\ train !! adult_key k = Some (VStr (strip (text p0)))
           /\ train !! child_key k = Some (VStr (strip (text p1)))
     | None => train !! adult_key k = None /\ train !! child_key k = None
     end.

(** The fields of the class [k] after the loop over the columns [cols],
    started on [train0]. *)
Definition columns_fare {RT : Runtime} (cols : list node) (train0 train : train_data)
    (k : class_keys) : Prop :=
  match last (List.filter (titled k) cols) with
  | Some col =>
      let rows := find_all (by_class "dl" ["details"]) col in
      is_Some (train !! seats_key k)
      /\ exists adult child,
           train !! adult_key k = Some (VStr adult)
           /\ train !! child_key k = Some (VStr child)
           /\ last_price (List.filter adult_row rows) adult
           /\ last_price (List.filter child_row rows) child
  | None =>
      train !! seats_key k = train0 !! seats_key k
      /\ train !! adult_key k = train0 !! adult_key k
      /\ train !! child_key k = train0 !! child_key k
  end.

(** The fields of the class [k] after the loop over the buttons
    [buttons], started on [train0]. *)
Definition buttons_fare {RT : Runtime} (buttons : list element) (train0 train : train_data)
    (k : class_keys) : Prop :=
  is_some (train !! seats_key k)
  = is_some (train0 !! seats_key k) || existsb (labelled k) buttons
  /\ match last (List.filter (fun b => labelled k b && is_some (price_spans b))
                   buttons) with
     | Some button =>
         exists p0 p1,
           price_spans button = Some (p0, p1)
           /\ train !! adult_key k = Some (VStr (strip (text p0)))
           /\ train !! child_key k = Some (VStr (strip (text p1)))
     | None =>
         train !! adult_key k = train0 !! adult_key k
         /\ train !! child_key k = train0 !! child_key k
     end.

(** The two states hold the same cache and the same calls of
    [send_notifications]. *)
Definition same_alerts (m m' : Monitor.monitor) : Prop :=
  Monitor.available_cache m = Monitor.available_cache m'
  /\ Monitor.dispatched m = Monitor.dispatched m'
  /\ Monitor.aborted m = Monitor.aborted m'.

(** No call of [send_notifications] returns. *)
Definition never_returns (telegram : nat -> Monitor.sending) : Prop :=
  forall n, telegram n = Monitor.Raises.

(** The queries of a cycle that no exception leaves, in order: one for
    each turn of the innermost loop. *)
Definition queries_of (search_trains : nat -> pystr -> pystr -> pystr -> option pystr)
    (dates train_types departure_times : list pystr) : list Monitor.query :=
  List.map
    (fun '(i, (date, schedule_type, time_val)) =>
       {| Monitor.query_date := date;
          Monitor.query_schedule_type := schedule_type;
          Monitor.query_time := time_val;
          Monitor.query_html := search_trains i schedule_type date time_val |})
    (imap (fun i turn => (i, turn))
       (Schedule.searches dates train_types departure_times)).

(** The number of turns of the innermost loop in a cycle. *)
Definition turns (dates train_types departure_times : list pystr) : nat :=
  (length dates
   * (length (List.filter express train_types) * length departure_times
      + length (List.filter (fun st => negb (express st)) train_types)))%nat.
(** The two states hold the same cache and the same calls that returned. *)
Definition same_alerts_but_aborted (m m' : Monitor.monitor) : Prop :=
  Monitor.available_cache m = Monitor.available_cache m'
  /\ Monitor.dispatched m = Monitor.dispatched m'.

(** The state in which [query_step] reads the response. *)
Definition asked (m : Monitor.monitor) (q : Monitor.query) : Monitor.monitor :=
  {| Monitor.available_cache := Monitor.available_cache m;
     Monitor.dispatched := Monitor.dispatched m;
     Monitor.aborted := Monitor.aborted m;
     Monitor.searched := Monitor.searched m ++ [q] |}.

End Spec.
Export Spec.

(** Induction on a document tree: a tag may assume the property of its
    contents. *)
Section NodeInduction.
Variable P : node -> Prop.
Hypothesis HTag : forall name a cs, Forall P cs -> P (Tag name a cs).
Hypothesis HString : forall s, P (NavigableString s).
Hypothesis HComment : forall s, P (Comment s).

Fixpoint node_induction (n : node) : P n :=
  match n with
  | Tag name a cs =>
      HTag name a cs
        ((fix all (l : list node) : Forall P l :=
            match l with
            | [] => @List.Forall_nil node P
            | c :: r => @List.Forall_cons node P c r (node_induction c) (all r)
            end) cs)
  | NavigableString s => HString s
  | Comment s => HComment s
  end.
End NodeInduction.

(** * Properties *)

(** ** Lists and trees *)

Lemma head_filter_Some {A} (p : A -> bool) (l : list A) (h : A) :
  head (List.filter p l) = Some h <->
  exists pre post, l = pre ++ h :: post
                   /\ Forall (fun x => p x = false) pre /\ p h = true.
Proof.
  induction l as [|x l IH]; simpl.
  - split; [discriminate|]. intros (pre & post & E & _). by destruct pre.
  - destruct (p x) eqn:Hx; simpl.
    + split.
      * intros [= ->]. exists [], l. by repeat split.
      * intros (pre & post & E & Hpre & Hh).
        destruct pre as [|y pre]; simpl in E.
        -- by injection E as ->.
        -- injection E as -> _. apply Forall_cons in Hpre as [Hy _]. congruence.
    + rewrite IH. split.
      * intros (pre & post & -> & Hpre & Hh). exists (x :: pre), post.
        repeat split; [|done]. by constructor.
      * intros (pre & post & E & Hpre & Hh).
        destruct pre as [|y pre]; simpl in E.
        -- injection E as -> _. congruence.
        -- injection E as -> ->. apply Forall_cons in Hpre as [_ Hpre]. eauto.
Qed.

Lemma head_filter_None {A} (p : A -> bool) (l : list A) :
  head (List.filter p l) = None <-> existsb p l = false.
Proof.
  induction l as [|x l IH]; simpl; [done|].
  destruct (p x); simpl; [|done]. split; discriminate.
Qed.

Lemma filter_map_fst {A B} (p : A -> bool) (l : list (A * B)) :
  List.map fst (List.filter (fun d => p (fst d)) l) = List.filter p (List.map fst l).
Proof.
  induction l as [|x l IH]; simpl; [done|].
  destruct (p (fst x)); simpl; by rewrite IH.
Qed.


(** Properties of the elements of a concrete list, settled by evaluation. *)
Lemma Forall_forallb {A} (p : A -> bool) (P : A -> Prop) (l : list A) :
  (forall x, p x = true -> P x) -> forallb p l = true -> Forall P l.
Proof.
  intros Hp. induction l as [|x l IH]; simpl; [constructor|].
  intros [Hx Hl]%andb_true_iff. constructor; auto.
Qed.


Lemma is_some_false {A} (o : option A) : is_some o = false -> o = None.
Proof. by destruct o. Qed.

Lemma elements_of_fst (n : node) :
  forall after, List.map fst (elements_of n after) = preorder n.
Proof.
  induction n as [name a cs IH| |] using node_induction; intros after; simpl;
    [|done..].
  f_equal. revert after.
  induction IH as [|c r Hc _ IHr]; intros after; [done|].
  rewrite List.map_app, Hc, IHr. done.
Qed.

Lemma descendant_elements_fst (e : element) :
  List.map fst (descendant_elements e) = descendants (fst e).
Proof.
  unfold descendant_elements, descendants.
  rewrite <- (elements_of_fst (fst e) (snd e)).
  by destruct (elements_of (fst e) (snd e)).
Qed.

Lemma find_all_elements_fst (c : criteria) (e : element) :
  List.map fst (find_all_elements c e) = find_all c (fst e).
Proof.
  unfold find_all_elements, find_all.
  by rewrite filter_map_fst, descendant_elements_fst.
Qed.

Lemma find_element_fst (c : criteria) (e : element) :
  fst <$> find_element c e = find c (fst e).
Proof.
  unfold find_element, find. rewrite <- find_all_elements_fst.
  by destruct (find_all_elements c e).
Qed.

Lemma find_first_below (c : criteria) (n h : node) :
  find c n = Some h <-> first_below c n h.
Proof. apply head_filter_Some. Qed.

Lemma find_None (c : criteria) (n : node) :
  find c n = None <-> existsb (matches c) (descendants n) = false.
Proof. apply head_filter_None. Qed.

Lemma find_element_None (c : criteria) (e : element) :
  find_element c e = None <-> existsb (matches c) (descendants (fst e)) = false.
Proof.
  rewrite <- find_None, <- find_element_fst. by destruct (find_element c e).
Qed.

Lemma find_element_is_Some (c : criteria) (e : element) :
  existsb (matches c) (descendants (fst e)) = true -> is_Some (find_element c e).
Proof.
  intros H. destruct (find_element c e) eqn:E; [eauto|].
  apply find_element_None in E. congruence.
Qed.

(** ** The interpreter, case by case *)

Section Interpreter.
Context {RT : Runtime}.
Variable html_parser : pystr -> soup.

Lemma fully_booked_true (doc : soup) :
  Monitor.fully_booked doc = true <->
  exists h, first_below heading (document doc) h /\ contains marker (text h) = true.
Proof.
  unfold Monitor.fully_booked. fold heading. fold marker.
  destruct (find heading (document doc)) as [h|] eqn:E.
  - apply find_first_below in E. split; [eauto|].
    intros (h' & E' & Hm). apply find_first_below in E, E'. congruence.
  - split; [discriminate|]. intros (h & E' & _).
    apply find_first_below in E'. congruence.
Qed.

Lemma fully_booked_false (doc : soup) :
  Monitor.fully_booked doc = false <-> not_fully_booked doc.
Proof.
  unfold not_fully_booked. split.
  - intros H h Hh. destruct (contains marker (text h)) eqn:E; [|done].
    assert (Monitor.fully_booked doc = true) by (apply fully_booked_true; eauto).
    congruence.
  - intros H. destruct (Monitor.fully_booked doc) eqn:E; [|done].
    apply fully_booked_true in E as (h & Hh & Hm). rewrite (H h Hh) in Hm. done.
Qed.

Lemma no_heading_not_fully_booked (doc : soup) :
  has_fully_booked_heading doc = false -> Monitor.fully_booked doc = false.
Proof.
  intros H. apply fully_booked_false. intros h (pre & post & E & _ & Hm).
  unfold has_fully_booked_heading in H. rewrite E in H.
  rewrite existsb_app in H. simpl in H. rewrite Hm in H. simpl in H.
  destruct (contains marker (text h)); [|done].
  simpl in H. by rewrite orb_true_r in H.
Qed.

Lemma monitor_form_steps (forms : list element) :
  forall acc lg,
    fst (fold_left Monitor.form_step forms (acc, lg))
    = acc ++ omap Monitor.parse_form forms.
Proof.
  induction forms as [|f forms IH]; intros acc lg; simpl.
  - by rewrite app_nil_r.
  - unfold Monitor.form_step at 2. destruct (Monitor.parse_form f); simpl.
    + by rewrite IH, <- app_assoc.
    + apply IH.
Qed.

Lemma main_form_steps (forms : list element) :
  forall acc lg,
    fst (fold_left Main.form_step forms (acc, lg))
    = acc ++ omap Main.parse_form forms.
Proof.
  induction forms as [|f forms IH]; intros acc lg; simpl.
  - by rewrite app_nil_r.
  - unfold Main.form_step at 2. destruct (Main.parse_form f); simpl.
    + by rewrite IH, <- app_assoc.
    + apply IH.
Qed.

(** Every skipped block leaves one ERROR record, and nothing else is
    logged by the loop. *)
Lemma monitor_form_steps_log (forms : list element) :
  forall acc lg,
    snd (fold_left Monitor.form_step forms (acc, lg))
    = lg ++ List.map dropped
               (List.filter (fun f => bool_decide (Monitor.parse_form f = None)) forms).
Proof.
  induction forms as [|f forms IH]; intros acc lg; simpl.
  - by rewrite app_nil_r.
  - unfold Monitor.form_step at 2. destruct (Monitor.parse_form f) eqn:E; simpl.
    + apply IH.
    + by rewrite IH, <- app_assoc.
Qed.

Lemma check_availability_empty (html_content : option pystr) :
  html_content = None \/ html_content = Some [] ->
  Monitor.check_availability html_parser html_content = (false, []).
Proof. by intros [-> | ->]. Qed.

Lemma check_availability_fully_booked (html : pystr) :
  html <> [] ->
  Monitor.fully_booked (html_parser html) = true ->
  Monitor.check_availability html_parser (Some html) = (false, []).
Proof.
  intros Hne Hfb. unfold Monitor.check_availability, Monitor.check_availability_logged.
  destruct html; [done|]. by rewrite Hfb.
Qed.

Lemma check_availability_no_container (html : pystr) :
  html <> [] ->
  Monitor.fully_booked (html_parser html) = false ->
  find_element container (root (html_parser html)) = None ->
  Monitor.check_availability html_parser (Some html) = (false, []).
Proof.
  intros Hne Hfb Hc. unfold Monitor.check_availability, Monitor.check_availability_logged.
  destruct html; [done|]. rewrite Hfb. fold container. by rewrite Hc.
Qed.

Lemma check_availability_container (html : pystr) (form_tags : element) :
  html <> [] ->
  Monitor.fully_booked (html_parser html) = false ->
  find_element container (root (html_parser html)) = Some form_tags ->
  Monitor.check_availability html_parser (Some html)
  = (true, omap Monitor.parse_form (Monitor.booking_forms form_tags)).
Proof.
  intros Hne Hfb Hc. unfold Monitor.check_availability, Monitor.check_availability_logged.
  destruct html; [done|]. rewrite Hfb. fold container. rewrite Hc.
  destruct (fold_left _ _ _) as [trains lg] eqn:E. simpl.
  f_equal. change trains with (fst (trains, lg)). rewrite <- E.
  apply monitor_form_steps.
Qed.

Lemma check_trains_available_decision (html_content : option pystr) :
  Main.check_trains_available html_parser html_content
  = fst (Monitor.check_availability html_parser html_content).
Proof.
  unfold Main.check_trains_available, Main.check_trains_available_logged,
    Monitor.check_availability, Monitor.check_availability_logged.
  destruct html_content as [[|c html]|]; [done| |done].
  destruct (Monitor.fully_booked _); [done|].
  destruct (find_element _ _); [|done].
  by destruct (fold_left _ _ _).
Qed.

Lemma parse_available_trains_container (html : pystr) (form_tags : element) :
  html <> [] ->
  find_element container (root (html_parser html)) = Some form_tags ->
  Main.parse_available_trains html_parser (Some html)
  = omap Main.parse_form (Monitor.booking_forms form_tags).
Proof.
  intros Hne Hc. unfold Main.parse_available_trains, Main.parse_available_trains_logged.
  destruct html; [done|]. fold container. rewrite Hc.
  apply main_form_steps.
Qed.

End Interpreter.

(** ** The outcomes of the interpreter *)

(** C1, as the code has it. For every input that has neither the results
    container nor a fully-booked heading, an empty or null input included,
    [check_availability] returns [(False, [])]: not an available outcome
    with any list, so not the available outcome with the empty list. It is
    the pair that a fully-booked page yields too: the returned value has two
    outcomes, not three. [check_trains_available] returns [False] likewise,
    and tells the two apart in its log only. *)
Theorem C1_unrecognised_is_not_available
    {RT : Runtime} (html_parser : pystr -> soup) (html_content : option pystr) :
  lacks_both html_parser html_content ->
  Monitor.check_availability html_parser html_content = (false, [])
  /\ (forall trains,
        Monitor.check_availability html_parser html_content <> (true, trains))
  /\ Main.check_trains_available html_parser html_content = false
  /\ (forall booked,
        booked <> [] -> Monitor.fully_booked (html_parser booked) = true ->
        Monitor.check_availability html_parser (Some booked)
        = Monitor.check_availability html_parser html_content
        /\ snd (Main.check_trains_available_logged html_parser (Some booked))
           = [(INFO, py "Status: Fully Booked")])
  /\ (forall html,
        html_content = Some html -> html <> [] ->
        snd (Main.check_trains_available_logged html_parser html_content)
        = [(WARNING,
            py "Status: Unknown (neither fully booked nor available forms found)")]).
Proof.
  intros H.
  assert (E : Monitor.check_availability html_parser html_content = (false, [])).
  { destruct html_content as [[|c html]|]; [done| |done].
    destruct H as [Hc Hh]. apply check_availability_no_container; [done| |].
    - by apply no_heading_not_fully_booked.
    - by apply find_element_None. }
  split; [done|]. split; [by rewrite E|].
  split; [by rewrite check_trains_available_decision, E|].
  split.
  - intros booked Hne Hfb. split.
    + by rewrite E; apply check_availability_fully_booked.
    + unfold Main.check_trains_available_logged.
      destruct booked; [done|]. by rewrite Hfb.
  - intros html -> Hne. destruct html as [|c html]; [done|].
    destruct H as [Hc Hh]. unfold Main.check_trains_available_logged.
    rewrite (no_heading_not_fully_booked _ Hh).
    fold container.
    by rewrite (proj2 (find_element_None container (root (html_parser (c :: html)))) Hc).
Qed.

(** C3, as the code has it. For every input whose first main-message
    heading, in document order, carries the marker phrase,
    [check_availability] returns the fully-booked pair [(False, [])] and
    [check_trains_available] returns [False], whatever else the page holds,
    a results container included. *)
Theorem C3_first_heading_fully_booked
    {RT : Runtime} (html_parser : pystr -> soup) (html : pystr) (h : node) :
  html <> [] ->
  first_below heading (document (html_parser html)) h ->
  contains marker (text h) = true ->
  Monitor.check_availability html_parser (Some html) = (false, [])
  /\ Main.check_trains_available html_parser (Some html) = false.
Proof.
  intros Hne Hh Hm.
  assert (E : Monitor.check_availability html_parser (Some html) = (false, [])).
  { apply check_availability_fully_booked; [done|]. apply fully_booked_true. eauto. }
  split; [done|]. by rewrite check_trains_available_decision, E.
Qed.

(** C6. For every input in which the results container is found,
    [check_availability] returns the available outcome with the list of the
    blocks that parsed, in order; when no block parsed this is [(True, [])],
    which differs from the pair [(False, [])] of an unrecognised page. The
    container is found by the lookup of line 189, which the interpreter
    makes on an input that is not empty once the fully-booked test of lines
    183-186 did not return: the first main-message heading, if there is
    one, does not carry the marker. *)
Theorem C6_container_gives_available
    {RT : Runtime} (html_parser : pystr -> soup) (html : pystr) :
  html <> [] ->
  not_fully_booked (html_parser html) ->
  has_container (html_parser html) = true ->
  exists form_tags,
    find_element container (root (html_parser html)) = Some form_tags
    /\ Monitor.check_availability html_parser (Some html)
       = (true, omap Monitor.parse_form (Monitor.booking_forms form_tags))
    /\ (Forall (fun f => Monitor.parse_form f = None) (Monitor.booking_forms form_tags) ->
        Monitor.check_availability html_parser (Some html) = (true, []))
    /\ Monitor.check_availability html_parser (Some html) <> (false, []).
Proof.
  intros Hne Hfb Hc.
  destruct (find_element_is_Some container (root (html_parser html)) Hc)
    as [form_tags E].
  apply fully_booked_false in Hfb.
  pose proof (check_availability_container html_parser html form_tags Hne Hfb E) as R.
  exists form_tags. split; [done|]. split; [done|]. split; [|rewrite R; discriminate].
  intros Hall. rewrite R. f_equal. clear R.
  induction Hall as [|f forms Hf _ IH]; [done|]. simpl. by rewrite Hf.
Qed.


#[local] Existing Instance Samples.latin1.

(** C1, as stated, fails: a page without container and without heading
    yields the very pair, and the very flag, that a fully-booked page
    yields. *)
Lemma C1_unrecognised_equals_fully_booked :
  lacks_both Samples.pages (Some Samples.maintenance_html)
  /\ has_fully_booked_heading (Samples.pages Samples.fully_booked_html) = true
  /\ Monitor.check_availability Samples.pages (Some Samples.maintenance_html)
     = Monitor.check_availability Samples.pages (Some Samples.fully_booked_html)
  /\ Main.check_trains_available Samples.pages (Some Samples.maintenance_html)
     = Main.check_trains_available Samples.pages (Some Samples.fully_booked_html).
Proof. vm_compute. auto. Qed.

Lemma C1_unrecognised_is_not_available_witness :
  lacks_both Samples.pages (Some Samples.maintenance_html)
  /\ Monitor.check_availability Samples.pages (Some Samples.maintenance_html)
     = (false, []).
Proof.
  assert (H : lacks_both Samples.pages (Some Samples.maintenance_html))
    by (vm_compute; auto).
  split; [exact H|].
  exact (proj1 (C1_unrecognised_is_not_available Samples.pages _ H)).
Defined.

(** C3, as stated, fails: the page holds a main-message heading with the
    marker, after another main-message heading, and is read as available. *)
Lemma C3_second_heading_is_not_read :
  has_fully_booked_heading (Samples.pages Samples.second_heading_html) = true
  /\ fst (Monitor.check_availability Samples.pages (Some Samples.second_heading_html))
     = true
  /\ length (snd (Monitor.check_availability Samples.pages
                    (Some Samples.second_heading_html))) = 1%nat
  /\ Main.check_trains_available Samples.pages (Some Samples.second_heading_html)
     = true.
Proof. vm_compute. auto. Qed.

Lemma C3_first_heading_fully_booked_witness :
  has_container (Samples.pages Samples.booked_with_results_html) = true
  /\ Monitor.check_availability Samples.pages
       (Some Samples.booked_with_results_html) = (false, []).
Proof.
  split; [vm_compute; reflexivity|].
  refine (proj1 (C3_first_heading_fully_booked Samples.pages
                   Samples.booked_with_results_html
                   (Samples.main_message "Fully Booked") _ _ _)).
  - vm_compute. discriminate.
  - apply find_first_below. vm_compute. reflexivity.
  - vm_compute. reflexivity.
Defined.

Lemma C6_container_gives_available_witness :
  Monitor.check_availability Samples.pages (Some Samples.one_bad_block_html)
  = (true, []).
Proof.
  destruct (C6_container_gives_available Samples.pages Samples.one_bad_block_html)
    as (form_tags & E & _ & Hnone & _).
  - vm_compute. discriminate.
  - apply fully_booked_false. vm_compute. reflexivity.
  - vm_compute. reflexivity.
  - apply Hnone. vm_compute in E. injection E as <-.
    apply (Forall_forallb (fun f => negb (is_some (Monitor.parse_form f)))).
    + intros f Hf. apply is_some_false. by destruct (is_some _).
    + vm_compute. reflexivity.
Defined.


(** ** Seat counts *)

Section Seats.
Context {RT : Runtime}.

Lemma py_int_nonneg (s : pystr) (z : Z) : py_int s = Some z -> (0 <= z)%Z.
Proof.
  unfold py_int. destruct s as [|c s]; [discriminate|].
  destruct (_ && _); [discriminate|].
  destruct (digits_value 0 (c :: s)) as [n|]; [|discriminate].
  intros [= <-]. lia.
Qed.

Lemma split_cons_ne (sep c : N) (s : pystr) :
  c <> sep ->
  exists w ws, split sep s = w :: ws /\ split sep (c :: s) = (c :: w) :: ws.
Proof.
  intros Hc. simpl. destruct (N.eqb_spec c sep); [done|].
  destruct s as [|d s]; simpl; [by eauto|].
  destruct (d =? sep); [by eauto|].
  destruct (split sep s); by eauto.
Qed.

Lemma split_nonempty (sep : N) (s : pystr) : split sep s <> [].
Proof.
  destruct s as [|c s]; simpl; [done|].
  destruct (c =? sep); [done|]. by destruct (split sep s).
Qed.

(** The first piece of a split holds characters of the text only. *)
Lemma split_head_chars (sep : N) (s w : pystr) (ws : list pystr) (P : N -> Prop) :
  split sep s = w :: ws -> Forall P s -> Forall P w.
Proof.
  revert w ws. induction s as [|c s IH]; intros w ws; simpl.
  - intros [= <- <-]. constructor.
  - intros E Hs. apply Forall_cons in Hs as [Hc Hs].
    destruct (c =? sep).
    + injection E as <- <-. constructor.
    + destruct (split sep s) as [|w' ws'] eqn:E'.
      * injection E as <- <-. by repeat constructor.
      * injection E as <- <-. constructor; [done|]. by eapply IH.
Qed.

(** The text up to the first hyphen, the hyphen, and the text after it:
    the second piece of the split is the start of [after]. *)
Lemma split_second (before after : pystr) :
  Forall (fun c => c <> 45) before ->
  exists w ws, split 45 after = w :: ws
               /\ nth_error (split 45 (before ++ 45 :: after)) 1 = Some w.
Proof.
  intros Hb. destruct (split 45 after) as [|w ws] eqn:E.
  { by destruct (split_nonempty 45 after). }
  exists w, ws. split; [done|].
  assert (G : exists u, split 45 (before ++ 45 :: after) = u :: w :: ws).
  { induction Hb as [|c before Hc _ IH]; simpl.
    - rewrite E. eauto.
    - destruct IH as [u Hu].
      destruct (split_cons_ne 45 c (before ++ 45 :: after) Hc) as (u' & us & E1 & E2).
      simpl in E2. rewrite E2. rewrite Hu in E1. injection E1 as <- <-. eauto. }
  destruct G as [u ->]. done.
Qed.

Lemma contains_hyphen (before after : pystr) :
  contains (py "-") (before ++ 45 :: after) = true.
Proof.
  induction before as [|c before IH]; simpl.
  - done.
  - change (py "-") with [45] in *. simpl. rewrite IH. by rewrite orb_true_r.
Qed.

Lemma filter_none (p : N -> bool) (s : pystr) :
  Forall (fun c => p c = false) s -> List.filter p s = [].
Proof.
  induction 1 as [|c s Hc _ IH]; simpl; [done|]. by rewrite Hc.
Qed.

(** A label without a hyphen gives the seat count 0. *)
Lemma button_seats_no_hyphen (class_text : pystr) :
  contains (py "-") class_text = false -> button_seats class_text = Some 0%Z.
Proof.
  intros H. unfold button_seats. rewrite H.
  change (py "0") with [48]. unfold py_int, isdigit. simpl.
  destruct (_ && _) eqn:E; [|done].
  apply andb_true_iff in E as [E1 E2].
  apply Nat.ltb_lt in E1, E2. simpl in E2. lia.
Qed.

(** A label with no digit after its first hyphen gives the seat count 0. *)
Lemma button_seats_no_digits (before after : pystr) :
  Forall (fun c => c <> 45) before ->
  Forall (fun c => isdigit c = false) after ->
  button_seats (before ++ 45 :: after) = Some 0%Z.
Proof.
  intros Hb Ha. unfold button_seats. rewrite contains_hyphen.
  destruct (split_second before after Hb) as (w & ws & E & ->).
  rewrite (filter_none isdigit w); [done|].
  by apply (split_head_chars 45 after w ws).
Qed.

Lemma button_seats_nonneg (class_text : pystr) (z : Z) :
  button_seats class_text = Some z -> (0 <= z)%Z.
Proof.
  unfold button_seats.
  destruct (if contains _ _ then _ else _) as [part|]; [|discriminate].
  destruct (List.filter isdigit part) eqn:E.
  - intros [= <-]. lia.
  - apply py_int_nonneg.
Qed.

Lemma title_seats_nonneg (title_text : pystr) (z : Z) :
  Monitor.title_seats title_text = Some z -> (0 <= z)%Z.
Proof.
  unfold Monitor.title_seats. destruct (search_seats title_text).
  - apply py_int_nonneg.
  - intros [= <-]. lia.
Qed.

End Seats.

(** ** What the extraction of a block writes *)

Lemma for_each_invariant {A S} (I : S -> Prop) (body : A -> S -> option S)
    (l : list A) :
  (forall x s s', I s -> body x s = Some s' -> I s') ->
  forall s s', I s -> for_each body l s = Some s' -> I s'.
Proof.
  intros Hbody. induction l as [|x l IH]; intros s s' Hs; simpl.
  - by intros [= <-].
  - destruct (body x s) as [s1|] eqn:E; [|discriminate]. eauto.
Qed.

Ltac not_fare_key :=
  unfold fare_keys; intros H;
  repeat (apply elem_of_cons in H as [H|H]; [discriminate H|]);
  by apply elem_of_nil in H.

Ltac other_key H :=
  let E := fresh in intros E; apply H; rewrite <- E; unfold fare_keys;
  repeat (first [apply list_elem_of_here | apply list_elem_of_further]).

Section Frame.
Context {RT : Runtime}.

Lemma store_class_other (k : class_keys) seats prices (train : train_data) key :
  fare_class k -> key ∉ fare_keys ->
  Monitor.store_class k seats prices train !! key = train !! key.
Proof.
  intros [-> | ->] Hkey; unfold Monitor.store_class; simpl;
    rewrite !lookup_insert_ne; try done; other_key Hkey.
Qed.

Lemma column_other (col : node) st st' key :
  key ∉ fare_keys -> Monitor.column col st = Some st' ->
  fst st' !! key = fst st !! key.
Proof.
  intros Hkey. unfold Monitor.column.
  destruct (find _ col); [|by intros [= <-]].
  destruct (Monitor.title_seats _); [|discriminate].
  intros [= <-]. simpl.
  destruct (contains (py "FIRST CLASS") _).
  { apply store_class_other; [by left|done]. }
  destruct (_ || _); [|done].
  apply store_class_other; [by right|done].
Qed.

Lemma columns_other (form : element) (train : train_data) st key :
  key ∉ fare_keys -> Monitor.columns form train = Some st ->
  fst st !! key = train !! key.
Proof.
  intros Hkey. unfold Monitor.columns.
  apply (for_each_invariant (fun st => fst st !! key = train !! key)); [|done].
  intros col s s' Hs Hcol. by rewrite (column_other col s s' key Hkey Hcol).
Qed.

Lemma button_class_other (k : class_keys) button class_text
    (train train' : train_data) key :
  fare_class k -> key ∉ fare_keys ->
  button_class k button class_text train = Some train' ->
  train' !! key = train !! key.
Proof.
  intros Hk Hkey. unfold button_class.
  destruct (button_seats class_text); [|discriminate]. intros [= <-].
  assert (Hs : (<[seats_key k := VInt z]> train) !! key = train !! key).
  { destruct Hk as [-> | ->]; simpl; rewrite lookup_insert_ne; try done;
      other_key Hkey. }
  destruct (find_next _ button); [|done].
  destruct (find_all _ n) as [|p0 [|p1 ?]]; try done.
  rewrite <- Hs.
  destruct Hk as [-> | ->]; simpl; rewrite !lookup_insert_ne; try done;
    other_key Hkey.
Qed.

Lemma class_button_other button (train train' : train_data) key :
  key ∉ fare_keys -> class_button button train = Some train' ->
  train' !! key = train !! key.
Proof.
  intros Hkey. unfold class_button.
  destruct (contains (py "FIRST CLASS") _).
  { apply button_class_other; [by left|done]. }
  destruct (_ || _); [|by intros [= <-]].
  apply button_class_other; [by right|done].
Qed.

Lemma class_buttons_other form (train train' : train_data) key :
  key ∉ fare_keys -> class_buttons form train = Some train' ->
  train' !! key = train !! key.
Proof.
  intros Hkey. unfold class_buttons.
  apply (for_each_invariant (fun t => t !! key = train !! key)); [|done].
  intros b s s' Hs Hb. by rewrite (class_button_other b s s' key Hkey Hb).
Qed.

Lemma parse_form_other (form : element) (train : train_data) key :
  key ∉ fare_keys -> Monitor.parse_form form = Some train ->
  train !! key = named_train form !! key.
Proof.
  intros Hkey. unfold Monitor.parse_form.
  change (Monitor.train_name form _) with (named_train form).
  destruct (Monitor.columns form (named_train form)) as [[t found]|] eqn:E;
    [|discriminate].
  pose proof (columns_other _ _ _ key Hkey E) as Hc. simpl in Hc.
  destruct found.
  - by intros [= <-].
  - intros Hb. by rewrite (class_buttons_other _ _ _ key Hkey Hb).
Qed.

End Frame.

(** ** The name of a train *)

Lemma name_not_fare_key : "name" ∉ fare_keys.
Proof. not_fare_key. Qed.

Lemma departure_not_fare_key : "departure" ∉ fare_keys.
Proof. not_fare_key. Qed.

Lemma arrival_not_fare_key : "arrival" ∉ fare_keys.
Proof. not_fare_key. Qed.

Lemma timed_train_departure (form : element) (v : value) :
  timed_train form !! "departure" = Some v -> exists dep, v = VStr dep.
Proof.
  unfold timed_train, Monitor.fallback_times.
  set (t := Monitor.result_times form ∅).
  assert (Ht : forall v, t !! "departure" = Some v -> exists dep, v = VStr dep).
  { unfold t, Monitor.result_times. intros w.
    destruct (find_all _ (fst form)) as [|t0 [|t1 ?]]; try by rewrite lookup_empty.
    destruct (find _ t0) as [d|], (find _ t1) as [a|]; intros H;
      simplify_map_eq; eauto. }
  destruct (t !! "departure") as [w|] eqn:E.
  - rewrite E. intros [= <-]. eauto.
  - unfold time_divs.
    destruct (find_all _ (fst form)) as [|t0 [|t1 ?]]; try (rewrite E; discriminate).
    intros H. simplify_map_eq. eauto.
Qed.

Lemma named_train_departure (form : element) :
  named_train form !! "departure" = timed_train form !! "departure".
Proof.
  unfold named_train, Monitor.train_name.
  destruct (find _ (fst form)); by rewrite lookup_insert_ne.
Qed.

Lemma parse_form_has_name {RT : Runtime} (form : element) (train : train_data) :
  Monitor.parse_form form = Some train -> is_Some (train !! "name").
Proof.
  intros Hp. rewrite (parse_form_other form train "name" name_not_fare_key Hp).
  unfold named_train, Monitor.train_name.
  destruct (find _ (fst form)); rewrite lookup_insert_eq; eauto.
Qed.

Lemma main_parse_form_name {RT : Runtime} (form : element) (train : train_data) :
  Main.parse_form form = Some train ->
  train !! "name"
  = match find (by_name "h3") (fst form) with
    | Some h3 => Some (VStr (strip (text h3)))
    | None => None
    end.
Proof.
  unfold Main.parse_form. intros Hp.
  rewrite (class_buttons_other _ _ _ "name" name_not_fare_key Hp).
  unfold time_divs.
  destruct (find_all _ (fst form)) as [|t0 [|t1 ?]];
    rewrite ?lookup_insert_ne by done;
    destruct (find _ (fst form)); by rewrite ?lookup_insert_eq, ?lookup_empty.
Qed.

(** C8, as the code has it. For every block that [check_availability] of
    train_monitor.py parses, the train has a name: the stripped text of the
    first [h3] of the block when the block has one; otherwise ["Train "]
    followed by the extracted departure time, or ["Train Unknown"] when no
    departure time was extracted. For every block that
    [parse_available_trains] of main.py parses, the name is the stripped
    text of the first [h3] of the block likewise, and the train has no name
    when the block has no [h3]: main.py synthesizes none. *)
Theorem C8_name_by_script
    {RT : Runtime} (s : script) (form : element) (train : train_data) :
  parse_form_in s form = Some train ->
  (forall h3, first_below (by_name "h3") (fst form) h3 ->
     train !! "name" = Some (VStr (strip (text h3))))
  /\ (existsb (matches (by_name "h3")) (descendants (fst form)) = false ->
      match s with
      | train_monitor_py =>
          (forall v, train !! "departure" = Some v ->
             exists dep, v = VStr dep
                         /\ train !! "name" = Some (VStr (py "Train " ++ dep)))
          /\ (train !! "departure" = None ->
              train !! "name" = Some (VStr (py "Train Unknown")))
      | main_py => train !! "name" = None
      end)
  /\ (s = train_monitor_py -> is_Some (train !! "name")).
Proof.
  destruct s; simpl; intros Hp.
  - rewrite (parse_form_other form train "name" name_not_fare_key Hp).
    rewrite (parse_form_other form train "departure" departure_not_fare_key Hp).
    rewrite named_train_departure.
    unfold named_train, Monitor.train_name, Monitor.departure_or_unknown.
    split; [|split].
    + intros h3 Hh3. apply find_first_below in Hh3. rewrite Hh3.
      by rewrite lookup_insert_eq.
    + intros Hno. apply find_None in Hno. rewrite Hno. rewrite lookup_insert_eq.
      split.
      * intros v Hv. destruct (timed_train_departure form v Hv) as [dep ->].
        exists dep. by rewrite Hv.
      * by intros ->.
    + intros _. destruct (find _ (fst form)); rewrite lookup_insert_eq; eauto.
  - rewrite (main_parse_form_name form train Hp).
    split; [|split; [|done]].
    + intros h3 Hh3. apply find_first_below in Hh3. by rewrite Hh3.
    + intros Hno. apply find_None in Hno. by rewrite Hno.
Qed.

Lemma C8_name_by_script_witness :
  exists train train',
    Monitor.parse_form (Samples.alone Samples.form_unnamed) = Some train
    /\ train !! "name" = Some (VStr (py "Train 08:00"))
    /\ Main.parse_form (Samples.alone Samples.form_morning) = Some train'
    /\ train' !! "name" = Some (VStr (py "Madaraka 1")).
Proof.
  pose (train := default ∅ (Monitor.parse_form (Samples.alone Samples.form_unnamed))).
  pose (train' := default ∅ (Main.parse_form (Samples.alone Samples.form_morning))).
  assert (E : Monitor.parse_form (Samples.alone Samples.form_unnamed) = Some train)
    by (vm_compute; reflexivity).
  assert (E' : Main.parse_form (Samples.alone Samples.form_morning) = Some train')
    by (vm_compute; reflexivity).
  exists train, train'. split; [exact E|]. split.
  - destruct (C8_name_by_script train_monitor_py _ _ E) as (_ & H & _).
    destruct H as [H _]; [vm_compute; reflexivity|].
    destruct (H (VStr (py "08:00"))) as (dep & Hdep & Hname);
      [vm_compute; reflexivity|].
    injection Hdep as <-. exact Hname.
  - split; [exact E'|].
    destruct (C8_name_by_script main_py _ _ E') as (H & _ & _).
    apply (H (Samples.plain "h3" [Samples.txt "Madaraka 1"])).
    apply find_first_below. vm_compute. reflexivity.
Defined.

(** C8, as stated, fails for main.py: a block without [h3] that
    [parse_available_trains] parses gives a train without a name, where
    the claim has ["Train 08:00"]. *)
Lemma C8_main_leaves_the_block_unnamed :
  existsb (matches (by_name "h3"))
    (descendants (fst (Samples.alone Samples.form_unnamed))) = false
  /\ (Main.parse_form (Samples.alone Samples.form_unnamed)
      ≫= fun train => Some (train !! "name", train !! "departure"))
     = Some (None, Some (VStr (py "08:00"))).
Proof. split; vm_compute; reflexivity. Qed.

(** The same rule on blocks with a heading and without a departure time. *)
Example name_of_heading_and_unknown :
  (Monitor.parse_form (Samples.alone Samples.form_morning)
     ≫= fun train => train !! "name") = Some (VStr (py "Madaraka 1"))
  /\ (Monitor.parse_form (Samples.alone Samples.form_bare)
        ≫= fun train => train !! "name") = Some (VStr (py "Train Unknown")).
Proof. split; vm_compute; reflexivity. Qed.

(** Every train that [check_availability] returns has a name. *)
Lemma every_result_is_named
    {RT : Runtime} (html_parser : pystr -> soup) (html_content : option pystr) :
  Forall (fun train : train_data => is_Some (train !! "name"))
    (snd (Monitor.check_availability html_parser html_content)).
Proof.
  destruct html_content as [[|c html]|]; [constructor| |constructor].
  destruct (Monitor.fully_booked (html_parser (c :: html))) eqn:Hfb.
  { rewrite check_availability_fully_booked; [constructor|done|done]. }
  destruct (find_element container (root (html_parser (c :: html)))) as [ft|] eqn:Hc.
  - rewrite (check_availability_container _ _ ft); [|done..]. simpl.
    induction (Monitor.booking_forms ft) as [|f forms IH]; [constructor|].
    simpl. destruct (Monitor.parse_form f) eqn:E; [|exact IH].
    constructor; [|exact IH]. by apply (parse_form_has_name f).
  - rewrite check_availability_no_container; [constructor|done..].
Qed.

(** ** The seat counts of a parsed train *)

Section SeatsOfParsedTrains.
Context {RT : Runtime}.

Lemma result_times_keys (form : element) (train : train_data) key :
  key <> "departure" -> key <> "arrival" ->
  Monitor.result_times form train !! key = train !! key.
Proof.
  intros Hd Ha. unfold Monitor.result_times.
  destruct (find_all _ (fst form)) as [|t0 [|t1 ?]]; try done.
  destruct (find _ t0), (find _ t1); by rewrite ?lookup_insert_ne.
Qed.

Lemma time_divs_keys (form : element) (train : train_data) key :
  key <> "departure" -> key <> "arrival" ->
  time_divs form train !! key = train !! key.
Proof.
  intros Hd Ha. unfold time_divs.
  destruct (find_all _ (fst form)) as [|t0 [|t1 ?]]; try done.
  by rewrite !lookup_insert_ne.
Qed.

Lemma named_train_keys (form : element) key :
  key <> "departure" -> key <> "arrival" -> key <> "name" ->
  named_train form !! key = None.
Proof.
  intros Hd Ha Hn. unfold named_train, Monitor.train_name.
  assert (E : timed_train form !! key = None).
  { unfold timed_train, Monitor.fallback_times.
    destruct (_ !! "departure").
    - by rewrite result_times_keys.
    - by rewrite time_divs_keys, result_times_keys. }
  destruct (find _ (fst form)); by rewrite lookup_insert_ne.
Qed.

Lemma named_train_seats_ok (form : element) : seats_ok (named_train form).
Proof. intros k [-> | ->]; simpl; by rewrite named_train_keys. Qed.

Lemma insert_seats_ok (k : class_keys) (seats : Z) (train : train_data) :
  fare_class k -> (0 <= seats)%Z -> seats_ok train ->
  seats_ok (<[seats_key k := VInt seats]> train).
Proof.
  intros Hk Hs Ht k' Hk'. specialize (Ht k' Hk').
  destruct Hk as [-> | ->], Hk' as [-> | ->]; simpl in *;
    rewrite ?lookup_insert_eq, ?lookup_insert_ne; done.
Qed.

Lemma insert_price_seats_ok (key : string) (v : value) (train : train_data) :
  key <> "first_class_seats" -> key <> "economy_seats" ->
  seats_ok train -> seats_ok (<[key := v]> train).
Proof.
  intros H1 H2 Ht k' Hk'. specialize (Ht k' Hk').
  destruct Hk' as [-> | ->]; simpl in *; by rewrite lookup_insert_ne.
Qed.

Lemma store_class_seats_ok (k : class_keys) seats prices (train : train_data) :
  fare_class k -> (0 <= seats)%Z -> seats_ok train ->
  seats_ok (Monitor.store_class k seats prices train).
Proof.
  intros Hk Hs Ht. unfold Monitor.store_class.
  pose proof (insert_seats_ok k seats train Hk Hs Ht) as H.
  destruct Hk as [-> | ->]; simpl in *;
    do 2 (apply insert_price_seats_ok; [done|done|]); exact H.
Qed.

Lemma column_seats_ok (col : node) st st' :
  seats_ok (fst st) -> Monitor.column col st = Some st' -> seats_ok (fst st').
Proof.
  intros Ht. unfold Monitor.column.
  destruct (find _ col); [|by intros [= <-]].
  destruct (Monitor.title_seats _) as [seats|] eqn:E; [|discriminate].
  apply title_seats_nonneg in E.
  intros [= <-]. simpl.
  destruct (contains (py "FIRST CLASS") _).
  { apply store_class_seats_ok; [by left|done..]. }
  destruct (_ || _); [|done].
  apply store_class_seats_ok; [by right|done..].
Qed.

Lemma button_class_seats_ok (k : class_keys) button class_text
    (train train' : train_data) :
  fare_class k -> seats_ok train ->
  button_class k button class_text train = Some train' -> seats_ok train'.
Proof.
  intros Hk Ht. unfold button_class.
  destruct (button_seats class_text) as [seats|] eqn:E; [|discriminate].
  apply button_seats_nonneg in E. intros [= <-].
  pose proof (insert_seats_ok k seats train Hk E Ht) as H.
  destruct (find_next _ button); [|done].
  destruct (find_all _ n) as [|p0 [|p1 ?]]; try done.
  destruct Hk as [-> | ->]; simpl in *;
    do 2 (apply insert_price_seats_ok; [done|done|]); exact H.
Qed.

Lemma class_button_seats_ok button (train train' : train_data) :
  seats_ok train -> class_button button train = Some train' -> seats_ok train'.
Proof.
  intros Ht. unfold class_button.
  destruct (contains (py "FIRST CLASS") _).
  { apply button_class_seats_ok; [by left|done]. }
  destruct (_ || _); [|by intros [= <-]].
  apply button_class_seats_ok; [by right|done].
Qed.

(** Every seat count of a parsed block is an integer that is not
    negative. *)
Lemma parse_form_seats_ok (form : element) (train : train_data) :
  Monitor.parse_form form = Some train -> seats_ok train.
Proof.
  unfold Monitor.parse_form.
  change (Monitor.train_name form _) with (named_train form).
  destruct (Monitor.columns form (named_train form)) as [[t found]|] eqn:E;
    [|discriminate].
  assert (Ht : seats_ok t).
  { revert E. unfold Monitor.columns.
    apply (for_each_invariant (fun st => seats_ok (fst st)));
      [|apply named_train_seats_ok].
    intros col s s'. apply column_seats_ok. }
  destruct found; [by intros [= <-]|].
  unfold class_buttons. apply (for_each_invariant seats_ok); [|done].
  intros b s s'. apply class_button_seats_ok.
Qed.

End SeatsOfParsedTrains.

(** C7: the label of a class button carries a superscript two after the
    hyphen. [str.isdigit] keeps the character, [int] does not read it: the
    extraction of the seat count raises ValueError where the claim has 0,
    and the block is dropped from the result of both scripts. *)
Theorem C7_superscript_digit_raises :
  List.filter isdigit (py " " ++ [178]) = [178]
  /\ py_int [178] = None
  /\ button_seats Samples.superscript_label = None
  /\ Monitor.parse_form (Samples.alone Samples.form_superscript) = None
  /\ Main.parse_form (Samples.alone Samples.form_superscript) = None
  /\ Monitor.check_availability Samples.pages (Some Samples.one_bad_block_html)
     = (true, [])
  /\ Main.parse_available_trains Samples.pages (Some Samples.one_bad_block_html)
     = [].
Proof. repeat split; vm_compute; reflexivity. Qed.

(** ** Which layout is read *)

Section Layouts.
Context {RT : Runtime}.

Lemma column_found (col : node) st st' :
  Monitor.column col st = Some st' ->
  snd st' = snd st || is_some (find (by_class "h4" ["box-title"]) col).
Proof.
  unfold Monitor.column. destruct (find _ col); simpl.
  - destruct (Monitor.title_seats _); [|discriminate].
    intros [= <-]. simpl. by rewrite orb_true_r.
  - intros [= <-]. by rewrite orb_false_r.
Qed.

Lemma column_untitled (col : node) st :
  is_some (find (by_class "h4" ["box-title"]) col) = false ->
  Monitor.column col st = Some st.
Proof. unfold Monitor.column. by destruct (find _ col). Qed.

Lemma for_each_column_found (cols : list node) :
  forall st st',
    for_each Monitor.column cols st = Some st' ->
    snd st' = snd st
              || existsb (fun col => is_some (find (by_class "h4" ["box-title"]) col)) cols.
Proof.
  induction cols as [|col cols IH]; intros st st'; simpl.
  - intros [= <-]. by rewrite orb_false_r.
  - destruct (Monitor.column col st) as [s1|] eqn:E; [|discriminate].
    intros H. rewrite (IH _ _ H), (column_found _ _ _ E). by rewrite orb_assoc.
Qed.

Lemma for_each_column_untitled (cols : list node) st :
  existsb (fun col => is_some (find (by_class "h4" ["box-title"]) col)) cols = false ->
  for_each Monitor.column cols st = Some st.
Proof.
  induction cols as [|col cols IH]; simpl; [done|].
  intros [H1 H2]%orb_false_iff. rewrite column_untitled; [|done]. by apply IH.
Qed.

Lemma parse_form_by_layout (form : element) :
  Monitor.parse_form form
  = if has_box_title form
    then fst <$> Monitor.columns form (named_train form)
    else class_buttons form (named_train form).
Proof.
  unfold Monitor.parse_form, has_box_title.
  change (Monitor.train_name form _) with (named_train form).
  unfold Monitor.columns.
  destruct (existsb _ _) eqn:Hx.
  - destruct (for_each _ _ _) as [[t found]|] eqn:E; [|done].
    apply for_each_column_found in E. simpl in E. rewrite Hx in E. by subst.
  - by rewrite for_each_column_untitled.
Qed.

End Layouts.

(** C2, as the code has it. The fallback is decided by two flags of the
    block, not field by field. The button layout is read for the fare
    classes exactly when no column of the block has a box title, whatever
    the columns populated; it is then applied to the same block, on top of
    the times and the name already extracted. The [div.time] layout is read
    for the times exactly when the column layout left the departure time
    unset. *)
Theorem C2_fallback_by_layout_flags {RT : Runtime} (form : element) :
  Monitor.parse_form form
  = (if has_box_title form
     then fst <$> Monitor.columns form (named_train form)
     else class_buttons form (named_train form))
  /\ named_train form = Monitor.train_name form (timed_train form)
  /\ timed_train form
     = (if is_some (Monitor.result_times form ∅ !! "departure")
        then Monitor.result_times form ∅
        else time_divs form (Monitor.result_times form ∅)).
Proof.
  split; [apply parse_form_by_layout|]. split; [done|].
  unfold timed_train, Monitor.fallback_times.
  by destruct (_ !! "departure").
Qed.

(** A block where the column layout yields the times and no column has a
    box title: the class button is read. *)
Example C2_times_then_button :
  has_box_title (Samples.alone Samples.form_times_and_button) = false
  /\ (Monitor.parse_form (Samples.alone Samples.form_times_and_button)
      ≫= fun train =>
           Some (train !! "departure", train !! "first_class_seats",
                 train !! "first_class_adult"))
     = Some (Some (VStr (py "04:30 pm")), Some (VInt 7), Some (VStr (py "3000"))).
Proof. split; vm_compute; reflexivity. Qed.

(** C2, as stated, fails. In the first block the column layout yields the
    times and populates no fare class, and the button layout, which would
    read seven first-class seats from the same block, is not applied. In
    the second block the column layout populates first class only, and the
    economy button of the block is not read. *)
Lemma C2_button_not_read_after_a_titled_column :
  let mixed := Samples.alone Samples.form_mixed in
  let half := Samples.alone Samples.form_half in
  Monitor.result_times mixed ∅ !! "departure" = Some (VStr (py "04:30 pm"))
  /\ (Monitor.parse_form mixed
      ≫= fun train => Some (List.map (fun key => train !! key) fare_keys))
     = Some [None; None; None; None; None; None]
  /\ (class_buttons mixed (named_train mixed)
      ≫= fun train => train !! "first_class_seats") = Some (VInt 7)
  /\ (Monitor.parse_form half
      ≫= fun train => Some (train !! "first_class_seats", train !! "economy_seats"))
     = Some (Some (VInt 3), None)
  /\ (class_buttons half (named_train half)
      ≫= fun train => train !! "economy_seats") = Some (VInt 40).
Proof. repeat split; vm_compute; reflexivity. Qed.

(** ** Prices *)

Lemma for_each_invariant_in {A S} (I : S -> Prop) (body : A -> S -> option S)
    (l : list A) :
  (forall x s s', x ∈ l -> I s -> body x s = Some s' -> I s') ->
  forall s s', I s -> for_each body l s = Some s' -> I s'.
Proof.
  induction l as [|x l IH]; intros Hbody s s' Hs; simpl.
  - by intros [= <-].
  - destruct (body x s) as [s1|] eqn:E; [|discriminate].
    apply IH.
    + intros y t t' Hy. apply Hbody. by apply list_elem_of_further.
    + eapply Hbody; [apply list_elem_of_here|done..].
Qed.

Lemma fold_left_invariant_in {A S} (I : S -> Prop) (f : S -> A -> S) (l : list A) :
  (forall x s, x ∈ l -> I s -> I (f s x)) ->
  forall s, I s -> I (fold_left f l s).
Proof.
  induction l as [|x l IH]; intros Hf s Hs; simpl; [done|].
  apply IH.
  - intros y t Hy. apply Hf. by apply list_elem_of_further.
  - apply Hf; [apply list_elem_of_here|done].
Qed.

Section Rows.
Context {RT : Runtime}.

Lemma details_step_row (prices : pystr * pystr) (dl : node) :
  Monitor.details_step prices dl
  = match labelled_row dl with
    | Some (label, price) =>
        if contains (py "adult") label then (price, snd prices)
        else if contains (py "children") label && contains (py "3 - 11") label
        then (fst prices, price)
        else prices
    | None => prices
    end.
Proof.
  unfold Monitor.details_step, labelled_row.
  by destruct (find (by_name "dt") dl), (find (by_name "dd") dl).
Qed.

Lemma details_steps_last (rows : list node) (acc : pystr * pystr) :
  let prices := fold_left Monitor.details_step rows acc in
  match last (List.filter adult_row rows) with
  | Some dl => exists label, labelled_row dl = Some (label, fst prices)
  | None => fst prices = fst acc
  end
  /\ match last (List.filter child_row rows) with
     | Some dl => exists label, labelled_row dl = Some (label, snd prices)
     | None => snd prices = snd acc
     end.
Proof.
  induction rows as [|dl rows IH] using rev_ind; [done|].
  rewrite fold_left_app, !List.filter_app. simpl.
  set (prices := fold_left Monitor.details_step rows acc) in *.
  destruct IH as [IHa IHc].
  rewrite details_step_row. unfold adult_row, child_row.
  destruct (labelled_row dl) as [[label price]|] eqn:El;
    [|by rewrite !app_nil_r].
  destruct (contains (py "adult") label); simpl.
  - rewrite last_snoc, app_nil_r. split; [by exists label|exact IHc].
  - rewrite app_nil_r.
    destruct (contains (py "children") label && contains (py "3 - 11") label).
    + rewrite last_snoc. split; [exact IHa|by exists label].
    + rewrite app_nil_r. by split.
Qed.

End Rows.

Section Prices.
Context {RT : Runtime}.

Ltac keys := cbn [seats_key adult_key child_key first_class economy] in *.

Lemma for_each_snoc {A S} (body : A -> S -> option S) (l : list A) (x : A) (s : S) :
  for_each body (l ++ [x]) s = for_each body l s ≫= body x.
Proof.
  revert s. induction l as [|y l IH]; intros s; simpl.
  - by destruct (body x s).
  - destruct (body y s); [apply IH|done].
Qed.

Lemma names_class_first (label : pystr) :
  names_class first_class label = contains (py "FIRST CLASS") label.
Proof. done. Qed.

Lemma names_class_economy (label : pystr) :
  names_class economy label
  = negb (contains (py "FIRST CLASS") label)
    && (contains (py "ECONOMY") label || contains (py "SECOND CLASS") label).
Proof. done. Qed.

Lemma column_prices_last (col : node) :
  let rows := find_all (by_class "dl" ["details"]) col in
  last_price (List.filter adult_row rows) (fst (Monitor.column_prices col))
  /\ last_price (List.filter child_row rows) (snd (Monitor.column_prices col)).
Proof.
  intros rows. unfold last_price, Monitor.column_prices.
  destruct (details_steps_last rows (py "N/A", py "N/A")) as [Ha Hc].
  fold rows. split.
  - destruct (last (List.filter adult_row rows)); [exact Ha|exact Ha].
  - destruct (last (List.filter child_row rows)); [exact Hc|exact Hc].
Qed.

Lemma store_class_same (k : class_keys) seats prices (train : train_data) :
  fare_class k ->
  Monitor.store_class k seats prices train !! seats_key k = Some (VInt seats)
  /\ Monitor.store_class k seats prices train !! adult_key k
     = Some (VStr (fst prices))
  /\ Monitor.store_class k seats prices train !! child_key k
     = Some (VStr (snd prices)).
Proof.
  intros [-> | ->]; unfold Monitor.store_class; simpl;
    repeat split; by simplify_map_eq.
Qed.

Lemma store_class_diff (k k' : class_keys) seats prices (train : train_data) :
  fare_class k -> fare_class k' -> k <> k' ->
  Monitor.store_class k seats prices train !! seats_key k' = train !! seats_key k'
  /\ Monitor.store_class k seats prices train !! adult_key k' = train !! adult_key k'
  /\ Monitor.store_class k seats prices train !! child_key k' = train !! child_key k'.
Proof.
  intros [-> | ->] [-> | ->] Hne; try done; unfold Monitor.store_class; simpl;
    repeat split; by simplify_map_eq.
Qed.

Lemma first_class_not_economy : first_class <> economy.
Proof. discriminate. Qed.

Lemma columns_fare_steps (cols : list node) (train0 : train_data) (k : class_keys) :
  fare_class k ->
  forall st,
    for_each Monitor.column cols (train0, false) = Some st ->
    columns_fare cols train0 (fst st) k.
Proof.
  intros Hk. induction cols as [|col cols IH] using rev_ind; intros st.
  - intros [= <-]. by unfold columns_fare.
  - rewrite for_each_snoc.
    destruct (for_each Monitor.column cols (train0, false)) as [st0|] eqn:E;
      [|discriminate].
    specialize (IH st0 eq_refl). simpl.
    unfold columns_fare in *. rewrite List.filter_app. simpl.
    unfold Monitor.column, titled at 2.
    destruct (find (by_class "h4" ["box-title"]) col) as [title|];
      [|intros [= <-]; by rewrite app_nil_r].
    destruct (Monitor.title_seats _) as [seats|]; [|discriminate].
    intros [= <-]. simpl.
    set (title_text := upper (strip (text title))).
    destruct (column_prices_last col) as [Ha Hc].
    destruct Hk as [-> | ->].
    + rewrite names_class_first.
      destruct (contains (py "FIRST CLASS") title_text).
      * rewrite last_snoc.
        destruct (store_class_same first_class seats (Monitor.column_prices col)
                    (fst st0)) as (Es & Ea & Ec); [by left|].
        keys. split; [rewrite Es; eauto|]. eauto 10.
      * rewrite app_nil_r.
        destruct (_ || _); [|exact IH].
        destruct (store_class_diff economy first_class seats
                    (Monitor.column_prices col) (fst st0))
          as (Es & Ea & Ec); [by right|by left|done|].
        keys. rewrite Es, Ea, Ec. exact IH.
    + rewrite names_class_economy.
      destruct (contains (py "FIRST CLASS") title_text); simpl.
      * rewrite app_nil_r.
        destruct (store_class_diff first_class economy seats
                    (Monitor.column_prices col) (fst st0))
          as (Es & Ea & Ec); [by left|by right|done|].
        keys. rewrite Es, Ea, Ec. exact IH.
      * destruct (_ || _).
        -- rewrite last_snoc.
           destruct (store_class_same economy seats (Monitor.column_prices col)
                       (fst st0)) as (Es & Ea & Ec); [by right|].
           keys. split; [rewrite Es; eauto|]. eauto 10.
        -- rewrite app_nil_r. exact IH.
Qed.

Lemma button_class_same (k : class_keys) button class_text (train train' : train_data) :
  fare_class k ->
  button_class k button class_text train = Some train' ->
  is_some (train' !! seats_key k) = true
  /\ match price_spans button with
     | Some (p0, p1) =>
         train' !! adult_key k = Some (VStr (strip (text p0)))
         /\ train' !! child_key k = Some (VStr (strip (text p1)))
     | None =>
         train' !! adult_key k = train !! adult_key k
         /\ train' !! child_key k = train !! child_key k
     end.
Proof.
  intros Hk. unfold button_class, price_spans.
  destruct (button_seats class_text) as [seats|]; [|discriminate].
  intros [= <-].
  destruct (find_next _ button) as [section|].
  - destruct (find_all _ section) as [|p0 [|p1 rest]];
      destruct Hk as [-> | ->]; simpl; repeat split; by simplify_map_eq.
  - destruct Hk as [-> | ->]; simpl; repeat split; by simplify_map_eq.
Qed.

Lemma button_class_diff (k k' : class_keys) button class_text
    (train train' : train_data) :
  fare_class k -> fare_class k' -> k <> k' ->
  button_class k button class_text train = Some train' ->
  train' !! seats_key k' = train !! seats_key k'
  /\ train' !! adult_key k' = train !! adult_key k'
  /\ train' !! child_key k' = train !! child_key k'.
Proof.
  intros Hk Hk' Hne. unfold button_class.
  destruct (button_seats class_text) as [seats|]; [|discriminate].
  intros [= <-].
  destruct (find_next _ button) as [section|];
    [destruct (find_all _ section) as [|p0 [|p1 rest]]|];
    destruct Hk as [-> | ->], Hk' as [-> | ->]; try done; simpl;
    repeat split; by simplify_map_eq.
Qed.

Lemma buttons_fare_steps (buttons : list element) (train0 : train_data)
    (k : class_keys) :
  fare_class k ->
  forall train,
    for_each class_button buttons train0 = Some train ->
    buttons_fare buttons train0 train k.
Proof.
  intros Hk. induction buttons as [|b buttons IH] using rev_ind; intros train.
  - intros [= <-]. unfold buttons_fare. simpl. by rewrite orb_false_r.
  - rewrite for_each_snoc.
    destruct (for_each class_button buttons train0) as [t0|] eqn:E; [|discriminate].
    specialize (IH t0 eq_refl). simpl. destruct IH as [IHs IHp].
    unfold buttons_fare. rewrite List.filter_app, existsb_app. simpl.
    rewrite orb_false_r. unfold class_button, labelled at 2 4.
    set (class_text := strip (text (fst b))).
    destruct Hk as [-> | ->].
    + rewrite names_class_first.
      destruct (contains (py "FIRST CLASS") class_text) eqn:Ef.
      * intros Hb.
        destruct (button_class_same first_class b class_text t0 train) as [Es Ep];
          [by left|done|].
        keys. split; [rewrite Es; by rewrite !orb_true_r|].
        simpl. destruct (price_spans b) as [[p0 p1]|] eqn:Esp; simpl.
        -- rewrite last_snoc. exists p0, p1. by destruct Ep.
        -- rewrite app_nil_r. destruct Ep as [-> ->]. exact IHp.
      * simpl. rewrite app_nil_r, orb_false_r.
        destruct (contains (py "ECONOMY") class_text
                  || contains (py "SECOND CLASS") class_text).
        -- intros Hb.
           destruct (button_class_diff economy first_class b class_text t0 train)
             as (Es & Ea & Ec); [by right|by left|done|done|].
           keys. rewrite Es, Ea, Ec. by split.
        -- intros [= <-]. by split.
    + rewrite names_class_economy.
      destruct (contains (py "FIRST CLASS") class_text) eqn:Ef; simpl.
      * rewrite app_nil_r, orb_false_r. intros Hb.
        destruct (button_class_diff first_class economy b class_text t0 train)
          as (Es & Ea & Ec); [by left|by right|done|done|].
        keys. rewrite Es, Ea, Ec. by split.
      * destruct (contains (py "ECONOMY") class_text
                  || contains (py "SECOND CLASS") class_text) eqn:Ee; simpl.
        -- intros Hb.
           destruct (button_class_same economy b class_text t0 train) as [Es Ep];
             [by right|done|].
           keys. split; [rewrite Es; by rewrite !orb_true_r|].
           destruct (price_spans b) as [[p0 p1]|] eqn:Esp; simpl.
           ++ rewrite last_snoc. exists p0, p1. by destruct Ep.
           ++ rewrite app_nil_r. destruct Ep as [-> ->]. exact IHp.
        -- rewrite app_nil_r, orb_false_r. intros [= <-]. by split.
Qed.

End Prices.

(** C9, as the code has it. Prices are stored as the text of the page,
    with outer white space stripped and nothing else changed. In a block
    read from columns (some column has a box title), a fare class that a
    column is titled for has its seat count and both prices, those of the
    last such column: each price is the stripped [dd] of the last row of
    its label, and the sentinel ["N/A"] when the column has no row of that
    label; a fare class that no column is titled for has no field. In a
    block read from class buttons, the prices of a fare class are the
    stripped texts of the first two price spans of the price section that
    follows a button labelled for the class, the last button for which that
    section has two price spans; when there is no such button the class has
    no price, and no sentinel is written, though it has its seat count as
    soon as a button is labelled for it. *)
Theorem C9_prices_by_layout
    {RT : Runtime} (form : element) (train : train_data) (k : class_keys) :
  Monitor.parse_form form = Some train ->
  fare_class k ->
  if has_box_title form
  then column_fare form train k
  else button_fare form train k.
Proof.
  intros Hp Hk. rewrite parse_form_by_layout in Hp.
  assert (Hn : named_train form !! seats_key k = None
               /\ named_train form !! adult_key k = None
               /\ named_train form !! child_key k = None).
  { destruct Hk as [-> | ->]; simpl; by rewrite !named_train_keys. }
  destruct Hn as (Hs & Ha & Hc).
  destruct (has_box_title form).
  - destruct (Monitor.columns form (named_train form)) as [st|] eqn:E;
      [|discriminate].
    injection Hp as <-.
    pose proof (columns_fare_steps (class_columns form) (named_train form) k Hk st E)
      as H.
    unfold columns_fare in H. rewrite Hs, Ha, Hc in H. exact H.
  - pose proof (buttons_fare_steps (buttons_of form) (named_train form) k Hk train Hp)
      as [H1 H2].
    rewrite Hs in H1. rewrite Ha, Hc in H2. by split.
Qed.

Lemma C9_prices_by_layout_witness :
  exists train,
    Monitor.parse_form (Samples.alone Samples.form_columns) = Some train
    /\ train !! "first_class_adult" = Some (VStr (py "3,000 KES"))
    /\ train !! "economy_child" = Some (VStr (py "N/A"))
    /\ column_fare (Samples.alone Samples.form_columns) train economy.
Proof.
  pose (form := Samples.alone Samples.form_columns).
  pose (train := default ∅ (Monitor.parse_form form)).
  assert (E : Monitor.parse_form form = Some train) by (vm_compute; reflexivity).
  exists train. split; [exact E|].
  split; [vm_compute; reflexivity|]. split; [vm_compute; reflexivity|].
  pose proof (C9_prices_by_layout form train economy E (or_intror eq_refl)) as H.
  assert (B : has_box_title form = true) by (vm_compute; reflexivity).
  rewrite B in H. exact H.
Defined.

(** C9, as stated, fails: a block read from a class button that no price
    section follows has its seats and no price, neither an upstream string
    nor ["N/A"]. *)
Lemma C9_button_without_price_section :
  (Monitor.parse_form (Samples.alone Samples.form_bare)
   ≫= fun train =>
        Some (train !! "economy_seats", train !! "economy_adult",
              train !! "economy_child"))
  = Some (Some (VInt 4), None, None).
Proof. vm_compute. reflexivity. Qed.

(** ** The two scripts *)

Section TwoScripts.
Context {RT : Runtime}.

Lemma result_times_none (form : element) (train : train_data) :
  has_result_times form = false -> Monitor.result_times form train = train.
Proof.
  unfold has_result_times, Monitor.result_times.
  destruct (find_all _ (fst form)) as [|t0 [|t1 ?]]; try done.
  by destruct (find _ t0), (find _ t1).
Qed.

Lemma time_divs_insert (form : element) (train : train_data) (v : value) :
  time_divs form (<["name" := v]> train) = <["name" := v]> (time_divs form train).
Proof.
  unfold time_divs.
  destruct (find_all _ (fst form)) as [|t0 [|t1 ?]]; try done.
  rewrite (insert_insert_ne _ "departure" "name") by done.
  by rewrite (insert_insert_ne _ "arrival" "name") by done.
Qed.

(** On a block of the button layout alone the two scripts extract the
    same train. *)
Lemma parse_form_agree (form : element) :
  button_layout_only form = true ->
  Monitor.parse_form form = Main.parse_form form.
Proof.
  unfold button_layout_only.
  intros [[Hh Ht]%andb_true_iff Hb]%andb_true_iff.
  apply negb_true_iff in Ht, Hb.
  rewrite parse_form_by_layout, Hb. unfold Main.parse_form. f_equal.
  unfold named_train, timed_train, Monitor.train_name, Monitor.fallback_times.
  rewrite (result_times_none _ _ Ht), lookup_empty.
  destruct (find (by_name "h3") (fst form)); [|done].
  by rewrite time_divs_insert.
Qed.

End TwoScripts.

(** C10, as the code has it. The two scripts take the same availability
    decision on every input. They return the same train list for every
    page read as available whose blocks are of the button layout alone:
    each has an [h3] heading, no time of the column layout and no titled
    column. *)
Theorem C10_scripts_agree_on_button_pages
    {RT : Runtime} (html_parser : pystr -> soup) (html : pystr)
    (form_tags : element) :
  html <> [] ->
  Monitor.fully_booked (html_parser html) = false ->
  find_element container (root (html_parser html)) = Some form_tags ->
  Forall (fun f => button_layout_only f = true) (Monitor.booking_forms form_tags) ->
  (forall any,
     Main.check_trains_available html_parser any
     = fst (Monitor.check_availability html_parser any))
  /\ (Main.check_trains_available html_parser (Some html),
      Main.parse_available_trains html_parser (Some html))
     = Monitor.check_availability html_parser (Some html).
Proof.
  intros Hne Hfb Hc Hforms.
  split; [apply check_trains_available_decision|].
  rewrite check_trains_available_decision.
  rewrite (check_availability_container _ _ _ Hne Hfb Hc).
  rewrite (parse_available_trains_container _ _ _ Hne Hc). simpl. f_equal.
  induction Hforms as [|f forms Hf _ IH]; [done|].
  simpl. rewrite (parse_form_agree f Hf).
  destruct (Main.parse_form f); [f_equal|]; exact IH.
Qed.

Lemma C10_scripts_agree_on_button_pages_witness :
  (Main.check_trains_available Samples.pages (Some Samples.two_blocks_html),
   Main.parse_available_trains Samples.pages (Some Samples.two_blocks_html))
  = Monitor.check_availability Samples.pages (Some Samples.two_blocks_html).
Proof.
  pose (form_tags := default (root []) (find_element container
          (root (Samples.pages Samples.two_blocks_html)))).
  refine (proj2 (C10_scripts_agree_on_button_pages Samples.pages
                   Samples.two_blocks_html form_tags _ _ _ _)).
  - vm_compute. discriminate.
  - vm_compute. reflexivity.
  - vm_compute. reflexivity.
  - apply (Forall_forallb button_layout_only); [done|].
    vm_compute. reflexivity.
Defined.

(** C10, as stated, fails: on a page whose block has no heading, the
    decision is the same and the lists differ, [check_availability] naming
    the train after its departure time and [parse_available_trains] leaving
    it without a name. *)
Lemma C10_unnamed_block_differs :
  Main.check_trains_available Samples.pages (Some Samples.unnamed_html)
  = fst (Monitor.check_availability Samples.pages (Some Samples.unnamed_html))
  /\ List.map (fun train : train_data => train !! "name")
       (Main.parse_available_trains Samples.pages (Some Samples.unnamed_html))
     = [None]
  /\ List.map (fun train : train_data => train !! "name")
       (snd (Monitor.check_availability Samples.pages (Some Samples.unnamed_html)))
     = [Some (VStr (py "Train 08:00"))]
  /\ Main.parse_available_trains Samples.pages (Some Samples.unnamed_html)
     <> snd (Monitor.check_availability Samples.pages (Some Samples.unnamed_html)).
Proof.
  assert (A : List.map (fun train : train_data => train !! "name")
       (Main.parse_available_trains Samples.pages (Some Samples.unnamed_html))
     = [None]) by (vm_compute; reflexivity).
  assert (B : List.map (fun train : train_data => train !! "name")
       (snd (Monitor.check_availability Samples.pages (Some Samples.unnamed_html)))
     = [Some (VStr (py "Train 08:00"))]) by (vm_compute; reflexivity).
  split; [vm_compute; reflexivity|]. split; [exact A|]. split; [exact B|].
  intros E. rewrite E, B in A. discriminate A.
Qed.

(** ** The alert cache *)

Lemma str_eqb_eq (a b : pystr) : str_eqb a b = true <-> a = b.
Proof.
  revert b. induction a as [|x a IH]; intros [|y b]; simpl; try done.
  rewrite andb_true_iff, N.eqb_eq, IH. split.
  - by intros [-> ->].
  - by intros [= -> ->].
Qed.

Lemma str_eqb_refl (a : pystr) : str_eqb a a = true.
Proof. by apply str_eqb_eq. Qed.

Lemma dispatches_for_app (k : pystr) (l l' : list Monitor.alert) :
  dispatches_for k (l ++ l') = dispatches_for k l ++ dispatches_for k l'.
Proof. apply List.filter_app. Qed.

(** *** Loops that an exception may leave *)

Lemma until_raised_invariant {A S} (I : S -> Prop) (body : S -> A -> outcome S)
    (l : list A) :
  (forall x s, x ∈ l -> I s -> I (state (body s x))) ->
  forall s, I s -> I (state (until_raised body l s)).
Proof.
  induction l as [|x l IH]; intros Hbody s Hs; simpl; [done|].
  pose proof (Hbody x s (list_elem_of_here _ _) Hs) as Hx.
  destruct (body s x) as [s'|s']; [|exact Hx].
  apply IH; [|exact Hx].
  intros y t Hy. apply Hbody. by apply list_elem_of_further.
Qed.

Lemma until_raised_app {A S} (body : S -> A -> outcome S) (l l' : list A) (s : S) :
  until_raised body (l ++ l') s
  = match until_raised body l s with
    | Done s' => until_raised body l' s'
    | Raised s' => Raised s'
    end.
Proof.
  revert s. induction l as [|x l IH]; intros s; simpl; [done|].
  destruct (body s x); [apply IH|done].
Qed.

Lemma until_raised_map {A B S} (f : A -> B) (body : S -> B -> outcome S)
    (l : list A) (s : S) :
  until_raised (fun s x => body s (f x)) l s = until_raised body (List.map f l) s.
Proof.
  revert s. induction l as [|x l IH]; intros s; simpl; [done|].
  destruct (body s (f x)); [apply IH|done].
Qed.

Lemma until_raised_related {A S} (R : S -> S -> Prop) (body : S -> A -> outcome S)
    (l : list A) :
  (forall x s s', R s s' ->
     raised (body s x) = raised (body s' x)
     /\ R (state (body s x)) (state (body s' x))) ->
  forall s s', R s s' ->
    raised (until_raised body l s) = raised (until_raised body l s')
    /\ R (state (until_raised body l s)) (state (until_raised body l s')).
Proof.
  intros Hbody. induction l as [|x l IH]; intros s s' Hs; simpl; [done|].
  destruct (Hbody x s s' Hs) as [Hr Hx].
  destruct (body s x) as [t|t], (body s' x) as [t'|t']; try done.
  by apply IH.
Qed.

Section Cache.
Context {RT : Runtime}.
Variable html_parser : pystr -> soup.
Variable telegram : nat -> Monitor.sending.

Lemma train_step_sound date stype (m : Monitor.monitor) (train : train_data) :
  cache_sound m -> cache_sound (state (Monitor.train_step telegram date stype m train)).
Proof.
  intros Hm k. unfold Monitor.train_step.
  destruct (decide (Monitor.cache_key date train ∈ Monitor.available_cache m))
    as [Hin|Hout]; [apply Hm|].
  destruct (telegram _); cbn [state Monitor.available_cache Monitor.dispatched];
    [|apply Hm].
  rewrite dispatches_for_app, length_app, Hm.
  unfold dispatches_for at 1.
  cbn [List.filter Monitor.alert_date Monitor.alert_train].
  destruct (str_eqb (Monitor.cache_key date train) k) eqn:E.
  - apply str_eqb_eq in E. subst k.
    destruct (decide (_ ∈ Monitor.available_cache m)); [done|].
    destruct (decide _) as [|Hn]; [done|]. exfalso.
    apply Hn, elem_of_union. left. by apply elem_of_singleton.
  - assert (Hk : Monitor.cache_key date train <> k).
    { intros Heq. rewrite Heq, str_eqb_refl in E. discriminate E. }
    cbn [length]. rewrite Nat.add_0_r.
    destruct (decide (k ∈ Monitor.available_cache m)) as [Hy|Hn];
      destruct (decide _) as [Hy'|Hn']; try done; exfalso.
    + apply Hn', elem_of_union. by right.
    + apply elem_of_union in Hy' as [Hs|Hc]; [|done].
      apply elem_of_singleton in Hs. congruence.
Qed.

Lemma train_step_grows date stype (m : Monitor.monitor) (train : train_data) :
  Monitor.available_cache m
  ⊆ Monitor.available_cache (state (Monitor.train_step telegram date stype m train)).
Proof.
  unfold Monitor.train_step. destruct (decide _); [done|].
  destruct (telegram _); simpl; set_solver.
Qed.

Lemma train_step_searched date stype (m : Monitor.monitor) (train : train_data) :
  Monitor.searched (state (Monitor.train_step telegram date stype m train))
  = Monitor.searched m.
Proof.
  unfold Monitor.train_step. destruct (decide _); [done|]. by destruct (telegram _).
Qed.

(** When the call returns, the turn is done and the key is in the cache. *)
Lemma train_step_returns date stype (m : Monitor.monitor) (train : train_data) :
  always_returns telegram ->
  raised (Monitor.train_step telegram date stype m train) = false
  /\ Monitor.cache_key date train
     ∈ Monitor.available_cache (state (Monitor.train_step telegram date stype m train)).
Proof.
  intros Hr. unfold Monitor.train_step. destruct (decide _); [done|].
  rewrite Hr. simpl. split; [done|set_solver].
Qed.

Lemma train_steps_sound date stype (trains : list train_data) :
  forall m, cache_sound m ->
    cache_sound (state (until_raised (Monitor.train_step telegram date stype) trains m)).
Proof.
  apply (until_raised_invariant cache_sound).
  intros t m _. apply train_step_sound.
Qed.

Lemma train_steps_grow date stype (trains : list train_data) (m : Monitor.monitor) :
  Monitor.available_cache m
  ⊆ Monitor.available_cache
      (state (until_raised (Monitor.train_step telegram date stype) trains m)).
Proof.
  apply (until_raised_invariant
           (fun s => Monitor.available_cache m ⊆ Monitor.available_cache s)); [|done].
  intros t s _ Hs. etrans; [exact Hs|apply train_step_grows].
Qed.

Lemma train_steps_searched date stype (trains : list train_data) (m : Monitor.monitor) :
  Monitor.searched
    (state (until_raised (Monitor.train_step telegram date stype) trains m))
  = Monitor.searched m.
Proof.
  apply (until_raised_invariant
           (fun s => Monitor.searched s = Monitor.searched m)); [|done].
  intros t s _ Hs. by rewrite train_step_searched.
Qed.

Lemma train_steps_return date stype (trains : list train_data) :
  always_returns telegram ->
  forall m,
    raised (until_raised (Monitor.train_step telegram date stype) trains m) = false
    /\ forall train, train ∈ trains ->
         Monitor.cache_key date train
         ∈ Monitor.available_cache
             (state (until_raised (Monitor.train_step telegram date stype) trains m)).
Proof.
  intros Hr. induction trains as [|t trains IH]; intros m; simpl.
  - split; [done|]. by intros train ?%elem_of_nil.
  - destruct (train_step_returns date stype m t Hr) as [Hd Hk].
    destruct (Monitor.train_step telegram date stype m t) as [m'|m'];
      [|discriminate Hd].
    destruct (IH m') as [Hd' Hk']. split; [done|].
    intros train [-> | Hin]%elem_of_cons; [|by apply Hk'].
    by apply (train_steps_grow date stype trains m').
Qed.

Lemma query_step_cases (m : Monitor.monitor) (q : Monitor.query) :
  Monitor.query_step html_parser telegram m q
  = match Monitor.check_availability html_parser (Monitor.query_html q) with
    | (true, t :: trains) =>
        until_raised
          (Monitor.train_step telegram (Monitor.query_date q)
             (Monitor.query_schedule_type q))
          (t :: trains) (asked m q)
    | _ => Done (asked m q)
    end.
Proof.
  unfold Monitor.query_step.
  by destruct (Monitor.check_availability _ _) as [[|] [|t trains]].
Qed.

Lemma query_step_sound (m : Monitor.monitor) (q : Monitor.query) :
  cache_sound m -> cache_sound (state (Monitor.query_step html_parser telegram m q)).
Proof.
  intros Hm. rewrite query_step_cases.
  assert (Ha : cache_sound (asked m q)) by exact Hm.
  destruct (Monitor.check_availability _ _) as [[|] [|t trains]]; try exact Ha.
  by apply train_steps_sound.
Qed.

Lemma query_step_grows (m : Monitor.monitor) (q : Monitor.query) :
  Monitor.available_cache m
  ⊆ Monitor.available_cache (state (Monitor.query_step html_parser telegram m q)).
Proof.
  rewrite query_step_cases.
  destruct (Monitor.check_availability _ _) as [[|] [|t trains]]; try done.
  apply (train_steps_grow _ _ _ (asked m q)).
Qed.

Lemma query_step_searched (m : Monitor.monitor) (q : Monitor.query) :
  Monitor.searched (state (Monitor.query_step html_parser telegram m q))
  = Monitor.searched m ++ [q].
Proof.
  rewrite query_step_cases.
  destruct (Monitor.check_availability _ _) as [[|] [|t trains]]; try done.
  apply (train_steps_searched _ _ _ (asked m q)).
Qed.

(** A train is in the result only of a response read as available, and
    it is the train of a block that parsed. *)
Lemma check_availability_trains (html_content : option pystr) (train : train_data) :
  train ∈ snd (Monitor.check_availability html_parser html_content) ->
  fst (Monitor.check_availability html_parser html_content) = true
  /\ exists form, Monitor.parse_form form = Some train.
Proof.
  destruct html_content as [[|c html]|]; simpl; try by intros ?%elem_of_nil.
  destruct (Monitor.fully_booked (html_parser (c :: html))) eqn:Hfb.
  { rewrite check_availability_fully_booked by done. by intros ?%elem_of_nil. }
  destruct (find_element container (root (html_parser (c :: html)))) as [ft|] eqn:Hc.
  - rewrite (check_availability_container _ _ ft) by done. simpl.
    intros (form & _ & Hf)%list_elem_of_omap. eauto.
  - rewrite check_availability_no_container by done. by intros ?%elem_of_nil.
Qed.

Lemma query_step_returns (m : Monitor.monitor) (q : Monitor.query) :
  always_returns telegram ->
  raised (Monitor.query_step html_parser telegram m q) = false
  /\ forall train,
       train ∈ snd (Monitor.check_availability html_parser (Monitor.query_html q)) ->
       Monitor.cache_key (Monitor.query_date q) train
       ∈ Monitor.available_cache (state (Monitor.query_step html_parser telegram m q)).
Proof.
  intros Hr. rewrite query_step_cases.
  assert (Ht : forall train,
             train ∈ snd (Monitor.check_availability html_parser (Monitor.query_html q)) ->
             fst (Monitor.check_availability html_parser (Monitor.query_html q)) = true).
  { intros train Hin. by destruct (check_availability_trains _ _ Hin). }
  destruct (Monitor.check_availability _ _) as [[|] [|t trains]]; simpl in *.
  - split; [done|]. by intros train ?%elem_of_nil.
  - destruct (train_steps_return (Monitor.query_date q)
                (Monitor.query_schedule_type q) (t :: trains) Hr (asked m q))
      as [Hd Hk].
    split; [exact Hd|exact Hk].
  - split; [done|]. by intros train ?%elem_of_nil.
  - split; [done|]. intros train Hin. by specialize (Ht train Hin).
Qed.

Lemma check_job_sound (cycle : list Monitor.query) :
  forall m, cache_sound m ->
            cache_sound (Monitor.check_job html_parser telegram cycle m).
Proof.
  unfold Monitor.check_job, Monitor.check_job_loops.
  apply (until_raised_invariant cache_sound).
  intros q m _. apply query_step_sound.
Qed.

Lemma check_job_grows (cycle : list Monitor.query) (m : Monitor.monitor) :
  Monitor.available_cache m
  ⊆ Monitor.available_cache (Monitor.check_job html_parser telegram cycle m).
Proof.
  unfold Monitor.check_job, Monitor.check_job_loops.
  apply (until_raised_invariant
           (fun s => Monitor.available_cache m ⊆ Monitor.available_cache s)); [|done].
  intros q s _ Hs. etrans; [exact Hs|apply query_step_grows].
Qed.

Lemma check_job_returns (cycle : list Monitor.query) :
  always_returns telegram ->
  forall m,
    raised (Monitor.check_job_loops html_parser telegram cycle m) = false
    /\ forall date train,
         offers html_parser cycle date train ->
         Monitor.cache_key date train
         ∈ Monitor.available_cache (Monitor.check_job html_parser telegram cycle m).
Proof.
  intros Hr. unfold Monitor.check_job, Monitor.check_job_loops.
  induction cycle as [|q cycle IH]; intros m; simpl.
  - split; [done|]. intros date train (q & Hq & _). by apply elem_of_nil in Hq.
  - destruct (query_step_returns m q Hr) as [Hd Hk].
    destruct (Monitor.query_step html_parser telegram m q) as [m'|m'];
      [|discriminate Hd].
    destruct (IH m') as [Hd' Hk']. split; [done|].
    intros date train (q' & [-> | Hq']%elem_of_cons & <- & Ht).
    + apply (check_job_grows cycle m'). by apply Hk.
    + apply Hk'. by exists q'.
Qed.

(** What a cycle searched: the queries it reached, which are all of them
    when nothing raised. *)
Lemma check_job_searched (cycle : list Monitor.query) :
  forall m, exists made,
    Monitor.searched (Monitor.check_job html_parser telegram cycle m)
    = Monitor.searched m ++ made
    /\ made `prefix_of` cycle
    /\ (raised (Monitor.check_job_loops html_parser telegram cycle m) = false ->
        made = cycle).
Proof.
  unfold Monitor.check_job, Monitor.check_job_loops.
  induction cycle as [|q cycle IH]; intros m; simpl.
  - exists []. by rewrite app_nil_r.
  - pose proof (query_step_searched m q) as Hq.
    destruct (Monitor.query_step html_parser telegram m q) as [m'|m']; simpl in *.
    + destruct (IH m') as (made & E & Hp & Hall).
      exists (q :: made). rewrite E, Hq, <- app_assoc. split; [done|].
      split; [by apply prefix_cons|]. intros Hd. by rewrite Hall.
    + exists [q]. split; [done|]. split; [|done].
      by apply prefix_cons, prefix_nil.
Qed.

Lemma run_sound (cycles : list (list Monitor.query)) :
  forall m, cache_sound m -> cache_sound (Monitor.run html_parser telegram cycles m).
Proof.
  unfold Monitor.run.
  induction cycles as [|c cycles IH]; intros m Hm; simpl; [done|].
  by apply IH, check_job_sound.
Qed.

Lemma run_grows (cycles : list (list Monitor.query)) :
  forall m, Monitor.available_cache m
            ⊆ Monitor.available_cache (Monitor.run html_parser telegram cycles m).
Proof.
  unfold Monitor.run.
  induction cycles as [|c cycles IH]; intros m; simpl; [done|].
  etrans; [apply (check_job_grows c m)|apply IH].
Qed.

Lemma run_app (cycles cycles' : list (list Monitor.query)) (m : Monitor.monitor) :
  Monitor.run html_parser telegram (cycles ++ cycles') m
  = Monitor.run html_parser telegram cycles'
      (Monitor.run html_parser telegram cycles m).
Proof. unfold Monitor.run. apply fold_left_app. Qed.

Lemma run_records (cycles : list (list Monitor.query)) (cycle : list Monitor.query)
    date (train : train_data) :
  always_returns telegram ->
  cycle ∈ cycles -> offers html_parser cycle date train ->
  forall m, Monitor.cache_key date train
            ∈ Monitor.available_cache (Monitor.run html_parser telegram cycles m).
Proof.
  intros Hr Hc Ho.
  induction cycles as [|c cycles IH]; intros m; [by apply elem_of_nil in Hc|].
  change (Monitor.run html_parser telegram (c :: cycles) m)
    with (Monitor.run html_parser telegram cycles
            (Monitor.check_job html_parser telegram c m)).
  apply elem_of_cons in Hc as [<- | Hc].
  - apply (run_grows cycles). by apply (check_job_returns cycle Hr m).
  - by apply IH.
Qed.

Lemma start_sound : cache_sound Monitor.start.
Proof. intros k. simpl. destruct (decide _) as [H|]; [set_solver|done]. Qed.

End Cache.

(** ** The key of an alert *)






Lemma seats_ok_get (train : train_data) (k : class_keys) :
  seats_ok train -> fare_class k ->
  exists z, Monitor.get_or_zero train (seats_key k) = VInt z /\ (0 <= z)%Z.
Proof.
  intros Ht Hk. specialize (Ht k Hk). unfold Monitor.get_or_zero.
  destruct (train !! seats_key k) as [[s|z]|]; simpl; [done|eauto|].
  exists 0%Z. split; [done|lia].
Qed.


(** ** What the monitor dispatches *)

Section Dispatches.
Context {RT : Runtime}.
Variable html_parser : pystr -> soup.
Variable telegram : nat -> Monitor.sending.

Lemma train_step_cache_from date stype (m : Monitor.monitor) (train : train_data) k :
  k ∈ Monitor.available_cache (state (Monitor.train_step telegram date stype m train)) ->
  k ∈ Monitor.available_cache m \/ Monitor.cache_key date train = k.
Proof.
  unfold Monitor.train_step. destruct (decide _); [by left|].
  destruct (telegram _); simpl; [|by left].
  intros [Hk%elem_of_singleton | Hk]%elem_of_union; [by right|by left].
Qed.

Lemma train_steps_cache_from date stype (trains : list train_data) k
    (m : Monitor.monitor) :
  k ∈ Monitor.available_cache
        (state (until_raised (Monitor.train_step telegram date stype) trains m)) ->
  k ∈ Monitor.available_cache m
  \/ exists train, train ∈ trains /\ Monitor.cache_key date train = k.
Proof.
  apply (until_raised_invariant
           (fun s => k ∈ Monitor.available_cache s ->
                     k ∈ Monitor.available_cache m
                     \/ exists train, train ∈ trains
                                      /\ Monitor.cache_key date train = k));
    [|by left].
  intros t s Ht Hs [H | H]%train_step_cache_from; [by apply Hs|].
  right. by exists t.
Qed.

Lemma query_step_cache_from (m : Monitor.monitor) (q : Monitor.query) k :
  k ∈ Monitor.available_cache (state (Monitor.query_step html_parser telegram m q)) ->
  k ∈ Monitor.available_cache m
  \/ exists train,
       train ∈ snd (Monitor.check_availability html_parser (Monitor.query_html q))
       /\ Monitor.cache_key (Monitor.query_date q) train = k.
Proof.
  rewrite query_step_cases.
  destruct (Monitor.check_availability _ _) as [[|] [|t trains]]; try by left.
  intros H. apply train_steps_cache_from in H. exact H.
Qed.

Lemma check_job_cache_from (cycle : list Monitor.query) k (m : Monitor.monitor) :
  k ∈ Monitor.available_cache (Monitor.check_job html_parser telegram cycle m) ->
  k ∈ Monitor.available_cache m \/ offered_in html_parser cycle k.
Proof.
  unfold Monitor.check_job, Monitor.check_job_loops.
  apply (until_raised_invariant
           (fun s => k ∈ Monitor.available_cache s ->
                     k ∈ Monitor.available_cache m
                     \/ offered_in html_parser cycle k)); [|by left].
  intros q s Hq Hs [H | (train & Ht & E)]%query_step_cache_from; [by apply Hs|].
  right. exists (Monitor.query_date q), train. split; [|done]. by exists q.
Qed.

Lemma run_cache_from (cycles : list (list Monitor.query)) k :
  forall m,
    k ∈ Monitor.available_cache (Monitor.run html_parser telegram cycles m) ->
    k ∈ Monitor.available_cache m
    \/ exists cycle, cycle ∈ cycles /\ offered_in html_parser cycle k.
Proof.
  induction cycles as [|c cycles IH]; intros m; [by left|].
  change (Monitor.run html_parser telegram (c :: cycles) m)
    with (Monitor.run html_parser telegram cycles
            (Monitor.check_job html_parser telegram c m)).
  intros [H | (c' & Hc' & Ho)]%IH.
  - apply check_job_cache_from in H as [H | H]; [by left|].
    right. exists c. split; [apply list_elem_of_here|done].
  - right. exists c'. split; [by apply list_elem_of_further|done].
Qed.

End Dispatches.

Section DispatchedAlerts.
Context {RT : Runtime}.
Variable html_parser : pystr -> soup.
Variable telegram : nat -> Monitor.sending.

(** The invariant of the loops: the calls that returned since the state
    [m] are alerts that [P] holds of. *)
Lemma dispatched_since_refl (P : Monitor.alert -> Prop) (m : Monitor.monitor) :
  exists more, Monitor.dispatched m = Monitor.dispatched m ++ more /\ Forall P more.
Proof. exists []. by rewrite app_nil_r. Qed.

Lemma train_step_dispatched date stype (m : Monitor.monitor) (train : train_data) :
  exists more,
    Monitor.dispatched (state (Monitor.train_step telegram date stype m train))
    = Monitor.dispatched m ++ more
    /\ Forall (fun a => a = {| Monitor.alert_train := train;
                               Monitor.alert_date := date;
                               Monitor.alert_schedule_type := stype |}) more.
Proof.
  unfold Monitor.train_step. destruct (decide _); [apply dispatched_since_refl|].
  destruct (telegram _); simpl; [|apply dispatched_since_refl].
  eexists. split; [done|]. by constructor.
Qed.

Lemma train_steps_dispatched date stype (trains : list train_data)
    (m : Monitor.monitor) :
  exists more,
    Monitor.dispatched
      (state (until_raised (Monitor.train_step telegram date stype) trains m))
    = Monitor.dispatched m ++ more
    /\ Forall (fun a => Monitor.alert_train a ∈ trains
                        /\ Monitor.alert_date a = date
                        /\ Monitor.alert_schedule_type a = stype) more.
Proof.
  apply (until_raised_invariant
           (fun s => exists more,
              Monitor.dispatched s = Monitor.dispatched m ++ more
              /\ Forall (fun a => Monitor.alert_train a ∈ trains
                                  /\ Monitor.alert_date a = date
                                  /\ Monitor.alert_schedule_type a = stype) more));
    [|apply dispatched_since_refl].
  intros t s Ht (more & E & H).
  destruct (train_step_dispatched date stype s t) as (more' & E' & H').
  exists (more ++ more'). rewrite E', E, <- app_assoc. split; [done|].
  apply Forall_app. split; [done|].
  eapply Forall_impl; [exact H'|]. by intros a ->.
Qed.

Lemma query_step_dispatched (m : Monitor.monitor) (q : Monitor.query) :
  exists more,
    Monitor.dispatched (state (Monitor.query_step html_parser telegram m q))
    = Monitor.dispatched m ++ more
    /\ Forall (alert_of html_parser q) more.
Proof.
  rewrite query_step_cases. unfold alert_of.
  destruct (Monitor.check_availability _ _) as [[|] [|t trains]];
    try apply (dispatched_since_refl _ m).
  apply (train_steps_dispatched _ _ _ (asked m q)).
Qed.

Lemma check_job_dispatched (cycle : list Monitor.query) (m : Monitor.monitor) :
  exists more,
    Monitor.dispatched (Monitor.check_job html_parser telegram cycle m)
    = Monitor.dispatched m ++ more
    /\ Forall (fun a => exists q, q ∈ cycle /\ alert_of html_parser q a) more.
Proof.
  unfold Monitor.check_job, Monitor.check_job_loops.
  apply (until_raised_invariant
           (fun s => exists more,
              Monitor.dispatched s = Monitor.dispatched m ++ more
              /\ Forall (fun a => exists q, q ∈ cycle /\ alert_of html_parser q a)
                   more));
    [|apply dispatched_since_refl].
  intros q s Hq (more & E & H).
  destruct (query_step_dispatched s q) as (more' & E' & H').
  exists (more ++ more'). rewrite E', E, <- app_assoc. split; [done|].
  apply Forall_app. split; [done|].
  eapply Forall_impl; [exact H'|]. intros a Ha. by exists q.
Qed.

Lemma run_dispatched (cycles : list (list Monitor.query)) :
  forall m, exists more,
    Monitor.dispatched (Monitor.run html_parser telegram cycles m)
    = Monitor.dispatched m ++ more
    /\ Forall (fun a => exists cycle q,
                          cycle ∈ cycles /\ q ∈ cycle /\ alert_of html_parser q a) more.
Proof.
  induction cycles as [|c cycles IH]; intros m.
  - exists []. by rewrite app_nil_r.
  - change (Monitor.run html_parser telegram (c :: cycles) m)
      with (Monitor.run html_parser telegram cycles
              (Monitor.check_job html_parser telegram c m)).
    destruct (IH (Monitor.check_job html_parser telegram c m)) as (more2 & -> & H2).
    destruct (check_job_dispatched c m) as (more1 & -> & H1).
    exists (more1 ++ more2). split; [by rewrite app_assoc|].
    apply Forall_app. split.
    + eapply Forall_impl; [exact H1|]. intros a (q & Hq & Ha).
      exists c, q. split; [apply list_elem_of_here|done].
    + eapply Forall_impl; [exact H2|]. intros a (c' & q & Hc' & Hq & Ha).
      exists c', q. split; [by apply list_elem_of_further|done].
Qed.

(** *** A token that is not accepted *)

Lemma train_step_never (date stype : pystr) (m : Monitor.monitor) (train : train_data) :
  never_returns telegram ->
  same_alerts_but_aborted m (state (Monitor.train_step telegram date stype m train)).
Proof.
  intros Hn. unfold Monitor.train_step, same_alerts_but_aborted.
  destruct (decide _); [done|]. by rewrite Hn.
Qed.

Lemma run_never (cycles : list (list Monitor.query)) :
  never_returns telegram ->
  forall m, same_alerts_but_aborted m (Monitor.run html_parser telegram cycles m).
Proof.
  intros Hn. unfold Monitor.run.
  induction cycles as [|c cycles IH]; intros m; simpl; [done|].
  assert (Hc : same_alerts_but_aborted m (Monitor.check_job html_parser telegram c m)).
  { unfold Monitor.check_job, Monitor.check_job_loops.
    apply (until_raised_invariant (same_alerts_but_aborted m)); [|done].
    intros q s _ [Hs1 Hs2]. rewrite query_step_cases.
    assert (Ha : same_alerts_but_aborted m (asked s q)) by done.
    destruct (Monitor.check_availability _ _) as [[|] [|t trains]]; try exact Ha.
    apply (until_raised_invariant (same_alerts_but_aborted m)); [|exact Ha].
    intros t' s' _ [Hs1' Hs2'].
    destruct (train_step_never (Monitor.query_date q)
                (Monitor.query_schedule_type q) s' t' Hn) as [H1 H2].
    split; congruence. }
  destruct Hc as [Hc1 Hc2]. destruct (IH (Monitor.check_job html_parser telegram c m))
    as [H1 H2].
  split; congruence.
Qed.

(** *** A query that brings nothing *)

Lemma train_step_same date stype (m m' : Monitor.monitor) (train : train_data) :
  same_alerts m m' ->
  raised (Monitor.train_step telegram date stype m train)
  = raised (Monitor.train_step telegram date stype m' train)
  /\ same_alerts (state (Monitor.train_step telegram date stype m train))
       (state (Monitor.train_step telegram date stype m' train)).
Proof.
  intros (Hc & Hd & Ha). unfold Monitor.train_step, same_alerts.
  rewrite Hc, Hd, Ha. destruct (decide _); [done|].
  destruct (telegram _); simpl; by rewrite ?Hc, ?Hd, ?Ha.
Qed.

Lemma query_step_same (m m' : Monitor.monitor) (q : Monitor.query) :
  same_alerts m m' ->
  raised (Monitor.query_step html_parser telegram m q)
  = raised (Monitor.query_step html_parser telegram m' q)
  /\ same_alerts (state (Monitor.query_step html_parser telegram m q))
       (state (Monitor.query_step html_parser telegram m' q)).
Proof.
  intros Hs. rewrite !query_step_cases.
  assert (Ha : same_alerts (asked m q) (asked m' q)) by exact Hs.
  destruct (Monitor.check_availability _ _) as [[|] [|t trains]]; try done.
  apply until_raised_related; [|exact Ha].
  intros t' s s'. apply train_step_same.
Qed.

Lemma check_job_loops_same (cycle : list Monitor.query) (m m' : Monitor.monitor) :
  same_alerts m m' ->
  same_alerts (state (Monitor.check_job_loops html_parser telegram cycle m))
    (state (Monitor.check_job_loops html_parser telegram cycle m')).
Proof.
  intros Hs. unfold Monitor.check_job_loops.
  apply until_raised_related; [|exact Hs].
  intros q s s'. apply query_step_same.
Qed.

Lemma query_step_unavailable (m : Monitor.monitor) (q : Monitor.query) :
  fst (Monitor.check_availability html_parser (Monitor.query_html q)) = false ->
  Monitor.query_step html_parser telegram m q = Done (asked m q).
Proof.
  intros H. rewrite query_step_cases.
  by destruct (Monitor.check_availability _ _) as [[|] [|t trains]].
Qed.

End DispatchedAlerts.

(** A key is alerted at most once in the life of the process, whatever
    Telegram does: from the empty cache, after any number of cycles, the
    calls of [send_notifications] that returned for a key number at most
    one, and exactly one when the key is in the cache; a key in the cache
    is the key of a train that a query of some cycle returned. When every
    call returns, the calls for a key number exactly one if and only if
    some cycle offered a train with that key. *)
Theorem key_alerted_at_most_once
    {RT : Runtime} (html_parser : pystr -> soup) (telegram : nat -> Monitor.sending)
    (cycles : list (list Monitor.query)) (k : pystr) :
  let m := Monitor.run html_parser telegram cycles Monitor.start in
  let sent := dispatches_for k (Monitor.dispatched m) in
  (length sent <= 1)%nat
  /\ (length sent = 1%nat <-> k ∈ Monitor.available_cache m)
  /\ (k ∈ Monitor.available_cache m ->
      exists cycle, cycle ∈ cycles /\ offered_in html_parser cycle k)
  /\ (always_returns telegram ->
      (length sent = 1%nat
       <-> exists cycle, cycle ∈ cycles /\ offered_in html_parser cycle k)).
Proof.
  intros m sent.
  pose proof (run_sound html_parser telegram cycles Monitor.start start_sound k) as H.
  fold m in H. fold sent in H.
  assert (Hfrom : k ∈ Monitor.available_cache m ->
                  exists cycle, cycle ∈ cycles /\ offered_in html_parser cycle k).
  { intros Hin. apply run_cache_from in Hin as [Hin | Hin]; [|done].
    by apply elem_of_empty in Hin. }
  destruct (decide (k ∈ Monitor.available_cache m)) as [Hin|Hout].
  - split; [lia|]. split; [done|]. split; [done|]. intros _. split; auto.
  - split; [lia|]. split; [split; [lia|done]|]. split; [done|].
    intros Hr. split; [lia|].
    intros (cycle & Hc & date & train & Ho & <-). destruct Hout.
    by apply (run_records html_parser telegram cycles cycle).
Qed.

(** No alert is made up: every notification that the monitor dispatches
    is for a train that [check_availability] returned for a query of some
    cycle, and carries the date and the schedule type of that query. *)
Theorem every_alert_is_for_an_offered_train
    {RT : Runtime} (html_parser : pystr -> soup) (telegram : nat -> Monitor.sending)
    (cycles : list (list Monitor.query)) (a : Monitor.alert) :
  a ∈ Monitor.dispatched (Monitor.run html_parser telegram cycles Monitor.start) ->
  exists cycle q, cycle ∈ cycles /\ q ∈ cycle /\ alert_of html_parser q a.
Proof.
  destruct (run_dispatched html_parser telegram cycles Monitor.start)
    as (more & -> & H).
  simpl. intros Ha. by apply (proj1 (Forall_forall _ _) H).
Qed.

(** The cache never loses a key and no dispatch is taken back: running
    more cycles extends the list of dispatches and enlarges the cache. *)
Theorem cache_and_dispatches_only_grow
    {RT : Runtime} (html_parser : pystr -> soup) (telegram : nat -> Monitor.sending)
    (cycles more : list (list Monitor.query)) (m : Monitor.monitor) :
  Monitor.available_cache (Monitor.run html_parser telegram cycles m)
  ⊆ Monitor.available_cache (Monitor.run html_parser telegram (cycles ++ more) m)
  /\ Monitor.dispatched (Monitor.run html_parser telegram cycles m)
     `prefix_of` Monitor.dispatched
                   (Monitor.run html_parser telegram (cycles ++ more) m).
Proof.
  rewrite run_app. split; [apply run_grows|].
  destruct (run_dispatched html_parser telegram more
              (Monitor.run html_parser telegram cycles m))
    as (extra & -> & _).
  by exists extra.
Qed.





Lemma rejecting_never_returns : never_returns Samples.rejecting.
Proof. by intros n. Qed.



(** With a token that [Bot] does not accept, the monitor never dispatches
    an alert and never caches a key, whatever the cycles return: every
    cycle ends at the first train it would alert for. *)
Theorem nothing_is_dispatched_without_a_token
    {RT : Runtime} (html_parser : pystr -> soup) (telegram : nat -> Monitor.sending)
    (cycles : list (list Monitor.query)) :
  never_returns telegram ->
  let m := Monitor.run html_parser telegram cycles Monitor.start in
  Monitor.dispatched m = [] /\ Monitor.available_cache m = ∅.
Proof.
  intros Hn m.
  destruct (run_never html_parser telegram cycles Hn Monitor.start) as [Hc Hd].
  fold m in Hc, Hd. by split.
Qed.

Lemma nothing_is_dispatched_without_a_token_witness :
  let m :=
    Monitor.run Samples.pages Samples.rejecting Samples.three_cycles Monitor.start in
  Monitor.dispatched m = [] /\ Monitor.available_cache m = ∅.
Proof.
  apply nothing_is_dispatched_without_a_token. exact rejecting_never_returns.
Defined.

(** A query that brings nothing is skipped and the cycle goes on: when the
    request failed, or the page is fully booked or not recognised, the
    cycle ends with the cache and the calls of [send_notifications],
    returned and raised, that it reaches without that query. *)
Theorem unavailable_query_is_skipped
    {RT : Runtime} (html_parser : pystr -> soup) (telegram : nat -> Monitor.sending)
    (before after : list Monitor.query) (q : Monitor.query) (m : Monitor.monitor) :
  fst (Monitor.check_availability html_parser (Monitor.query_html q)) = false ->
  same_alerts
    (Monitor.check_job html_parser telegram (before ++ q :: after) m)
    (Monitor.check_job html_parser telegram (before ++ after) m).
Proof.
  intros H. unfold Monitor.check_job, Monitor.check_job_loops.
  rewrite !until_raised_app.
  destruct (until_raised _ before m) as [s|s]; [|done].
  simpl. rewrite (query_step_unavailable html_parser telegram s q H).
  apply (check_job_loops_same html_parser telegram after (asked s q) s). done.
Qed.

Lemma unavailable_query_is_skipped_witness :
  same_alerts
    (Monitor.check_job Samples.pages Samples.accepting
       (Samples.cycle_of Samples.two_blocks_html
        ++ Samples.failed_query :: Samples.cycle_of Samples.nine_seats_html)
       Monitor.start)
    (Monitor.check_job Samples.pages Samples.accepting
       (Samples.cycle_of Samples.two_blocks_html
        ++ Samples.cycle_of Samples.nine_seats_html)
       Monitor.start).
Proof.
  apply (unavailable_query_is_skipped Samples.pages). reflexivity.
Defined.

Lemma every_alert_is_for_an_offered_train_witness :
  exists a cycle q,
    a ∈ Monitor.dispatched
          (Monitor.run Samples.pages Samples.accepting Samples.three_cycles
             Monitor.start)
    /\ Monitor.alert_train a = Samples.nine_seats
    /\ cycle ∈ Samples.three_cycles /\ q ∈ cycle
    /\ alert_of Samples.pages q a.
Proof.
  pose (a := {| Monitor.alert_train := Samples.nine_seats;
                Monitor.alert_date := Samples.sample_date;
                Monitor.alert_schedule_type := py "express" |}).
  assert (Ha : a ∈ Monitor.dispatched
                     (Monitor.run Samples.pages Samples.accepting
                        Samples.three_cycles Monitor.start)).
  { assert (E : exists first,
               Monitor.dispatched
                 (Monitor.run Samples.pages Samples.accepting Samples.three_cycles
                    Monitor.start)
               = first ++ [a]).
    { eexists [_; _]. vm_compute. reflexivity. }
    destruct E as [first ->]. apply elem_of_app. right. apply list_elem_of_here. }
  destruct (every_alert_is_for_an_offered_train Samples.pages Samples.accepting
              Samples.three_cycles a Ha)
    as (cycle & q & Hc & Hq & Hof).
  exists a, cycle, q. done.
Defined.

(** ** Blocks, trains and log records *)

Lemma omap_and_failures {A B} (f : A -> option B) (l : list A) :
  (length (omap f l)
   + length (List.filter (fun x => bool_decide (f x = None)) l))%nat
  = length l.
Proof.
  induction l as [|x l IH]; [done|]. simpl.
  destruct (f x) eqn:E; simpl.
  - f_equal. exact IH.
  - rewrite Nat.add_succ_r. f_equal. exact IH.
Qed.

Lemma check_availability_logged_container
    {RT : Runtime} (html_parser : pystr -> soup) (html : pystr)
    (form_tags : element) :
  html <> [] ->
  Monitor.fully_booked (html_parser html) = false ->
  find_element container (root (html_parser html)) = Some form_tags ->
  Monitor.check_availability_logged html_parser (Some html)
  = ((true, omap Monitor.parse_form (Monitor.booking_forms form_tags)),
     List.map dropped
       (List.filter (fun f => bool_decide (Monitor.parse_form f = None))
          (Monitor.booking_forms form_tags))).
Proof.
  intros Hne Hfb Hc. unfold Monitor.check_availability_logged.
  destruct html; [done|]. rewrite Hfb. fold container. rewrite Hc.
  destruct (fold_left _ _ _) as [trains lg] eqn:E.
  pose proof (monitor_form_steps (Monitor.booking_forms form_tags) [] []) as Ht.
  pose proof (monitor_form_steps_log (Monitor.booking_forms form_tags) [] []) as Hl.
  rewrite E in Ht, Hl. simpl in Ht, Hl. by subst.
Qed.

(** Every block of the results container is accounted for: it gives one
    train of the result or one ERROR record of the log, and the log of the
    interpreter holds nothing else. The records are those of the blocks
    whose extraction raised, in the order of the blocks, each with the text
    of its exception after ["Error parsing train data: "]. *)
Theorem every_block_is_parsed_or_logged
    {RT : Runtime} (html_parser : pystr -> soup) (html : pystr)
    (form_tags : element) :
  html <> [] ->
  Monitor.fully_booked (html_parser html) = false ->
  find_element container (root (html_parser html)) = Some form_tags ->
  let result := Monitor.check_availability_logged html_parser (Some html) in
  (length (snd (fst result)) + length (snd result))%nat
  = length (Monitor.booking_forms form_tags)
  /\ snd result
     = List.map dropped
         (List.filter (fun f => bool_decide (Monitor.parse_form f = None))
            (Monitor.booking_forms form_tags)).
Proof.
  intros Hne Hfb Hc result. unfold result.
  rewrite (check_availability_logged_container _ _ _ Hne Hfb Hc). simpl.
  split; [|done]. rewrite length_map. apply omap_and_failures.
Qed.

Lemma every_block_is_parsed_or_logged_witness :
  let result :=
    Monitor.check_availability_logged Samples.pages (Some Samples.three_blocks_html) in
  length (snd (fst result)) = 2%nat
  /\ snd result
     = [(ERROR,
         py "Error parsing train data: invalid literal for int() with base 10: '"
         ++ [178] ++ py "'")].
Proof.
  pose (form_tags := default (root []) (find_element container
          (root (Samples.pages Samples.three_blocks_html)))).
  destruct (every_block_is_parsed_or_logged Samples.pages
              Samples.three_blocks_html form_tags) as [Hn Hl].
  - vm_compute. discriminate.
  - vm_compute. reflexivity.
  - vm_compute. reflexivity.
  - split; [|rewrite Hl]; vm_compute; reflexivity.
Defined.

(** ** Seat counts in both scripts *)

Section MainSeats.
Context {RT : Runtime}.
Variable html_parser : pystr -> soup.

Lemma main_parse_form_seats_ok (form : element) (train : train_data) :
  Main.parse_form form = Some train -> seats_ok train.
Proof.
  unfold Main.parse_form, class_buttons.
  apply (for_each_invariant seats_ok).
  - intros b s s'. apply class_button_seats_ok.
  - intros k [-> | ->]; simpl; rewrite time_divs_keys by done;
      destruct (find _ (fst form)); by rewrite ?lookup_insert_ne, lookup_empty.
Qed.

Lemma parse_available_trains_from (html_content : option pystr) (train : train_data) :
  train ∈ Main.parse_available_trains html_parser html_content ->
  exists form, Main.parse_form form = Some train.
Proof.
  unfold Main.parse_available_trains, Main.parse_available_trains_logged.
  destruct html_content as [[|c html]|]; simpl; try by intros ?%elem_of_nil.
  destruct (find_element _ _) as [ft|]; [|by intros ?%elem_of_nil].
  rewrite main_form_steps. simpl.
  intros (form & _ & Hf)%list_elem_of_omap. eauto.
Qed.

End MainSeats.

(** Whatever the page, a seat count that either script returns is an
    integer and is not negative, for first class and for economy. *)
Theorem seat_counts_are_never_negative
    {RT : Runtime} (html_parser : pystr -> soup) (html_content : option pystr) :
  Forall seats_ok (snd (Monitor.check_availability html_parser html_content))
  /\ Forall seats_ok (Main.parse_available_trains html_parser html_content).
Proof.
  split; apply Forall_forall; intros train Ht.
  - destruct (check_availability_trains html_parser _ _ Ht) as (_ & form & Hf).
    by apply (parse_form_seats_ok form).
  - destruct (parse_available_trains_from html_parser _ _ Ht) as (form & Hf).
    by apply (main_parse_form_seats_ok form).
Qed.

(** [get_seat_availability] on a train of [parse_available_trains]: the
    answer is an integer that is not negative, and it is 0 for a class that
    the train does not have and for a class type other than ['first'] and
    ['economy']. *)
Theorem get_seat_availability_is_a_count
    {RT : Runtime} (html_parser : pystr -> soup) (html_content : option pystr)
    (train : train_data) (class_type : pystr) :
  train ∈ Main.parse_available_trains html_parser html_content ->
  exists z,
    Main.get_seat_availability train class_type = VInt z
    /\ (0 <= z)%Z
    /\ (class_type <> py "first" -> class_type <> py "economy" -> z = 0%Z)
    /\ (class_type = py "first" -> train !! "first_class_seats" = None -> z = 0%Z)
    /\ (class_type = py "economy" -> train !! "economy_seats" = None -> z = 0%Z).
Proof.
  intros Ht.
  destruct (parse_available_trains_from html_parser _ _ Ht) as (form & Hf).
  apply main_parse_form_seats_ok in Hf.
  destruct (seats_ok_get train first_class Hf) as (f & Ef & Hf0); [by left|].
  destruct (seats_ok_get train economy Hf) as (e & Ee & He0); [by right|].
  unfold Monitor.get_or_zero in Ef, Ee. simpl in Ef, Ee.
  unfold Main.get_seat_availability.
  destruct (str_eqb class_type (py "first")) eqn:E1.
  { apply str_eqb_eq in E1. subst class_type. exists f.
    split; [exact Ef|]. split; [exact Hf0|]. split; [by intros H; destruct H|].
    split.
    - intros _ Hnone. rewrite Hnone in Ef. by injection Ef as <-.
    - intros Habs. vm_compute in Habs. discriminate Habs. }
  destruct (str_eqb class_type (py "economy")) eqn:E2.
  { apply str_eqb_eq in E2. subst class_type. exists e.
    split; [exact Ee|]. split; [exact He0|].
    split; [by intros _ H; destruct H|]. split.
    - intros Habs. vm_compute in Habs. discriminate Habs.
    - intros _ Hnone. rewrite Hnone in Ee. by injection Ee as <-. }
  exists 0%Z. split; [done|]. split; [lia|]. split; [done|]. split.
  - intros Heq. rewrite Heq, str_eqb_refl in E1. discriminate E1.
  - intros Heq. rewrite Heq, str_eqb_refl in E2. discriminate E2.
Qed.

Lemma get_seat_availability_is_a_count_witness :
  exists train,
    train ∈ Main.parse_available_trains Samples.pages (Some Samples.two_blocks_html)
    /\ Main.get_seat_availability train (py "first") = VInt 12
    /\ Main.get_seat_availability train (py "economy") = VInt 0.
Proof.
  pose (train := default ∅ (head (Main.parse_available_trains Samples.pages
                                   (Some Samples.two_blocks_html)))).
  assert (Ht : train ∈ Main.parse_available_trains Samples.pages
                         (Some Samples.two_blocks_html)).
  { assert (E : exists rest,
               Main.parse_available_trains Samples.pages (Some Samples.two_blocks_html)
               = train :: rest) by (eexists; vm_compute; reflexivity).
    destruct E as [rest ->]. apply list_elem_of_here. }
  exists train. split; [exact Ht|].
  destruct (get_seat_availability_is_a_count Samples.pages _ train (py "economy") Ht)
    as (z & Hz & _ & _ & _ & Hnone).
  split; [vm_compute; reflexivity|].
  rewrite Hz. f_equal. apply Hnone; [reflexivity|vm_compute; reflexivity].
Defined.



(** ** The number read from a button label *)

Section ButtonLabels.
Context {RT : Runtime}.

Lemma split_first_piece (piece tail : pystr) :
  Forall (fun c => c <> 45) piece ->
  tail = [] \/ (exists t, tail = 45 :: t) ->
  exists ws, split 45 (piece ++ tail) = piece :: ws.
Proof.
  intros Hp Ht. induction Hp as [|c piece Hc _ IH]; simpl.
  - destruct Ht as [-> | [t ->]]; simpl; eauto.
  - destruct IH as [ws IH].
    destruct (split_cons_ne 45 c (piece ++ tail) Hc) as (w & ws' & E1 & E2).
    simpl in E2. rewrite E2. rewrite IH in E1. injection E1 as <- <-. eauto.
Qed.

Lemma ascii_digit_isascii (c : N) : ascii_digit c = true -> isascii c = true.
Proof.
  unfold ascii_digit, isascii. intros [_ H]%andb_true_iff.
  apply N.leb_le in H. apply N.ltb_lt. lia.
Qed.

Lemma filter_isdigit_ascii (s : pystr) :
  Forall (fun c => isascii c = true) s ->
  List.filter isdigit s = List.filter ascii_digit s.
Proof.
  induction 1 as [|c s Hc _ IH]; simpl; [done|].
  unfold isdigit at 1. by rewrite Hc, IH.
Qed.

Lemma filter_all {A} (p : A -> bool) (l : list A) :
  Forall (fun x => p x = true) (List.filter p l).
Proof.
  induction l as [|x l IH]; simpl; [constructor|].
  destruct (p x) eqn:E; [by constructor|done].
Qed.

Lemma digits_value_ascii (digits : pystr) :
  Forall (fun c => ascii_digit c = true) digits ->
  forall acc,
    digits_value acc digits
    = Some (fold_left (fun acc c => 10 * acc + (c - 48)) digits acc).
Proof.
  induction 1 as [|c digits Hc _ IH]; intros acc; simpl; [done|].
  unfold decimal. by rewrite (ascii_digit_isascii c Hc), Hc, IH.
Qed.

Lemma py_int_ascii (digits : pystr) :
  digits <> [] ->
  Forall (fun c => ascii_digit c = true) digits ->
  int_max_str_digits = 0%nat \/ (length digits <= int_max_str_digits)%nat ->
  py_int digits = Some (Z.of_N (number_of digits)).
Proof.
  intros Hne Hd Hl. unfold py_int, number_of.
  destruct digits as [|c digits]; [done|].
  assert (E : (0 <? int_max_str_digits)%nat
              && (int_max_str_digits <? length (c :: digits))%nat = false).
  { destruct Hl as [-> | Hl]; [done|].
    apply andb_false_iff. right. apply Nat.ltb_ge. exact Hl. }
  rewrite E. by rewrite digits_value_ascii.
Qed.

End ButtonLabels.

(** The seat count of a class button is the number written by all the
    ASCII digits between the first and the second hyphen of its label, one
    after the other, whatever stands between them: the label
    ['FIRST CLASS - 1 of 20 left'] gives 120. *)
Theorem button_seats_joins_the_digits
    {RT : Runtime} (before piece tail : pystr) :
  Forall (fun c => c <> 45) before ->
  Forall (fun c => c <> 45) piece ->
  Forall (fun c => isascii c = true) piece ->
  tail = [] \/ (exists t, tail = 45 :: t) ->
  List.filter ascii_digit piece <> [] ->
  int_max_str_digits = 0%nat
  \/ (length (List.filter ascii_digit piece) <= int_max_str_digits)%nat ->
  button_seats (before ++ 45 :: piece ++ tail)
  = Some (Z.of_N (number_of (List.filter ascii_digit piece))).
Proof.
  intros Hb Hp Ha Ht Hd Hl. unfold button_seats. rewrite contains_hyphen.
  destruct (split_second before (piece ++ tail) Hb) as (w & ws & E & ->).
  destruct (split_first_piece piece tail Hp Ht) as [ws' E'].
  rewrite E' in E. injection E as <- <-.
  rewrite (filter_isdigit_ascii piece Ha).
  destruct (List.filter ascii_digit piece) as [|d digits] eqn:Ed; [done|].
  rewrite <- Ed in *. apply py_int_ascii; [done| |done].
  apply filter_all.
Qed.

Lemma button_seats_joins_the_digits_witness :
  button_seats Samples.two_piece_label = Some 120%Z.
Proof.
  apply (button_seats_joins_the_digits (py "FIRST CLASS ") (py " 1 of 20 left") []).
  - apply (Forall_forallb (fun c => negb (c =? 45))); [|vm_compute; reflexivity].
    intros c Hc ->. discriminate Hc.
  - apply (Forall_forallb (fun c => negb (c =? 45))); [|vm_compute; reflexivity].
    intros c Hc ->. discriminate Hc.
  - apply (Forall_forallb isascii); [done|vm_compute; reflexivity].
  - by left.
  - vm_compute. discriminate.
  - right. vm_compute. lia.
Defined.

(** ** The column layout does not raise *)

Section ColumnTitles.
Context {RT : Runtime}.

Lemma match_seats_digits (s : pystr) :
  forall g r,
    match_seats g s = Some r ->
    r <> []
    /\ exists more,
         r = g ++ more
         /\ Forall (fun c => isdecimal c = true) more
         /\ (length more <= length s)%nat.
Proof.
  induction s as [|c s IH]; intros g r; cbn [match_seats]; [discriminate|].
  destruct (if isdecimal c then match_seats (g ++ [c]) s else None) as [r'|] eqn:E.
  - intros [= <-]. destruct (isdecimal c) eqn:Hc; [|discriminate].
    destruct (IH _ _ E) as (Hne & more & -> & Hm & Hl).
    split; [done|]. exists (c :: more).
    split; [by rewrite <- app_assoc|]. split; [by constructor|simpl; lia].
  - destruct g as [|x g]; [discriminate|].
    destruct (spaces_then_SEATS false (c :: s)); [|discriminate].
    intros [= <-]. split; [done|]. exists [].
    split; [by rewrite app_nil_r|]. split; [constructor|simpl; lia].
Qed.

Lemma search_seats_digits (s r : pystr) :
  search_seats s = Some r ->
  r <> [] /\ Forall (fun c => isdecimal c = true) r /\ (length r <= length s)%nat.
Proof.
  induction s as [|c s IH]; cbn [search_seats match_seats].
  - discriminate.
  - destruct (if isdecimal c then match_seats ([] ++ [c]) s else None) as [r'|] eqn:E.
    + intros [= <-]. destruct (isdecimal c) eqn:Hc; [|discriminate].
      destruct (match_seats_digits _ _ _ E) as (Hne & more & -> & Hm & Hl).
      split; [done|]. split; [by constructor|simpl; lia].
    + intros H. destruct (IH H) as (Hne & Hd & Hl).
      split; [done|]. split; [done|]. simpl. lia.
Qed.

Lemma digits_value_total (r : pystr) :
  Forall (fun c => isdecimal c = true) r ->
  forall acc, is_Some (digits_value acc r).
Proof.
  induction 1 as [|c r Hc _ IH]; intros acc; simpl; [eauto|].
  unfold isdecimal in Hc. destruct (decimal c); [apply IH|discriminate].
Qed.

Lemma title_seats_total (title_text : pystr) :
  int_max_str_digits = 0%nat \/ (length title_text <= int_max_str_digits)%nat ->
  is_Some (Monitor.title_seats title_text).
Proof.
  intros Hl. unfold Monitor.title_seats.
  destruct (search_seats title_text) as [r|] eqn:E; [|eauto].
  destruct (search_seats_digits _ _ E) as (Hne & Hd & Hr).
  unfold py_int. destruct r as [|c r]; [done|].
  assert (El : (0 <? int_max_str_digits)%nat
               && (int_max_str_digits <? length (c :: r))%nat = false).
  { destruct Hl as [-> | Hl]; [done|].
    apply andb_false_iff. right. apply Nat.ltb_ge. lia. }
  rewrite El. destruct (digits_value_total _ Hd 0) as [n ->]. simpl. eauto.
Qed.

Lemma column_total (col : node) st :
  title_within_limit col -> is_Some (Monitor.column col st).
Proof.
  intros Hl. unfold Monitor.column.
  destruct (find _ col) as [title|] eqn:E; [|eauto].
  destruct (title_seats_total (upper (strip (text title))) (Hl title E)) as [z ->].
  eauto.
Qed.

Lemma columns_total (cols : list node) :
  Forall title_within_limit cols ->
  forall st, is_Some (for_each Monitor.column cols st).
Proof.
  induction 1 as [|col cols Hc _ IH]; intros st; simpl; [eauto|].
  destruct (column_total col st Hc) as [st' ->]. apply IH.
Qed.

End ColumnTitles.

(** A block read in the column layout is never dropped for its seat
    numbers: when a column of the block has a box title and no title is
    longer than the interpreter's limit on the digits of an integer, the
    extraction of the block does not raise. The failure of the button layout
    on digits that are no decimals cannot occur here. *)
Theorem column_layout_does_not_raise {RT : Runtime} (form : element) :
  has_box_title form = true ->
  Forall title_within_limit (class_columns form) ->
  is_Some (Monitor.parse_form form).
Proof.
  intros Hb Hl. rewrite parse_form_by_layout, Hb. unfold Monitor.columns.
  change (find_all _ (fst form)) with (class_columns form).
  destruct (columns_total _ Hl (named_train form, false)) as [st ->].
  simpl. eauto.
Qed.

Lemma column_layout_does_not_raise_witness :
  is_Some (Monitor.parse_form (Samples.alone Samples.form_columns)).
Proof.
  apply column_layout_does_not_raise.
  - vm_compute. reflexivity.
  - apply (Forall_forallb
             (fun col =>
                match find (by_class "h4" ["box-title"]) col with
                | Some title =>
                    (length (upper (strip (text title))) <=? 4300)%nat
                | None => true
                end)).
    + intros col Hc title Ht. right. rewrite Ht in Hc.
      apply Nat.leb_le in Hc. exact Hc.
    + vm_compute. reflexivity.
Defined.

(** ** The prices of a column *)


(** The last matching row gives the price. Of the [dl.details] rows of a
    column that have a [dt] and a [dd], the adult price is the [dd] of the
    last row whose label contains "adult", and the child price is the [dd]
    of the last row whose label contains "children" and "3 - 11" and not
    "adult"; a price with no such row is "N/A". *)
Theorem last_matching_row_gives_the_price {RT : Runtime} (col : node) :
  let rows := find_all (by_class "dl" ["details"]) col in
  last_price (List.filter adult_row rows) (fst (Monitor.column_prices col))
  /\ last_price (List.filter child_row rows) (snd (Monitor.column_prices col)).
Proof.
  intros rows. unfold last_price, Monitor.column_prices.
  destruct (details_steps_last rows (py "N/A", py "N/A")) as [Ha Hc].
  fold rows. split.
  - destruct (last (List.filter adult_row rows)); [exact Ha|exact Ha].
  - destruct (last (List.filter child_row rows)); [exact Hc|exact Hc].
Qed.

(** ** The configuration *)

Lemma validate_steps_object (ds : list (pystr * Config.json)) :
  forall m,
    for_each Config.validate_step ds (Config.JObject m)
    = Some (Config.JObject (m ∪ list_to_map ds)).
Proof.
  induction ds as [|[k v] ds IH]; intros m; simpl.
  - by rewrite (right_id_L ∅ (∪)).
  - unfold Config.validate_step. simpl.
    destruct (m !! k) as [w|] eqn:E; simpl; rewrite IH; do 2 f_equal.
    + apply map_eq. intros i. rewrite !lookup_union.
      destruct (decide (i = k)) as [->|Hn].
      * rewrite lookup_insert_eq, E. simpl. by destruct (list_to_map ds !! k).
      * by rewrite lookup_insert_ne.
    + apply map_eq. intros i. rewrite !lookup_union.
      destruct (decide (i = k)) as [->|Hn].
      * rewrite !lookup_insert_eq, E. simpl. by destruct (list_to_map ds !! k).
      * by rewrite !lookup_insert_ne.
Qed.

Lemma validate_steps_other (v : Config.json) (ds : list (pystr * Config.json)) :
  (forall m, v <> Config.JObject m) ->
  for_each Config.validate_step ds v = None
  \/ for_each Config.validate_step ds v = Some v.
Proof.
  intros Hv. induction ds as [|[k d] ds IH]; simpl; [by right|].
  unfold Config.validate_step. simpl.
  destruct (Config.key_in k v) as [[|]|]; [exact IH| |by left].
  destruct v; simpl; try by left. by destruct (Hv members).
Qed.

(** What [get] returns once the configuration is built. When the file is
    read as a JSON object, or is missing or cannot be decoded (no member
    then), the constructor returns, and [get(key, default)] gives the value
    of the file when the file has the key, whatever that value is; else the
    built-in value when the key is one of the six essential keys; else
    [default]. *)
Theorem get_after_construction
    (config_path : pystr) (file : Config.config_file)
    (m : gmap pystr Config.json) (key : pystr) (d : Config.json) :
  file_members file = Some m ->
  exists config,
    fst (Config.config_manager config_path file) = Some config
    /\ Config.get config key d
       = Some (default (default d (built_in key)) (m !! key)).
Proof.
  intros Hm.
  assert (E : fst (Config.config_manager config_path file)
              = Config.validate_config (Config.JObject m)).
  { destruct file as [| | |[]]; simpl in Hm; try discriminate;
      by injection Hm as <-. }
  rewrite E. unfold Config.validate_config. rewrite validate_steps_object.
  eexists. split; [reflexivity|]. unfold built_in. simpl Config.get.
  rewrite lookup_union. f_equal.
  destruct (m !! key); simpl; [by destruct (_ !! key)|].
  by destruct (_ !! key).
Qed.

Lemma get_after_construction_witness :
  exists config,
    fst (Config.config_manager (py "config.json") Samples.dates_only) = Some config
    /\ Config.get config (py "dates") Config.JNull
       = Some (Config.JArray [Config.jstr "02/01/2026"])
    /\ Config.get config (py "train_types") Config.JNull
       = Some (Config.JArray [Config.jstr "express"; Config.jstr "inter_county"]).
Proof.
  pose (m := <[py "dates" := Config.JArray [Config.jstr "02/01/2026"]]> ∅
             : gmap pystr Config.json).
  destruct (get_after_construction (py "config.json") Samples.dates_only m
              (py "dates") Config.JNull eq_refl) as (config & E & G).
  destruct (get_after_construction (py "config.json") Samples.dates_only m
              (py "train_types") Config.JNull eq_refl) as (config' & E' & G').
  rewrite E in E'. injection E' as <-.
  exists config. split; [exact E|]. split.
  - rewrite G. vm_compute. reflexivity.
  - rewrite G'. vm_compute. reflexivity.
Defined.

(** A configuration file whose top level is no JSON object is not usable:
    the constructor raises, or it leaves the value of the file as it is,
    and every [get] on it raises. *)
Theorem non_object_config_is_unusable (v : Config.json) :
  (forall m, v <> Config.JObject m) ->
  Config.validate_config v = None
  \/ (Config.validate_config v = Some v
      /\ forall key d, Config.get v key d = None).
Proof.
  intros Hv. destruct (validate_steps_other v Config.defaults Hv) as [E|E].
  - by left.
  - right. split; [exact E|]. intros key d.
    destruct v; try done. by destruct (Hv members).
Qed.

Lemma non_object_config_is_unusable_witness :
  Config.validate_config Samples.six_keys = None
  \/ (Config.validate_config Samples.six_keys = Some Samples.six_keys
      /\ forall key d, Config.get Samples.six_keys key d = None).
Proof.
  apply non_object_config_is_unusable. intros m. discriminate.
Defined.

(** ** The searches of a cycle *)

Lemma times_to_check_express (departure_times : list pystr) (schedule_type : pystr) :
  Schedule.times_to_check departure_times schedule_type
  = if express schedule_type then departure_times else [py "08.00"].
Proof.
  unfold Schedule.times_to_check, express.
  destruct (str_eqb schedule_type (py "inter_county")) eqn:E; [|done].
  apply str_eqb_eq in E. by subst.
Qed.

Lemma searches_elem (dates train_types departure_times : list pystr)
    (date schedule_type time_val : pystr) :
  (date, schedule_type, time_val)
    ∈ Schedule.searches dates train_types departure_times
  <-> date ∈ dates
      /\ schedule_type ∈ train_types
      /\ (if express schedule_type
          then time_val ∈ departure_times
          else time_val = py "08.00").
Proof.
  unfold Schedule.searches.
  rewrite list_elem_of_In, in_flat_map. split.
  - intros (d & Hd & H). apply in_flat_map in H as (st & Hst & H).
    apply in_map_iff in H as (tm & [= <- <- <-] & Htm).
    rewrite times_to_check_express in Htm.
    split; [by apply list_elem_of_In|]. split; [by apply list_elem_of_In|].
    destruct (express st); [by apply list_elem_of_In|].
    by destruct Htm as [<-|[]].
  - intros (Hd & Hst & Htm). exists date. split; [by apply list_elem_of_In|].
    apply in_flat_map. exists schedule_type. split; [by apply list_elem_of_In|].
    apply in_map_iff. exists time_val. split; [done|].
    rewrite times_to_check_express.
    destruct (express schedule_type); [by apply list_elem_of_In|].
    subst. by left.
Qed.

Lemma searches_length (dates train_types departure_times : list pystr) :
  length (Schedule.searches dates train_types departure_times)
  = turns dates train_types departure_times.
Proof.
  unfold Schedule.searches, turns.
  assert (E : length
                (flat_map
                   (fun schedule_type : pystr =>
                      List.map (fun time_val : pystr => (schedule_type, time_val))
                        (Schedule.times_to_check departure_times schedule_type))
                   train_types)
              = (length (List.filter express train_types) * length departure_times
                 + length (List.filter (fun st => negb (express st)) train_types))%nat).
  { induction train_types as [|st tts IH]; [done|]. simpl.
    rewrite length_app, length_map, IH, times_to_check_express.
    destruct (express st); simpl; lia. }
  induction dates as [|d dates IH]; [done|]. simpl.
  rewrite length_app, IH. f_equal.
  rewrite <- E. clear. induction train_types as [|st tts IH]; [done|]. simpl.
  rewrite !length_app, !length_map. by rewrite IH.
Qed.

Lemma until_raised_ext {A S} (body body' : S -> A -> outcome S) (l : list A) :
  (forall s x, body s x = body' s x) ->
  forall s, until_raised body l s = until_raised body' l s.
Proof.
  intros H. induction l as [|x l IH]; intros s; simpl; [done|].
  rewrite H. destruct (body' s x); [apply IH|done].
Qed.

Section Cycle.
Context {RT : Runtime}.
Variable html_parser : pystr -> soup.
Variable telegram : nat -> Monitor.sending.
Variable search_trains : nat -> pystr -> pystr -> pystr -> option pystr.

(** A cycle is the loop over its queries when the route has its two ids,
    and does nothing else: the first turn raises. *)
Lemma check_job_queries (route : Config.json)
    (dates train_types departure_times : list pystr) (m : Monitor.monitor) :
  Schedule.check_job html_parser telegram search_trains route
    dates train_types departure_times m
  = if has_ids route
    then Monitor.check_job html_parser telegram
           (queries_of search_trains dates train_types departure_times) m
    else m.
Proof.
  unfold Schedule.check_job, has_ids, Monitor.check_job, Monitor.check_job_loops,
    queries_of.
  generalize (imap (fun i turn => (i, turn))
                (Schedule.searches dates train_types departure_times)).
  intros l.
  destruct (Config.getitem route (py "terminal_id")) as [t|] eqn:Et;
    [destruct (Config.getitem route (py "destination_id")) as [d|] eqn:Ed|]; simpl.
  - rewrite <- until_raised_map. f_equal. apply until_raised_ext.
    intros s [i [[date st] tm]]. unfold Schedule.search_step. by rewrite Et, Ed.
  - destruct l as [|[i [[date st] tm]] l]; [done|].
    simpl. unfold Schedule.search_step. by rewrite Et, Ed.
  - destruct l as [|[i [[date st] tm]] l]; [done|].
    simpl. unfold Schedule.search_step. by rewrite Et.
Qed.

Lemma queries_of_length (dates train_types departure_times : list pystr) :
  length (queries_of search_trains dates train_types departure_times)
  = turns dates train_types departure_times.
Proof.
  unfold queries_of. by rewrite length_map, length_imap, searches_length.
Qed.

Lemma queries_of_elem (dates train_types departure_times : list pystr)
    (q : Monitor.query) :
  q ∈ queries_of search_trains dates train_types departure_times
  <-> exists i,
        Schedule.searches dates train_types departure_times !! i
        = Some (Monitor.query_date q, Monitor.query_schedule_type q,
                Monitor.query_time q)
        /\ Monitor.query_html q
           = search_trains i (Monitor.query_schedule_type q) (Monitor.query_date q)
               (Monitor.query_time q).
Proof.
  unfold queries_of. rewrite list_elem_of_fmap. split.
  - intros ([i [[date st] tm]] & -> & Hin).
    apply elem_of_lookup_imap_1 in Hin as (j & turn & [= -> <-] & Hj).
    exists j. by split.
  - intros (i & Hi & Hh). exists (i, (Monitor.query_date q,
      Monitor.query_schedule_type q, Monitor.query_time q)).
    split; [destruct q; simpl in *; by rewrite Hh|].
    by apply (elem_of_lookup_imap_2 (fun i turn => (i, turn))).
Qed.

(** The searches that a cycle makes. *)
Lemma check_job_made (route : Config.json)
    (dates train_types departure_times : list pystr) (m : Monitor.monitor) :
  exists made,
    Monitor.searched
      (Schedule.check_job html_parser telegram search_trains route
         dates train_types departure_times m)
    = Monitor.searched m ++ made
    /\ made `prefix_of` queries_of search_trains dates train_types departure_times
    /\ (has_ids route = false -> made = [])
    /\ (has_ids route = true -> always_returns telegram ->
        made = queries_of search_trains dates train_types departure_times).
Proof.
  rewrite check_job_queries. destruct (has_ids route).
  - destruct (check_job_searched html_parser telegram
                (queries_of search_trains dates train_types departure_times) m)
      as (made & E & Hp & Hall).
    exists made. split; [done|]. split; [done|]. split; [done|].
    intros _ Hr. apply Hall.
    by destruct (check_job_returns html_parser telegram
                   (queries_of search_trains dates train_types departure_times) Hr m).
  - exists []. rewrite app_nil_r. split; [done|]. split; [apply prefix_nil|].
    split; done.
Qed.

End Cycle.

(** The searches of a cycle are those of the configuration, as far as the
    cycle gets. A cycle calls [search_trains] for the first turns of its
    three loops, in their order; for none of them when the route lacks one
    of its two ids, and for all of them when the route has both and every
    call of [send_notifications] returns. The turns are those of the
    configuration: a turn is for a date, a schedule type and a departure
    time exactly when the date and the type are configured and the time
    is, for the type "express", one of the configured departure times and,
    for any other type, "08.00". *)
Theorem searches_of_a_cycle
    {RT : Runtime} (html_parser : pystr -> soup) (telegram : nat -> Monitor.sending)
    (search_trains : nat -> pystr -> pystr -> pystr -> option pystr)
    (route : Config.json) (dates train_types departure_times : list pystr)
    (m : Monitor.monitor) :
  let turns_of_the_loops :=
    queries_of search_trains dates train_types departure_times in
  (exists made,
     Monitor.searched
       (Schedule.check_job html_parser telegram search_trains route
          dates train_types departure_times m)
     = Monitor.searched m ++ made
     /\ made `prefix_of` turns_of_the_loops
     /\ (has_ids route = false -> made = [])
     /\ (has_ids route = true -> always_returns telegram ->
         made = turns_of_the_loops))
  /\ (forall date schedule_type time_val,
        (exists q, q ∈ turns_of_the_loops
                   /\ Monitor.query_date q = date
                   /\ Monitor.query_schedule_type q = schedule_type
                   /\ Monitor.query_time q = time_val)
        <-> date ∈ dates
            /\ schedule_type ∈ train_types
            /\ (if express schedule_type
                then time_val ∈ departure_times
                else time_val = py "08.00")).
Proof.
  intros turns_of_the_loops. split; [apply check_job_made|].
  intros date schedule_type time_val. rewrite <- searches_elem. split.
  - intros (q & (i & Hi & _)%queries_of_elem & <- & <- & <-).
    by apply list_elem_of_lookup_2 in Hi.
  - intros (i & Hi)%list_elem_of_lookup_1.
    exists {| Monitor.query_date := date;
              Monitor.query_schedule_type := schedule_type;
              Monitor.query_time := time_val;
              Monitor.query_html := search_trains i schedule_type date time_val |}.
    split; [|done]. apply queries_of_elem. by exists i.
Qed.

(** The number of requests of a cycle is at most, for each configured
    date, one per configured departure time for each "express" entry of
    the train types and one for each other entry. It is that number when
    the route has its two ids and every call of [send_notifications]
    returns, and none when the route lacks an id. *)
Theorem searches_per_cycle
    {RT : Runtime} (html_parser : pystr -> soup) (telegram : nat -> Monitor.sending)
    (search_trains : nat -> pystr -> pystr -> pystr -> option pystr)
    (route : Config.json) (dates train_types departure_times : list pystr)
    (m : Monitor.monitor) :
  exists made,
    Monitor.searched
      (Schedule.check_job html_parser telegram search_trains route
         dates train_types departure_times m)
    = Monitor.searched m ++ made
    /\ (length made <= turns dates train_types departure_times)%nat
    /\ (has_ids route = false -> length made = 0%nat)
    /\ (has_ids route = true -> always_returns telegram ->
        length made = turns dates train_types departure_times).
Proof.
  destruct (check_job_made html_parser telegram search_trains route
              dates train_types departure_times m) as (made & E & Hp & Hno & Hall).
  exists made. split; [done|].
  rewrite <- (queries_of_length search_trains). split; [by apply prefix_length|].
  split.
  - intros H. by rewrite (Hno H).
  - intros H Hr. by rewrite (Hall H Hr).
Qed.

(** The alerts of a cycle are for its searches: a cycle adds alerts to
    those dispatched before and takes none back, and each alert it adds
    carries the date and the schedule type of a turn of the loops of the
    configuration, and a train parsed from the response to the search of
    that turn. *)
Theorem alerts_are_for_configured_searches
    {RT : Runtime} (html_parser : pystr -> soup) (telegram : nat -> Monitor.sending)
    (search_trains : nat -> pystr -> pystr -> pystr -> option pystr)
    (route : Config.json) (dates train_types departure_times : list pystr)
    (m : Monitor.monitor) :
  exists more,
    Monitor.dispatched
      (Schedule.check_job html_parser telegram search_trains route
         dates train_types departure_times m)
    = Monitor.dispatched m ++ more
    /\ Forall (searched_for html_parser search_trains dates train_types departure_times)
         more.
Proof.
  rewrite check_job_queries. destruct (has_ids route);
    [|exists []; by rewrite app_nil_r].
  destruct (check_job_dispatched html_parser telegram
              (queries_of search_trains dates train_types departure_times) m)
    as (more & E & H).
  exists more. split; [exact E|].
  eapply Forall_impl; [exact H|]. intros a (q & Hq & Ht & Hd & Hs).
  apply queries_of_elem in Hq as (i & Hi & Hh).
  exists i, (Monitor.query_time q). rewrite Hd, Hs, <- Hh. by split.
Qed.
